(** * negative-viz-journal: the local data layer, embedded and verified

    A shallow embedding of the journaling application's core: [dbUtils]
    ([src/lib/database.ts]), [promptUtils], [cryptoUtils] and
    [TelemetryService] ([src/lib/telemetry.ts]), together with the
    properties of its streak engine, prompt scheduler, PIN hashing,
    telemetry outbox and export.

    Conventions of the embedding:
    - JavaScript integers that stay far below 2^53 (day counts, streak
      counters, epoch milliseconds) are [Z]; [NaN] and [undefined] are the
      [None] of an [option].
    - A [Date] is its time value, epoch milliseconds in [Z]; the device
      timezone is a fixed offset in minutes with the sign convention of
      [Date.prototype.getTimezoneOffset] (UTC minus local).
    - The four Dexie tables are finite maps keyed by the primary key (the
      prompts table is kept as the row list [toArray()] yields).
    - [async] functions are computations in a state-and-exception monad
      over the store; every store access can throw. *)

From Stdlib Require Import ZArith Lia Bool List Ascii String.
From Stdlib.Strings Require Import Byte.
From stdpp Require Import base option strings pretty gmap list sorting.

Local Open Scope Z_scope.
Set Warnings "-register-all".

(* ===================================================================== *)
(** * The JavaScript runtime: calendar arithmetic and [Date]              *)
(* ===================================================================== *)

Module JS.

(** Milliseconds per day, [1000 * 60 * 60 * 24]. *)
Definition msPerDay : Z := 1000 * 60 * 60 * 24.

(** A calendar date, as the getters [getFullYear], [getMonth() + 1] and
    [getDate] report it. *)
Record Civil := mkCivil { c_year : Z; c_month : Z; c_day : Z }.

(** Day number (days since 1970-01-01) to proleptic Gregorian date, the
    calendar ECMA-262 prescribes for [Date]. *)
Definition civil_from_days (z : Z) : Civil :=
  let z := z + 719468 in
  let era := z / 146097 in
  let doe := z - era * 146097 in
  let yoe := (doe - doe / 1460 + doe / 36524 - doe / 146096) / 365 in
  let doy := doe - (365 * yoe + yoe / 4 - yoe / 100) in
  let mp := (5 * doy + 2) / 153 in
  let d := doy - (153 * mp + 2) / 5 + 1 in
  let m := if mp <? 10 then mp + 3 else mp - 9 in
  mkCivil (yoe + era * 400 + (if m <=? 2 then 1 else 0)) m d.

(** The inverse direction, used by [Date.parse]. *)
Definition days_from_civil (c : Civil) : Z :=
  let y := c_year c - (if c_month c <=? 2 then 1 else 0) in
  let era := y / 400 in
  let yoe := y - era * 400 in
  let mp := if c_month c >? 2 then c_month c - 3 else c_month c + 9 in
  let doy := (153 * mp + 2) / 5 + c_day c - 1 in
  let doe := yoe * 365 + yoe / 4 - yoe / 100 + doy in
  era * 146097 + doe - 719468.

(** [String(n).padStart(w, '0')] for an integer [n]. *)
Fixpoint zeros (n : nat) : string :=
  match n with
  | O => EmptyString
  | S k => String "0"%char (zeros k)
  end.

Definition padStart0 (w : nat) (n : Z) : string :=
  let s := pretty n in
  zeros (w - String.length s) +:+ s.

(** [d.getFullYear() + '-' + String(d.getMonth() + 1).padStart(2, '0')
     + '-' + String(d.getDate()).padStart(2, '0')]: the year is not
    padded. *)
Definition formatYMD (c : Civil) : string :=
  pretty (c_year c) +:+ "-" +:+ padStart0 2 (c_month c) +:+ "-" +:+ padStart0 2 (c_day c).

(** The day number a time value falls on in UTC, and on the device
    (local time is UTC minus the offset). *)
Definition utcDay (t : Z) : Z := t / msPerDay.
Definition localDay (tzOffset t : Z) : Z := (t - tzOffset * 60000) / msPerDay.

(** The date string the local getters give for a local day number. *)
Definition dayString (day : Z) : string := formatYMD (civil_from_days day).

(** [Date.prototype.toISOString]: always UTC; years outside 0..9999 use the
    signed six-digit form. *)
Definition isoYear (y : Z) : string :=
  if (0 <=? y) && (y <=? 9999) then padStart0 4 y
  else (if y <? 0 then "-" else "+") +:+ padStart0 6 (Z.abs y).

Definition isoDate (t : Z) : string :=
  let c := civil_from_days (utcDay t) in
  isoYear (c_year c) +:+ "-" +:+ padStart0 2 (c_month c) +:+ "-" +:+ padStart0 2 (c_day c).

Definition isoTime (t : Z) : string :=
  let ms := t mod msPerDay in
  padStart0 2 (ms / 3600000) +:+ ":" +:+ padStart0 2 ((ms / 60000) mod 60) +:+ ":"
    +:+ padStart0 2 ((ms / 1000) mod 60) +:+ "." +:+ padStart0 3 (ms mod 1000).

Definition toISOString (t : Z) : string := isoDate t +:+ "T" +:+ isoTime t +:+ "Z".

(** [s.split('T')[0]]: the part of [s] before its first ['T']. *)
Fixpoint splitT0 (s : string) : string :=
  match s with
  | EmptyString => EmptyString
  | String c r => if Ascii.eqb c "T"%char then EmptyString else String c (splitT0 r)
  end.

(** Decimal digits. *)
Definition digit (c : ascii) : option Z :=
  let n := Z.of_nat (nat_of_ascii c) in
  if (48 <=? n) && (n <=? 57) then Some (n - 48) else None.

Fixpoint digits (acc : Z) (cs : list ascii) : option Z :=
  match cs with
  | [] => Some acc
  | c :: r => match digit c with
              | Some d => digits (10 * acc + d) r
              | None => None
              end
  end.

Definition isLeap (y : Z) : bool :=
  (y mod 4 =? 0) && (negb (y mod 100 =? 0) || (y mod 400 =? 0)).

Definition daysInMonth (y m : Z) : Z :=
  if m =? 2 then (if isLeap y then 29 else 28)
  else if (m =? 4) || (m =? 6) || (m =? 9) || (m =? 11) then 30 else 31.

(** [new Date(s).getTime()] for the format [toISOString] writes,
    [YYYY-MM-DDTHH:mm:ss.sssZ]; [None] is [NaN] (Invalid Date). Strings in
    any other format are treated as unparseable. *)
Definition Date_parse (s : string) : option Z :=
  match list_ascii_of_string s with
  | [y1; y2; y3; y4; s1; m1; m2; s2; d1; d2; sT; h1; h2; s3; n1; n2; s4; e1; e2; s5; f1; f2; f3; sZ] =>
      if Ascii.eqb s1 "-"%char && Ascii.eqb s2 "-"%char && Ascii.eqb sT "T"%char
         && Ascii.eqb s3 ":"%char && Ascii.eqb s4 ":"%char && Ascii.eqb s5 "."%char
         && Ascii.eqb sZ "Z"%char
      then
        match digits 0 [y1; y2; y3; y4], digits 0 [m1; m2], digits 0 [d1; d2],
              digits 0 [h1; h2], digits 0 [n1; n2], digits 0 [e1; e2], digits 0 [f1; f2; f3] with
        | Some y, Some m, Some d, Some h, Some mi, Some sec, Some ms =>
            if (1 <=? m) && (m <=? 12) && (1 <=? d) && (d <=? daysInMonth y m)
               && (h <=? 23) && (mi <=? 59) && (sec <=? 59)
            then Some (days_from_civil (mkCivil y m d) * msPerDay
                       + h * 3600000 + mi * 60000 + sec * 1000 + ms)
            else None
        | _, _, _, _, _, _, _ => None
        end
      else None
  | _ => None
  end.

(** [x || d] on numbers: [0] (and [NaN]) are falsy. *)
Definition num_or (x d : Z) : Z := if x =? 0 then d else x.

(** Truthiness of an optional string: [undefined] and the empty string are
    falsy. *)
Definition truthy (s : option string) : bool :=
  match s with
  | Some (String _ _) => true
  | _ => false
  end.

(** [a === b] on optional strings. *)
Definition str_eq (a b : option string) : bool := bool_decide (a = b).

End JS.

(* ===================================================================== *)
(** * Data model ([src/lib/database.ts], the four [interface]s)           *)
(* ===================================================================== *)

Inductive Theme := light | dark | system.

Record Settings := mkSettings {
  s_id : string;
  pinSalt : option string;
  pinIterations : option Z;
  pinHash : option string;
  lockTimeoutMinutes : Z;
  dailyCueTime : option string;
  dailyCueEnabled : bool;
  notificationsEnabled : bool;
  telemetryOptIn : bool;
  telemetryAnonId : option string;
  telemetryActivationSent : option bool;
  telemetryConsecutiveDays : option Z;
  telemetryLastCompletionDate : option string;
  telemetryD7EventSent : option bool;
  swapUsedDate : option string;
  lastPromptDate : option string;
  lastPromptId : option string;
  installAt : string;
  currentTheme : Theme
}.

Inductive Source := seed | user.

Record Prompt := mkPrompt {
  p_id : string;
  p_text : string;
  gratitude_prompt : option string;
  archived : bool;
  p_created_at : string;
  source : Source
}.

Record Entry := mkEntry {
  e_id : string;
  dateLocal : string;
  prompt_id : string;
  setback : string;
  protective_step : string;
  gratitude : string;
  e_created_at : string;
  edited_at : option string;
  duration_seconds : option Z
}.

Record StreakSummary := mkStreak {
  ss_id : string;
  start_date : string;
  current_streak : Z;
  longest_streak : Z;
  last_entry_date : option string
}.

Inductive EventType := activation | daily_completion | d7_completion.

Record TelemetryEvent := mkEvent {
  ev_id : string;
  eventType : EventType;
  ev_timestamp : string;
  ev_anonId : string;
  appVersion : string;
  platform : string;
  timezone : string;
  dayNumber : option Z;
  retryCount : option Z;
  queuedAt : string
}.

(* ===================================================================== *)
(** * The store and the monad of [async] operations                       *)
(* ===================================================================== *)

(** The Dexie database [NegativeVizJournalDB]: four tables keyed by [id].
    [prompts] is the row list in the order [toArray()] returns it. *)
Record Store := mkStore {
  settings : gmap string Settings;
  prompts : list Prompt;
  entries : gmap string Entry;
  streakSummary : gmap string StreakSummary
}.

(** Everything an operation can change: the tables, the telemetry
    service's [eventQueue], and the schedule of storage failures still to
    come ([true] at the head makes the next store access throw; an empty
    schedule means the store works from then on). *)
Record World := mkWorld {
  db : Store;
  eventQueue : list TelemetryEvent;
  faults : list bool
}.

(** What an operation reads from the device: the clock ([Date.now()]), the
    timezone offset in minutes ([getTimezoneOffset]), and the random
    sources ([Math.random] as an arbitrary integer, and the base-36 suffix
    of generated ids). *)
Record Env := mkEnv {
  now : Z;
  tzOffset : Z;
  entropy : Z;
  randomSuffix : string
}.

(** How a call ends: with a value, or with an exception. *)
Inductive Result (A : Type) :=
| Ok (a : A)
| Throw (message : string).
Arguments Ok {A} a.
Arguments Throw {A} message.

(** An [async] function: from the world before the call to its outcome and
    the world after it. *)
Definition M (A : Type) : Type := World -> Result A * World.

Definition ret {A} (a : A) : M A := fun w => (Ok a, w).

(** [const a = await m; k a]: an exception of [m] ends the call. *)
Definition bind {A B} (m : M A) (k : A -> M B) : M B :=
  fun w => match m w with
           | (Ok a, w') => k a w'
           | (Throw e, w') => (Throw e, w')
           end.

Definition throw {A} (message : string) : M A := fun w => (Throw message, w).

(** [try { m } catch (error) { h }]: writes made before the exception stay. *)
Definition try_catch {A} (m : M A) (h : M A) : M A :=
  fun w => match m w with
           | (Ok a, w') => (Ok a, w')
           | (Throw _, w') => h w'
           end.

#[global] Instance M_ret : MRet M := @ret.
#[global] Instance M_bind : MBind M := fun A B k m => bind m k.

(** One access to the store: it throws when the failure schedule says so,
    and otherwise runs [f] on the tables. *)
Definition access {A} (f : Store -> A * Store) : M A :=
  fun w =>
    match faults w with
    | true :: fs => (Throw "storage unavailable", mkWorld (db w) (eventQueue w) fs)
    | false :: fs => let (a, d) := f (db w) in (Ok a, mkWorld d (eventQueue w) fs)
    | [] => let (a, d) := f (db w) in (Ok a, mkWorld d (eventQueue w) [])
    end.

Definition settings_get (k : string) : M (option Settings) :=
  access (fun d => (settings d !! k, d)).

Definition settings_put (s : Settings) : M unit :=
  access (fun d => (tt, mkStore (<[s_id s := s]> (settings d)) (prompts d) (entries d) (streakSummary d))).

Definition prompts_toArray : M (list Prompt) :=
  access (fun d => (prompts d, d)).

Definition streak_get (k : string) : M (option StreakSummary) :=
  access (fun d => (streakSummary d !! k, d)).

Definition streak_put (s : StreakSummary) : M unit :=
  access (fun d => (tt, mkStore (settings d) (prompts d) (entries d) (<[ss_id s := s]> (streakSummary d)))).

(** [db.entries.where('dateLocal').equals(date).count()]. *)
Definition countOn (date : string) (es : gmap string Entry) : Z :=
  Z.of_nat (size (filter (fun kv => dateLocal kv.2 = date) es)).

Definition entries_countOn (date : string) : M Z :=
  access (fun d => (countOn date (entries d), d)).

(** [db.entries.put(entry)]: insert or replace by primary key. *)
Definition entries_put (e : Entry) : M unit :=
  access (fun d => (tt, mkStore (settings d) (prompts d) (<[e_id e := e]> (entries d)) (streakSummary d))).

(** [db.entries.add(entry)]: as [put], but a taken key is a
    [ConstraintError]. *)
Definition entries_add (e : Entry) : M unit :=
  added ← access (fun d =>
    match entries d !! e_id e with
    | Some _ => (false, d)
    | None => (true, mkStore (settings d) (prompts d) (<[e_id e := e]> (entries d)) (streakSummary d))
    end);
  if added : bool then ret tt else throw "ConstraintError".

(** Whether a row of the prompts table has the primary key [id]. *)
Definition hasKey (id : string) (table : list Prompt) : bool :=
  existsb (fun p => String.eqb (p_id p) id) table.

(** The prompts table with [row] at its place in the order of the primary
    key. *)
Fixpoint insertByKey (row : Prompt) (table : list Prompt) : list Prompt :=
  match table with
  | [] => [row]
  | p :: rest =>
      if String.leb (p_id row) (p_id p) then row :: table else p :: insertByKey row rest
  end.

(** What [bulkAdd] does with the rows, one after the other: a row whose
    primary key is taken is a [ConstraintError] of its own and is left out,
    every other row goes in. The result is the table afterwards, and
    whether every row went in. *)
Fixpoint addRows (rows table : list Prompt) : list Prompt * bool :=
  match rows with
  | [] => (table, true)
  | row :: rows =>
      if hasKey (p_id row) table then ((addRows rows table).1, false)
      else addRows rows (insertByKey row table)
  end.

(** [db.prompts.bulkAdd(rows)], outside a transaction of the caller: the
    rows that could be added are committed, and the call rejects with a
    [BulkError] when a row could not. *)
Definition prompts_bulkAdd (rows : list Prompt) : M unit :=
  allAdded ← access (fun d =>
    let (table, allAdded) := addRows rows (prompts d) in
    (allAdded, mkStore (settings d) table (entries d) (streakSummary d)));
  if allAdded : bool then ret tt else throw "BulkError".

(* ===================================================================== *)
(** * JavaScript values and [JSON.stringify]                              *)
(* ===================================================================== *)

Inductive JsVal :=
| JUndefined
| JNull
| JBool (b : bool)
| JNum (n : Z)
| JStr (s : string)
| JArr (items : list JsVal)
| JObj (props : list (string * JsVal)).

(** A JSON document: what a JSON text denotes. *)
Inductive Json :=
| JsonNull
| JsonBool (b : bool)
| JsonNum (n : Z)
| JsonStr (s : string)
| JsonArr (items : list Json)
| JsonObj (members : list (string * Json)).

(** The document [JSON.stringify] writes for a value: a property whose
    value is [undefined] is left out, an [undefined] array element becomes
    [null], and [undefined] itself has no document. *)
Fixpoint toJson (v : JsVal) : option Json :=
  match v with
  | JUndefined => None
  | JNull => Some JsonNull
  | JBool b => Some (JsonBool b)
  | JNum n => Some (JsonNum n)
  | JStr s => Some (JsonStr s)
  | JArr items =>
      Some (JsonArr ((fix go (l : list JsVal) : list Json :=
                        match l with
                        | [] => []
                        | x :: r => match toJson x with
                                    | Some j => j :: go r
                                    | None => JsonNull :: go r
                                    end
                        end) items))
  | JObj props =>
      Some (JsonObj ((fix go (l : list (string * JsVal)) : list (string * Json) :=
                        match l with
                        | [] => []
                        | (k, x) :: r => match toJson x with
                                         | Some j => (k, j) :: go r
                                         | None => go r
                                         end
                        end) props))
  end.

(** Every member name of a document, at any depth. *)
Fixpoint fieldNames (j : Json) : list string :=
  match j with
  | JsonArr items =>
      (fix go (l : list Json) : list string :=
         match l with
         | [] => []
         | x :: r => fieldNames x ++ go r
         end) items
  | JsonObj members =>
      (fix go (l : list (string * Json)) : list string :=
         match l with
         | [] => []
         | (k, x) :: r => k :: fieldNames x ++ go r
         end) members
  | _ => []
  end.

Definition dquote : string := String (ascii_of_nat 34) EmptyString.
Definition backslash : string := String (ascii_of_nat 92) EmptyString.
Definition newline : string := String (ascii_of_nat 10) EmptyString.

Definition hexDigit (n : nat) : ascii :=
  ascii_of_nat (if Nat.ltb n 10 then 48 + n else 87 + n).

(** [QuoteJSONString]: escapes of the quote, the backslash and the control
    characters. *)
Definition escapeChar (c : ascii) : string :=
  let n := nat_of_ascii c in
  if Nat.eqb n 34 then backslash +:+ dquote
  else if Nat.eqb n 92 then backslash +:+ backslash
  else if Nat.eqb n 8 then backslash +:+ "b"
  else if Nat.eqb n 9 then backslash +:+ "t"
  else if Nat.eqb n 10 then backslash +:+ "n"
  else if Nat.eqb n 12 then backslash +:+ "f"
  else if Nat.eqb n 13 then backslash +:+ "r"
  else if Nat.ltb n 32
       then backslash +:+ "u00" +:+ String (hexDigit (Nat.div n 16)) (String (hexDigit (Nat.modulo n 16)) EmptyString)
  else String c EmptyString.

Fixpoint escape (s : string) : string :=
  match s with
  | EmptyString => EmptyString
  | String c r => escapeChar c +:+ escape r
  end.

Definition quoteJSON (s : string) : string := dquote +:+ escape s +:+ dquote.

Fixpoint joinWith (sep : string) (l : list string) : string :=
  match l with
  | [] => EmptyString
  | [x] => x
  | x :: r => x +:+ sep +:+ joinWith sep r
  end.

(** [SerializeJSONProperty] with indentation unit [gap] at the current
    [indent]; an empty [gap] is the compact form. *)
Fixpoint render (gap indent : string) (j : Json) : string :=
  let compact := match gap with EmptyString => true | _ => false end in
  let stepback := indent in
  let indent' := indent +:+ gap in
  let sep := if compact then "," else "," +:+ newline +:+ indent' in
  let wrap (o c : string) (parts : list string) : string :=
    match parts with
    | [] => o +:+ c
    | _ => if compact then o +:+ joinWith sep parts +:+ c
           else o +:+ newline +:+ indent' +:+ joinWith sep parts +:+ newline +:+ stepback +:+ c
    end in
  match j with
  | JsonNull => "null"
  | JsonBool true => "true"
  | JsonBool false => "false"
  | JsonNum n => pretty n
  | JsonStr s => quoteJSON s
  | JsonArr items =>
      wrap "[" "]" ((fix go (l : list Json) : list string :=
                       match l with
                       | [] => []
                       | x :: r => render gap indent' x :: go r
                       end) items)
  | JsonObj members =>
      wrap "{" "}" ((fix go (l : list (string * Json)) : list string :=
                       match l with
                       | [] => []
                       | (k, x) :: r =>
                           (quoteJSON k +:+ (if compact then ":" else ": ") +:+ render gap indent' x) :: go r
                       end) members)
  end.

(** [JSON.stringify(v)] and [JSON.stringify(v, null, 2)]; [None] is the
    [undefined] result. *)
Definition stringify (v : JsVal) : option string := render EmptyString EmptyString <$> toJson v.
Definition stringify2 (v : JsVal) : option string := render "  " EmptyString <$> toJson v.

(** The text of a value that has one: [JSON.stringify] of an object is never
    [undefined]. *)
Definition textOf (s : option string) : string := default EmptyString s.

(** [{ ...obj, k: v }]: an existing property keeps its place, a new one
    goes last. *)
Fixpoint setProp (k : string) (v : JsVal) (props : list (string * JsVal)) : list (string * JsVal) :=
  match props with
  | [] => [(k, v)]
  | (k', v') :: r => if String.eqb k' k then (k, v) :: r else (k', v') :: setProp k v r
  end.

Definition optStr (s : option string) : JsVal := from_option JStr JUndefined s.
Definition optNum (n : option Z) : JsVal := from_option JNum JUndefined n.
Definition optBool (b : option bool) : JsVal := from_option JBool JUndefined b.

Definition themeName (t : Theme) : string :=
  match t with light => "light" | dark => "dark" | system => "system" end.

Definition sourceName (s : Source) : string :=
  match s with seed => "seed" | user => "user" end.

(** The stored rows as JavaScript objects. Properties follow the order of
    the interface declarations; an absent optional property is [undefined]. *)
Definition settingsObject (s : Settings) : list (string * JsVal) :=
  [ ("id", JStr (s_id s));
    ("pinSalt", optStr (pinSalt s));
    ("pinIterations", optNum (pinIterations s));
    ("pinHash", optStr (pinHash s));
    ("lockTimeoutMinutes", JNum (lockTimeoutMinutes s));
    ("dailyCueTime", optStr (dailyCueTime s));
    ("dailyCueEnabled", JBool (dailyCueEnabled s));
    ("notificationsEnabled", JBool (notificationsEnabled s));
    ("telemetryOptIn", JBool (telemetryOptIn s));
    ("telemetryAnonId", optStr (telemetryAnonId s));
    ("telemetryActivationSent", optBool (telemetryActivationSent s));
    ("telemetryConsecutiveDays", optNum (telemetryConsecutiveDays s));
    ("telemetryLastCompletionDate", optStr (telemetryLastCompletionDate s));
    ("telemetryD7EventSent", optBool (telemetryD7EventSent s));
    ("swapUsedDate", optStr (swapUsedDate s));
    ("lastPromptDate", optStr (lastPromptDate s));
    ("lastPromptId", optStr (lastPromptId s));
    ("installAt", JStr (installAt s));
    ("currentTheme", JStr (themeName (currentTheme s))) ].

Definition streakObject (s : StreakSummary) : JsVal :=
  JObj [ ("id", JStr (ss_id s));
         ("start_date", JStr (start_date s));
         ("current_streak", JNum (current_streak s));
         ("longest_streak", JNum (longest_streak s));
         ("last_entry_date", optStr (last_entry_date s)) ].

(* ===================================================================== *)
(** * Web Storage and JavaScript strings                                  *)
(* ===================================================================== *)

(** [localStorage] and [sessionStorage]: string keys to string values. *)
Definition Storage : Type := gmap string string.

(** What the application keeps in the browser besides the database: the
    two storage areas and the names of the service-worker caches. *)
Record Browser := mkBrowser {
  localStorage : Storage;
  sessionStorage : Storage;
  cacheNames : list string
}.

(** [key.startsWith(prefix)] and [key.includes(part)]. *)
Definition startsWith (prefix key : string) : bool := String.prefix prefix key.

Fixpoint includes (part key : string) : bool :=
  String.prefix part key
  || match key with
     | EmptyString => false
     | String _ rest => includes part rest
     end.

(** The white space [parseInt] skips, within ASCII: space, tab, line feed,
    vertical tab, form feed and carriage return. *)
Definition isWhiteSpace (c : ascii) : bool :=
  let n := nat_of_ascii c in Nat.eqb n 32 || (Nat.leb 9 n && Nat.leb n 13).

Fixpoint skipWhiteSpace (s : string) : string :=
  match s with
  | EmptyString => EmptyString
  | String c rest => if isWhiteSpace c then skipWhiteSpace rest else s
  end.

(** The value of the longest run of decimal digits at the start of [s],
    continuing from [acc]; [None] while no digit was read. *)
Fixpoint leadingDigits (acc : option Z) (s : string) : option Z :=
  match s with
  | EmptyString => acc
  | String c rest =>
      match JS.digit c with
      | Some d => leadingDigits (Some (10 * default 0 acc + d)) rest
      | None => acc
      end
  end.

(** [parseInt(s, 10)]: leading white space, an optional sign, then the
    longest run of decimal digits; [None] is [NaN]. *)
Definition parseInt (s : string) : option Z :=
  match skipWhiteSpace s with
  | String c rest =>
      if Ascii.eqb c "-"%char then Z.opp <$> leadingDigits None rest
      else if Ascii.eqb c "+"%char then leadingDigits None rest
      else leadingDigits None (String c rest)
  | EmptyString => None
  end.

(** [n.toString()] of an integer number; [None] is [NaN]. *)
Definition numberToString (n : option Z) : string :=
  match n with
  | Some n => pretty n
  | None => "NaN"
  end.

(** Truthiness of a number that can be absent: [undefined], [null], [NaN]
    and [0] are falsy. *)
Definition truthyNum (n : option Z) : bool :=
  match n with
  | Some n => negb (n =? 0)
  | None => false
  end.

(** [try { m } catch (error) { h error.message }]. *)
Definition try_catch_with {A} (m : M A) (h : string -> M A) : M A :=
  fun w => match m w with
           | (Ok a, w') => (Ok a, w')
           | (Throw message, w') => h message w'
           end.

(* ===================================================================== *)
(** * [dbUtils] ([src/lib/database.ts])                                   *)
(* ===================================================================== *)

Module dbUtils.

(** The row [initializeStreakSummary] and [resetStreakData] write. *)
Definition freshStreak (env : Env) : StreakSummary :=
  mkStreak "main" (JS.toISOString (now env)) 0 0 None.

Definition initializeStreakSummary (env : Env) : M StreakSummary :=
  existing ← streak_get "main";
  match existing with
  | Some s => ret s
  | None => let newStreak := freshStreak env in
            streak_put newStreak;; ret newStreak
  end.

(** [getTodayLocal]: the [try] block shifts the clock by the timezone
    offset and then reads the shifted [Date] with the local getters.
    Nothing in the block throws, so the [catch] branch is never taken. *)
Definition getTodayLocal (env : Env) : string :=
  let localDate := now env - tzOffset env * 60000 in
  JS.dayString (JS.localDay (tzOffset env) localDate).

(** The body of the [catch] branch of [getTodayLocal], which reads the
    clock with the local getters directly. *)
Definition getTodayLocal_catch (env : Env) : string :=
  JS.dayString (JS.localDay (tzOffset env) (now env)).

(** The result of [validateAndRecoverStreakData]. *)
Record Validation := mkValidation {
  isValid : bool;
  recovered : bool;
  v_streak : StreakSummary
}.

(** [validateAndRecoverStreakData]. The counters of a stored row are
    integers here, as in every row the operations write, so the two
    [typeof ... !== 'number'] tests of the source are false and are left
    out of the condition; [looksCorrupted] below is the condition with
    them, on what a field can hold at run time. *)
Definition validateAndRecoverStreakData (env : Env) : M Validation :=
  try_catch
    (streak ← streak_get "main";
     match streak with
     | None =>
         newStreak ← initializeStreakSummary env;
         ret (mkValidation false true newStreak)
     | Some streak =>
         if (current_streak streak <? 0) || (longest_streak streak <? 0)
            || (current_streak streak >? longest_streak streak)
         then
           let recoveredStreak :=
             mkStreak "main"
               (if JS.truthy (Some (start_date streak)) then start_date streak
                else JS.toISOString (now env))
               (Z.max 0 (Z.min (JS.num_or (current_streak streak) 0)
                               (JS.num_or (longest_streak streak) 0)))
               (Z.max 0 (Z.max (JS.num_or (longest_streak streak) 0)
                               (JS.num_or (current_streak streak) 0)))
               (last_entry_date streak) in
           streak_put recoveredStreak;;
           ret (mkValidation false true recoveredStreak)
         else ret (mkValidation true false streak)
     end)
    (newStreak ← initializeStreakSummary env;
     ret (mkValidation false true newStreak)).

(** ** The validation on what a counter field can hold

    The interface types the two counters as [number] and every row the
    operations write holds integers there, which is what [StreakSummary]
    holds. The database checks nothing, so a row written from outside can
    hold [NaN] or a value that is not a number. The definitions below are
    the test and the recovery of [validateAndRecoverStreakData] on such
    values, with the two [typeof] tests. *)

(** A number, as the validation tells numbers apart: an integer or [NaN]
    (fractions and infinities are ordered like integers by [<] and [>]). *)
Inductive JsNumber := Int (n : Z) | NaN.

(** The value of a counter field: a number, or a value of another type, of
    which the recovery uses the truthiness (in [value || 0]) and the
    conversion to a number (in [Math.min] and [Math.max]). *)
Inductive CounterValue :=
| IsNumber (x : JsNumber)
| NotNumber (truthy : bool) (toNumber : JsNumber).

(** [typeof value === 'number']. *)
Definition typeofNumber (value : CounterValue) : bool :=
  match value with
  | IsNumber _ => true
  | NotNumber _ _ => false
  end.

Definition toNumber (value : CounterValue) : JsNumber :=
  match value with
  | IsNumber x => x
  | NotNumber _ x => x
  end.

(** [a < b]: [false] when either side is [NaN]. *)
Definition jsLt (a b : JsNumber) : bool :=
  match a, b with
  | Int a, Int b => a <? b
  | _, _ => false
  end.

(** [Math.min] and [Math.max]: [NaN] when either argument is [NaN]. *)
Definition jsMin (a b : JsNumber) : JsNumber :=
  match a, b with
  | Int a, Int b => Int (Z.min a b)
  | _, _ => NaN
  end.

Definition jsMax (a b : JsNumber) : JsNumber :=
  match a, b with
  | Int a, Int b => Int (Z.max a b)
  | _, _ => NaN
  end.

(** [value || 0], as a number: [0] and [NaN] are falsy. *)
Definition orZero (value : CounterValue) : JsNumber :=
  match value with
  | IsNumber (Int n) => Int n
  | IsNumber NaN => Int 0
  | NotNumber true x => x
  | NotNumber false _ => Int 0
  end.

(** The condition of the [if]: the row is taken for corrupted. *)
Definition looksCorrupted (current longest : CounterValue) : bool :=
  negb (typeofNumber current) || negb (typeofNumber longest)
  || jsLt (toNumber current) (Int 0) || jsLt (toNumber longest) (Int 0)
  || jsLt (toNumber longest) (toNumber current).

(** The counters of [recoveredStreak]. *)
Definition recoveredCounters (current longest : CounterValue) : JsNumber * JsNumber :=
  (jsMax (Int 0) (jsMin (orZero current) (orZero longest)),
   jsMax (Int 0) (jsMax (orZero longest) (orZero current))).

(** The counters of an integer row as values. *)
Definition counterOf (n : Z) : CounterValue := IsNumber (Int n).

(** The result of [updateStreak]. *)
Record StreakUpdate := mkUpdate {
  updated : bool;
  isFirstToday : bool;
  streakData : StreakSummary
}.

(** What [updateStreak] does to the [streak] object between the
    [isFirstToday] test and the [put]: the [if]/[else if] chain on
    [last_entry_date], then [streak.last_entry_date = entryDate]. *)
Definition advance (env : Env) (yesterdayLocal entryDate : string) (streak : StreakSummary) : StreakSummary :=
  let streak :=
    if negb (JS.truthy (last_entry_date streak)) then
      mkStreak (ss_id streak) (JS.toISOString (now env)) 1 1 (last_entry_date streak)
    else if JS.str_eq (last_entry_date streak) (Some yesterdayLocal) then
      let current := current_streak streak + 1 in
      mkStreak (ss_id streak) (start_date streak) current
               (Z.max (longest_streak streak) current) (last_entry_date streak)
    else if negb (JS.str_eq (last_entry_date streak) (Some entryDate)) then
      mkStreak (ss_id streak) (JS.toISOString (now env)) 1
               (longest_streak streak) (last_entry_date streak)
    else streak in
  mkStreak (ss_id streak) (start_date streak) (current_streak streak)
           (longest_streak streak) (Some entryDate).

Definition updateStreak (env : Env) (entryDate : string) : M StreakUpdate :=
  streak ← initializeStreakSummary env;
  (* yesterday.setDate(yesterday.getDate() - 1), read with the local getters *)
  let yesterdayLocal := JS.dayString (JS.localDay (tzOffset env) (now env) - 1) in
  existingEntryToday ← entries_countOn entryDate;
  let isFirstToday := existingEntryToday =? 1 in
  if negb isFirstToday then ret (mkUpdate false false streak)
  else
    let streak := advance env yesterdayLocal entryDate streak in
    streak_put streak;;
    ret (mkUpdate true true streak).

(** [{ ...settings, lastPromptId: v }]. *)
Definition with_lastPromptId (v : string) (s : Settings) : Settings :=
  mkSettings (s_id s) (pinSalt s) (pinIterations s) (pinHash s) (lockTimeoutMinutes s)
    (dailyCueTime s) (dailyCueEnabled s) (notificationsEnabled s) (telemetryOptIn s)
    (telemetryAnonId s) (telemetryActivationSent s) (telemetryConsecutiveDays s)
    (telemetryLastCompletionDate s) (telemetryD7EventSent s) (swapUsedDate s)
    (lastPromptDate s) (Some v) (installAt s) (currentTheme s).

Definition backupString (env : Env) (currentStreak : StreakSummary) : string :=
  "backup_streak_" +:+ pretty (now env) +:+ "_" +:+ textOf (stringify (streakObject currentStreak)).

Definition resetStreakData (env : Env) : M bool :=
  try_catch
    (currentStreak ← streak_get "main";
     match currentStreak with
     | Some currentStreak =>
         settings ← settings_get "main";
         match settings with
         | Some settings => settings_put (with_lastPromptId (backupString env currentStreak) settings)
         | None => ret tt
         end
     | None => ret tt
     end;;
     streak_put (freshStreak env);;
     ret true)
    (ret false).

(** The sanitized copy [{ ...settings, pinSalt: undefined, pinIterations:
    undefined, pinHash: undefined }], or [null] without a settings row. *)
Definition sanitizedSettings (settings : option Settings) : JsVal :=
  match settings with
  | Some s => JObj (setProp "pinHash" JUndefined
                     (setProp "pinIterations" JUndefined
                       (setProp "pinSalt" JUndefined (settingsObject s))))
  | None => JNull
  end.

Definition exportEntry (entry : Entry) : JsVal :=
  JObj [ ("id", JStr (e_id entry));
         ("createdAt", JStr (e_created_at entry));
         ("content", JObj [ ("setback", JStr (setback entry));
                            ("protective_step", JStr (protective_step entry));
                            ("gratitude", JStr (gratitude entry)) ]);
         ("metadata", JObj [ ("dateLocal", JStr (dateLocal entry));
                             ("prompt_id", JStr (prompt_id entry));
                             ("edited_at", optStr (edited_at entry));
                             ("duration_seconds", optNum (duration_seconds entry)) ]) ].

Definition exportPrompt (p : Prompt) : JsVal :=
  JObj [ ("id", JStr (p_id p));
         ("text", JStr (p_text p));
         ("gratitude_prompt", optStr (gratitude_prompt p));
         ("archived", JBool (archived p));
         ("source", JStr (sourceName (source p)));
         ("created_at", JStr (p_created_at p)) ].

Record ExportMeta := mkMeta {
  appName : string;
  m_appVersion : string;
  exportedAt : string;
  entryCount : Z
}.

Definition metaObject (m : ExportMeta) : JsVal :=
  JObj [ ("appName", JStr (appName m));
         ("appVersion", JStr (m_appVersion m));
         ("exportedAt", JStr (exportedAt m));
         ("entryCount", JNum (entryCount m)) ].

(** The object literal [exportData]; [sorted] is the entries table in
    [created_at] order. *)
Definition exportData (metadata : ExportMeta) (settings : option Settings) (ps : list Prompt)
    (sorted : list Entry) (streak : option StreakSummary) : JsVal :=
  JObj [ ("meta", metaObject metadata);
         ("entries", JArr (map exportEntry sorted));
         ("settings", sanitizedSettings settings);
         ("prompts", JArr (map exportPrompt ps));
         ("streakSummary", from_option streakObject JUndefined streak) ].

Record Export := mkExport {
  json : string;
  metadata : ExportMeta
}.

(** [db.entries.orderBy('created_at').toArray()]. *)
Definition entries_orderByCreatedAt : M (list Entry) :=
  access (fun d => (merge_sort (fun a b => String.le (e_created_at a) (e_created_at b))
                               ((map_to_list (entries d)).*2), d)).

Definition exportDataWithProgress (env : Env) : M Export :=
  settings ← settings_get "main";
  ps ← prompts_toArray;
  es ← entries_orderByCreatedAt;
  streak ← streak_get "main";
  let metadata := mkMeta "Negative Visualization Journal" "0.1.0" (JS.toISOString (now env))
                         (Z.of_nat (length es)) in
  ret (mkExport (textOf (stringify2 (exportData metadata settings ps es streak))) metadata).

(** The row [initializeSettings] writes on the first launch. *)
Definition newSettings (env : Env) : Settings :=
  mkSettings "main" None None None 5 None false false false None None None None None
             None None None (JS.toISOString (now env)) system.

Definition initializeSettings (env : Env) : M Settings :=
  existingSettings ← settings_get "main";
  match existingSettings with
  | Some s => ret s
  | None => settings_put (newSettings env);; ret (newSettings env)
  end.

Definition hasEntryToday (env : Env) : M bool :=
  let todayLocal := getTodayLocal env in
  count ← entries_countOn todayLocal;
  ret (count >? 0).

(** [wipeAllData]: one read-write transaction over the four tables that
    clears each of them. The transaction commits as a whole or not at all,
    so it is one access to the store. *)
Definition wipeAllData : M unit :=
  access (fun _ => (tt, mkStore ∅ [] ∅ ∅)).

(** The result of [handleStorageQuotaExceeded]. *)
Record QuotaResult := mkQuota {
  success : bool;
  message : string
}.

(** [db.entries.count()]. *)
Definition entries_count : M Z :=
  access (fun d => (Z.of_nat (size (entries d)), d)).

(** The order of the [created_at] index: by [created_at], and rows with the
    same [created_at] by primary key. *)
Definition createdBefore (a b : Entry) : bool :=
  if String.eqb (e_created_at a) (e_created_at b) then String.leb (e_id a) (e_id b)
  else String.leb (e_created_at a) (e_created_at b).

(** [db.entries.orderBy('created_at').limit(n).toArray()]. *)
Definition entries_oldest (n : Z) : M (list Entry) :=
  access (fun d => (take (Z.to_nat n)
                         (merge_sort (fun a b => Is_true (createdBefore a b))
                                     ((map_to_list (entries d)).*2)), d)).

(** [db.entries.bulkDelete(ids)]: a key that is not stored is skipped. *)
Definition entries_bulkDelete (ids : list string) : M unit :=
  access (fun d => (tt, mkStore (settings d) (prompts d) (foldr delete (entries d) ids) (streakSummary d))).

Definition handleStorageQuotaExceeded : M QuotaResult :=
  let quotaExceeded := mkQuota false "Storage quota exceeded. Please free up space on your device." in
  try_catch
    (totalEntries ← entries_count;
     if totalEntries >? 1000 then
       oldEntries ← entries_oldest (totalEntries - 1000);
       if Nat.ltb 0 (length oldEntries) then
         entries_bulkDelete (map e_id oldEntries);;
         ret (mkQuota true ("Cleaned up " +:+ pretty (Z.of_nat (length oldEntries))
                            +:+ " old entries to free storage space."))
       else ret quotaExceeded
     else ret quotaExceeded)
    (ret (mkQuota false "Unable to free up storage space automatically.")).

(** The keys and cache names [deleteAllData] (and [resetWithWipe] of the
    PIN provider, with the same code) removes. *)
Definition isAppKey (key : string) : bool := startsWith "nvj_" key || includes "negviz" key.

Definition isAppCache (name : string) : bool := includes "negviz" name || includes "journal" name.

(** [Object.keys(storage).forEach(key => { if (...) storage.removeItem(key) })]. *)
Definition removeAppKeys (s : Storage) : Storage :=
  filter (fun kv => isAppKey kv.1 = false) s.

(** What the browser refuses while the storage is cleaned: reading
    [window.localStorage] or [window.sessionStorage] throws where the page
    may not use storage, and [caches.keys()] and [caches.delete(name)] are
    promises that can reject; [refusalMessage] is the message of the
    exception. *)
Record Refusals := mkRefusals {
  localStorageThrows : bool;
  sessionStorageThrows : bool;
  cachesKeysRejects : bool;
  cacheDeleteRejects : string -> bool;
  refusalMessage : string
}.

(** The cleaning of the browser storage in [deleteAllData] (and in
    [resetWithWipe] of the PIN provider, with the same code), in the order
    of the source: the keys of [localStorage], the keys of
    [sessionStorage], then the caches. A refusal ends it with an exception
    and leaves what was cleaned before; of the deletions under
    [Promise.all], those that do not reject take place. *)
Definition clearBrowser (refusals : Refusals) (b : Browser) : Result unit * Browser :=
  if localStorageThrows refusals then (Throw (refusalMessage refusals), b)
  else
    let b := mkBrowser (removeAppKeys (localStorage b)) (sessionStorage b) (cacheNames b) in
    if sessionStorageThrows refusals then (Throw (refusalMessage refusals), b)
    else
      let b := mkBrowser (localStorage b) (removeAppKeys (sessionStorage b)) (cacheNames b) in
      if cachesKeysRejects refusals then (Throw (refusalMessage refusals), b)
      else
        let doomed := List.filter isAppCache (cacheNames b) in
        let b := mkBrowser (localStorage b) (sessionStorage b)
                   (List.filter (fun name => negb (isAppCache name) || cacheDeleteRejects refusals name)
                                (cacheNames b)) in
        if existsb (cacheDeleteRejects refusals) doomed then (Throw (refusalMessage refusals), b)
        else (Ok tt, b).

(** The result of [deleteAllData]. *)
Record DeleteResult := mkDeleted {
  d_success : bool;
  d_error : option string
}.

(** [deleteAllData]; [hasOtherTabs] is what [checkForOtherTabs] answered.
    The transaction and the cleaning of the browser run in one [try]: the
    [catch] branch answers with the message of whichever threw, and by then
    the transaction may have committed. The browser is returned as the call
    leaves it. *)
Definition deleteAllData (hasOtherTabs : bool) (refusals : Refusals) (b : Browser)
    : M (DeleteResult * Browser) :=
  let failed (message : string) (b : Browser) : M (DeleteResult * Browser) :=
    ret (mkDeleted false (Some message), b) in
  try_catch_with
    (if hasOtherTabs
     then ret (mkDeleted false
                 (Some "Please close all other tabs with this app open before deleting data."), b)
     else
       wipeAllData;;
       match clearBrowser refusals b with
       | (Ok _, b) => ret (mkDeleted true None, b)
       | (Throw message, b) => failed message b
       end)
    (fun message => failed message b).

End dbUtils.

(* ===================================================================== *)
(** * [promptUtils]: the seed catalog and the prompt scheduler           *)
(* ===================================================================== *)

Record SeedPrompt := mkSeed { seed_text : string; seed_gratitude : string }.

Definition SEED_PROMPTS : list SeedPrompt :=
  [ mkSeed "Imagine losing your current home or living situation"
           "What aspects of your current living situation do you appreciate most?";
    mkSeed "Consider if you lost your ability to communicate with loved ones"
           "Who in your life are you most grateful to be able to connect with?";
    mkSeed "Visualize losing your current health and mobility"
           "What physical abilities or aspects of your health do you value most?";
    mkSeed "Imagine your primary source of income disappearing"
           "What opportunities or resources do you currently have that support you?";
    mkSeed "Consider losing access to the internet and digital connections"
           "What digital tools or online communities add value to your life?";
    mkSeed "Visualize losing your independence and needing constant care"
           "What aspects of your independence and autonomy do you cherish?";
    mkSeed "Imagine being unable to pursue your hobbies or interests"
           "What activities or interests bring you the most joy and fulfillment?";
    mkSeed "Consider losing your ability to learn new things"
           "What recent learning or growth experiences have you valued?";
    mkSeed "Visualize losing access to nature and the outdoors"
           "What aspects of the natural world do you find most meaningful?";
    mkSeed "Imagine being unable to help or support others"
           "How has being able to contribute to others' lives enriched your own?" ].

Definition lift {A} (r : Result A) : M A := fun w => (r, w).

Module promptUtils.

(** [pseudoRandom]: the operator [%] is the truncating remainder, whose
    sign follows the dividend. *)
Definition pseudoRandom (seed : Z) : Z :=
  let a := 1664525 in
  let c := 1013904223 in
  let m := 2 ^ 32 in
  Z.rem (a * seed + c) m.

(** [Math.floor((today.getTime() - new Date(installDate).getTime()) /
    (1000 * 60 * 60 * 24))]; [None] is [NaN]. *)
Definition daysSinceInstall (env : Env) (installDate : string) : option Z :=
  (fun t => (now env - t) / JS.msPerDay) <$> JS.Date_parse installDate.

(** [array[index]] for a number index: [undefined] outside the array and
    for [NaN]. *)
Definition at_index {A} (l : list A) (index : option Z) : option A :=
  match index with
  | Some i => if i <? 0 then None else l !! Z.to_nat i
  | None => None
  end.

Definition isActiveSeed (p : Prompt) : bool :=
  match source p with seed => negb (archived p) | user => false end.

(** [getTodayPrompt]: the result is [undefined] ([None]) when the computed
    index is not an index of [seedPrompts]. *)
Definition getTodayPrompt (env : Env) (installDate : string) (ps : list Prompt) : Result (option Prompt) :=
  let seedPrompts := List.filter isActiveSeed ps in
  if Nat.eqb (length seedPrompts) 0 then Throw "No seed prompts available"
  else
    let index := (fun d => Z.rem (pseudoRandom d) (Z.of_nat (length seedPrompts)))
                   <$> daysSinceInstall env installDate in
    Ok (at_index seedPrompts index).

(** [getSwapPrompt]; [Math.floor(Math.random() * n)] is an index below [n]
    taken from the environment's entropy. *)
Definition getSwapPrompt (env : Env) (currentPromptId : string) (lastPromptId : option string)
    (ps : list Prompt) : Result Prompt :=
  let seedPrompts :=
    List.filter (fun p => isActiveSeed p
                          && negb (String.eqb (p_id p) currentPromptId)
                          && negb (JS.str_eq (Some (p_id p)) lastPromptId)) ps in
  match seedPrompts with
  | [] =>
      match List.find (fun p => String.eqb (p_id p) currentPromptId) ps with
      | None => Throw "Current prompt not found"
      | Some current => Ok current
      end
  | first :: _ =>
      let randomIndex := Z.to_nat (entropy env mod Z.of_nat (length seedPrompts)) in
      Ok (nth randomIndex seedPrompts first)
  end.

Definition getTodayString (env : Env) : string :=
  JS.dayString (JS.localDay (tzOffset env) (now env)).

Definition canSwapToday (env : Env) (swapUsedDate : option string) : bool :=
  let todayString := JS.dayString (JS.localDay (tzOffset env) (now env)) in
  negb (JS.str_eq swapUsedDate (Some todayString)).

Record SwapResult := mkSwap {
  success : bool;
  newPrompt : option Prompt;
  error : option string
}.

(** [{ ...settings, swapUsedDate: d, lastPromptDate: d, lastPromptId: id }]. *)
Definition with_swap (d : string) (id : string) (s : Settings) : Settings :=
  mkSettings (s_id s) (pinSalt s) (pinIterations s) (pinHash s) (lockTimeoutMinutes s)
    (dailyCueTime s) (dailyCueEnabled s) (notificationsEnabled s) (telemetryOptIn s)
    (telemetryAnonId s) (telemetryActivationSent s) (telemetryConsecutiveDays s)
    (telemetryLastCompletionDate s) (telemetryD7EventSent s) (Some d)
    (Some d) (Some id) (installAt s) (currentTheme s).

Definition swapTodayPrompt (env : Env) (installDate : string) : M SwapResult :=
  try_catch
    (settings ← settings_get "main";
     match settings with
     | None => ret (mkSwap false None (Some "Settings not found"))
     | Some settings =>
         if negb (canSwapToday env (swapUsedDate settings))
         then ret (mkSwap false None (Some "You can only swap once per day. Try again tomorrow."))
         else
           allPrompts ← prompts_toArray;
           currentPrompt ← lift (getTodayPrompt env installDate allPrompts);
           match currentPrompt with
           | None => throw "TypeError: cannot read properties of undefined"
           | Some currentPrompt =>
               newPrompt ← lift (getSwapPrompt env (p_id currentPrompt) (lastPromptId settings) allPrompts);
               if String.eqb (p_id newPrompt) (p_id currentPrompt)
               then ret (mkSwap false None (Some "No alternative prompts available for swap"))
               else
                 let todayString := getTodayString env in
                 settings_put (with_swap todayString (p_id newPrompt) settings);;
                 ret (mkSwap true (Some newPrompt) None)
           end
     end)
    (ret (mkSwap false None (Some "Failed to swap prompt. Please try again."))).

Definition firstSeed : SeedPrompt := hd (mkSeed EmptyString EmptyString) SEED_PROMPTS.

(** [getFallbackPrompt]: reading [.text] of an [undefined] catalog slot
    throws, and the [catch] branch returns the first seed. *)
Definition getFallbackPrompt (env : Env) (installDate : string) : Prompt :=
  let index := (fun d => Z.rem (pseudoRandom d) (Z.of_nat (length SEED_PROMPTS)))
                 <$> daysSinceInstall env installDate in
  match index, at_index SEED_PROMPTS index with
  | Some i, Some selectedSeed =>
      mkPrompt ("seed-" +:+ pretty (i + 1)) (seed_text selectedSeed)
               (Some (seed_gratitude selectedSeed)) false (JS.toISOString (now env)) seed
  | _, _ =>
      mkPrompt "fallback-1" (seed_text firstSeed) (Some (seed_gratitude firstSeed))
               false (JS.toISOString (now env)) seed
  end.

(** [getCurrentPrompt]: [Ok None] is a call that returns [undefined]. *)
Definition getCurrentPrompt (env : Env) (installDate : string) : M (option Prompt) :=
  try_catch
    (settings ← settings_get "main";
     let todayString := getTodayString env in
     swappedPrompt ←
       (if JS.str_eq (settings ≫= swapUsedDate) (Some todayString)
           && JS.truthy (settings ≫= lastPromptId)
        then
          allPrompts ← prompts_toArray;
          ret (List.find (fun p => JS.str_eq (Some (p_id p)) (settings ≫= lastPromptId)) allPrompts)
        else ret None);
     match swappedPrompt with
     | Some swappedPrompt => ret (Some swappedPrompt)
     | None =>
         allPrompts ← prompts_toArray;
         lift (getTodayPrompt env installDate allPrompts)
     end)
    (ret (Some (getFallbackPrompt env installDate))).

(** The rows [initializeSeedPrompts] adds. *)
Definition seedRows (env : Env) : list Prompt :=
  imap (fun index prompt =>
          mkPrompt ("seed-" +:+ pretty (Z.of_nat index + 1)) (seed_text prompt)
                   (Some (seed_gratitude prompt)) false (JS.toISOString (now env)) seed)
       SEED_PROMPTS.

(** [initializeSeedPrompts]: when no row with source [seed] is stored, the
    catalog rows are added with [bulkAdd]; nothing catches its rejection. *)
Definition initializeSeedPrompts (env : Env) : M unit :=
  existingSeeds ← access (fun d =>
    (length (List.filter (fun p => match source p with seed => true | user => false end) (prompts d)), d));
  if Nat.ltb 0 existingSeeds then ret tt
  else prompts_bulkAdd (seedRows env).

End promptUtils.

(* ===================================================================== *)
(** * [cryptoUtils]: PIN hashing with the Web Crypto API                  *)
(* ===================================================================== *)

Module Base64.

(** The base64 alphabet. *)
Definition char64 (n : Z) : ascii :=
  ascii_of_nat (Z.to_nat (if n <? 26 then 65 + n
                          else if n <? 52 then 97 + (n - 26)
                          else if n <? 62 then 48 + (n - 52)
                          else if n =? 62 then 43 else 47)).

Definition index64 (c : ascii) : option Z :=
  let n := Z.of_nat (nat_of_ascii c) in
  if (65 <=? n) && (n <=? 90) then Some (n - 65)
  else if (97 <=? n) && (n <=? 122) then Some (n - 97 + 26)
  else if (48 <=? n) && (n <=? 57) then Some (n - 48 + 52)
  else if n =? 43 then Some 62
  else if n =? 47 then Some 63
  else None.

Definition code (b : Byte.byte) : Z := Z.of_N (Byte.to_N b).

Definition byteOf (n : Z) : byte :=
  match Byte.of_N (Z.to_N n) with
  | Some b => b
  | None => x00
  end.

Definition pad : ascii := "="%char.

(** [btoa] of the binary string of a byte array. *)
Fixpoint encode (l : list byte) : string :=
  match l with
  | [] => EmptyString
  | [a] =>
      String (char64 (code a / 4))
        (String (char64 (code a mod 4 * 16)) (String pad (String pad EmptyString)))
  | [a; b] =>
      String (char64 (code a / 4))
        (String (char64 (code a mod 4 * 16 + code b / 16))
           (String (char64 (code b mod 16 * 4)) (String pad EmptyString)))
  | a :: b :: c :: r =>
      String (char64 (code a / 4))
        (String (char64 (code a mod 4 * 16 + code b / 16))
           (String (char64 (code b mod 16 * 4 + code c / 64))
              (String (char64 (code c mod 64)) (encode r))))
  end.

(** [atob] on padded base64 text, the form [btoa] writes; [None] is the
    [InvalidCharacterError]. (The browser also accepts white space and
    missing padding, which this decoder rejects.) *)
Fixpoint decode (s : string) : option (list byte) :=
  match s with
  | EmptyString => Some []
  | String c1 (String c2 (String c3 (String c4 r))) =>
      match index64 c1, index64 c2 with
      | Some i1, Some i2 =>
          let b1 := byteOf (i1 * 4 + i2 / 16) in
          if Ascii.eqb c3 pad then
            if Ascii.eqb c4 pad
            then match r with EmptyString => Some [b1] | _ => None end
            else None
          else
            match index64 c3 with
            | Some i3 =>
                let b2 := byteOf (i2 mod 16 * 16 + i3 / 4) in
                if Ascii.eqb c4 pad
                then match r with EmptyString => Some [b1; b2] | _ => None end
                else
                  match index64 c4, decode r with
                  | Some i4, Some rest => Some (b1 :: b2 :: byteOf (i3 mod 4 * 64 + i4) :: rest)
                  | _, _ => None
                  end
            | None => None
            end
      | _, _ => None
      end
  | _ => None
  end.

End Base64.

Record PinHashData := mkPinHash {
  salt : string;
  iterations : Z;
  hash : string
}.

Module cryptoUtils.

Section WebCrypto.

(** [crypto.subtle.deriveBits] with PBKDF2 and SHA-256, 256 bits of output:
    a function of the password bytes, the salt bytes and the iteration
    count. *)
Variable pbkdf2 : list byte -> list byte -> Z -> list byte.

Definition arrayBufferToBase64 (buffer : list byte) : string := Base64.encode buffer.

Definition base64ToArrayBuffer (base64 : string) : option (list byte) := Base64.decode base64.

(** [new TextEncoder().encode(pin)]. *)
Definition textEncode (pin : string) : list byte := list_byte_of_string pin.

(** [hashPin]; [saltBytes] is the array [generateSalt] drew. *)
Definition hashPin (saltBytes : list byte) (pin : string) : PinHashData :=
  let iterations := 100000 in
  let derivedBits := pbkdf2 (textEncode pin) saltBytes iterations in
  mkPinHash (arrayBufferToBase64 saltBytes) iterations (arrayBufferToBase64 derivedBits).

(** The loop of [constantTimeEquals]: [result |= a.charCodeAt(i) ^
    b.charCodeAt(i)]. *)
Fixpoint xorAccumulate (result : Z) (a b : string) : Z :=
  match a, b with
  | String x a', String y b' =>
      xorAccumulate (Z.lor result (Z.lxor (Z.of_nat (nat_of_ascii x)) (Z.of_nat (nat_of_ascii y)))) a' b'
  | _, _ => result
  end.

Definition constantTimeEquals (a b : string) : bool :=
  if negb (Nat.eqb (String.length a) (String.length b)) then false
  else xorAccumulate 0 a b =? 0.

(** [verifyPin]: an exception inside the [try] block makes it [false]. *)
Definition verifyPin (pin : string) (hashData : PinHashData) : bool :=
  match base64ToArrayBuffer (salt hashData) with
  | None => false
  | Some saltBuffer =>
      let derivedBits := pbkdf2 (textEncode pin) saltBuffer (iterations hashData) in
      let newHash := arrayBufferToBase64 derivedBits in
      constantTimeEquals newHash (hash hashData)
  end.

End WebCrypto.

Definition isDigit (c : ascii) : bool :=
  let n := nat_of_ascii c in Nat.leb 48 n && Nat.leb n 57.

(** [/^\d{4}$/.test(pin)]. *)
Definition isValidPin (pin : string) : bool :=
  match pin with
  | String a (String b (String c (String d EmptyString))) =>
      isDigit a && isDigit b && isDigit c && isDigit d
  | _ => false
  end.

End cryptoUtils.

(* ===================================================================== *)
(** * [sessionUtils]: the session lock in [localStorage]                  *)
(* ===================================================================== *)

Module sessionUtils.

Definition updateLastActivity (env : Env) (ls : Storage) : Storage :=
  <["nvj_lastActivity" := pretty (now env)]> ls.

(** [shouldLock]: a comparison with [NaN] is [false]. *)
Definition shouldLock (env : Env) (timeoutMinutes : Z) (ls : Storage) : bool :=
  let lastActivity := ls !! "nvj_lastActivity" in
  if negb (JS.truthy lastActivity) then true
  else
    match parseInt (default EmptyString lastActivity) with
    | Some lastActivityTime =>
        let timeoutMs := timeoutMinutes * 60 * 1000 in
        now env - lastActivityTime >? timeoutMs
    | None => false
    end.

Definition lockSession (ls : Storage) : Storage :=
  <["nvj_sessionLocked" := "true"]> (delete "nvj_lastActivity" ls).

Definition unlockSession (env : Env) (ls : Storage) : Storage :=
  updateLastActivity env (delete "nvj_sessionLocked" ls).

Definition isLocked (ls : Storage) : bool :=
  bool_decide (ls !! "nvj_sessionLocked" = Some "true").

Definition clearPinData (ls : Storage) : Storage :=
  delete "nvj_pinLockoutEnd"
    (delete "nvj_pinAttempts" (delete "nvj_sessionLocked" (delete "nvj_lastActivity" ls))).

End sessionUtils.

(* ===================================================================== *)
(** * [PinProvider]: PIN attempts, lockout and the locked session         *)
(* ===================================================================== *)

Module PinProvider.

Definition MAX_ATTEMPTS : Z := 5.
Definition LOCKOUT_DURATION : Z := 5 * 60 * 1000.

(** The state of the provider at a render: the settings of the application
    store and the five [useState] cells. A handler reads the state of the
    render it was created in and its [set...] calls give the state of the
    next one. [attemptCount] is a number that can be [NaN] ([None]);
    [lockoutEndTime] is a number or [null] ([None]). *)
Record State := mkState {
  appSettings : option Settings;
  isInitialized : bool;
  isLocked : bool;
  attemptCount : option Z;
  isTemporaryLocked : bool;
  lockoutEndTime : option Z
}.

(** The result of [setupPin], [verifyPin], [disablePin] and
    [resetWithWipe]. *)
Record PinResult := mkResult {
  success : bool;
  error : option string
}.

Definition with_localStorage (ls : Storage) (b : Browser) : Browser :=
  mkBrowser ls (sessionStorage b) (cacheNames b).

(** [localStorage.removeItem('nvj_pinLockoutEnd');
     localStorage.removeItem('nvj_pinAttempts')]. *)
Definition removeLockoutKeys (ls : Storage) : Storage :=
  delete "nvj_pinAttempts" (delete "nvj_pinLockoutEnd" ls).

(** [initializePinState], run once on mount. *)
Definition initializePinState (env : Env) (st : State) (b : Browser) : State * Browser :=
  let lockoutEnd := localStorage b !! "nvj_pinLockoutEnd" in
  let '(st1, ls1) :=
    if JS.truthy lockoutEnd then
      match parseInt (default EmptyString lockoutEnd) with
      | Some endTime =>
          if now env <? endTime
          then (mkState (appSettings st) (isInitialized st) (isLocked st)
                        (Some MAX_ATTEMPTS) true (Some endTime), localStorage b)
          else (st, removeLockoutKeys (localStorage b))
      | None => (st, removeLockoutKeys (localStorage b))
      end
    else (st, localStorage b) in
  let attempts := ls1 !! "nvj_pinAttempts" in
  let st2 :=
    if JS.truthy attempts
    then mkState (appSettings st1) (isInitialized st1) (isLocked st1)
                 (parseInt (default EmptyString attempts))
                 (isTemporaryLocked st1) (lockoutEndTime st1)
    else st1 in
  (mkState (appSettings st2) true (isLocked st2) (attemptCount st2)
           (isTemporaryLocked st2) (lockoutEndTime st2),
   with_localStorage ls1 b).

(** [updateTimer] of the lockout effect, which runs when the effect starts
    and then every second while the lockout lasts. *)
Definition updateTimer (env : Env) (st : State) (b : Browser) : State * Browser :=
  if negb (isTemporaryLocked st) || negb (truthyNum (lockoutEndTime st)) then (st, b)
  else
    let remaining := default 0 (lockoutEndTime st) - now env in
    if remaining <=? 0
    then (mkState (appSettings st) (isInitialized st) (isLocked st) (Some 0) false None,
          with_localStorage (removeLockoutKeys (localStorage b)) b)
    else (st, b).

(** The synchronous part of the auto-lock effect. [initActivityTracking]
    starts its timer with [resetTimer()], which records the activity at
    once; its listeners and its timer act later and are not part of this
    step. [env] is the clock read by [updateLastActivity], [env'] the one
    read by [shouldLock]. *)
Definition autoLockEffect (env env' : Env) (st : State) (b : Browser) : State * Browser :=
  if negb (JS.truthy (appSettings st ≫= pinHash)) || negb (isInitialized st) then (st, b)
  else
    let timeoutMinutes := JS.num_or (default 0 (lockTimeoutMinutes <$> appSettings st)) 5 in
    let ls := sessionUtils.updateLastActivity env (localStorage b) in
    if sessionUtils.shouldLock env' timeoutMinutes ls || sessionUtils.isLocked ls
    then (mkState (appSettings st) (isInitialized st) true (attemptCount st)
                  (isTemporaryLocked st) (lockoutEndTime st),
          with_localStorage ls b)
    else (st, with_localStorage ls b).

Definition lock (st : State) (b : Browser) : State * Browser :=
  (mkState (appSettings st) (isInitialized st) true (attemptCount st)
           (isTemporaryLocked st) (lockoutEndTime st),
   with_localStorage (sessionUtils.lockSession (localStorage b)) b).

Definition unlock (env : Env) (st : State) (b : Browser) : State * Browser :=
  (mkState (appSettings st) (isInitialized st) false (attemptCount st)
           (isTemporaryLocked st) (lockoutEndTime st),
   with_localStorage (sessionUtils.unlockSession env (localStorage b)) b).

(** The [isPinEnabled] and [isLocked] the provider hands to its children. *)
Definition isPinEnabled (st : State) : bool :=
  JS.truthy (appSettings st ≫= pinHash) && JS.truthy (appSettings st ≫= pinSalt)
  && truthyNum (appSettings st ≫= pinIterations).

Definition contextIsLocked (st : State) : bool :=
  isLocked st && JS.truthy (appSettings st ≫= pinHash).

(** [{ ...settings, pinHash: h, pinSalt: s, pinIterations: i,
       lockTimeoutMinutes: t }]. *)
Definition with_pin (h s : option string) (i : option Z) (t : Z) (st : Settings) : Settings :=
  mkSettings (s_id st) s i h t
    (dailyCueTime st) (dailyCueEnabled st) (notificationsEnabled st) (telemetryOptIn st)
    (telemetryAnonId st) (telemetryActivationSent st) (telemetryConsecutiveDays st)
    (telemetryLastCompletionDate st) (telemetryD7EventSent st) (swapUsedDate st)
    (lastPromptDate st) (lastPromptId st) (installAt st) (currentTheme st).

Section WebCrypto.

Variable pbkdf2 : list byte -> list byte -> Z -> list byte.

(** [verifyPin]. Nothing in its [try] block throws here, so the [catch]
    branch is not taken. *)
Definition verifyPin (env : Env) (pin : string) (st : State) (b : Browser)
    : PinResult * State * Browser :=
  if isTemporaryLocked st
  then (mkResult false (Some "Access temporarily locked due to too many failed attempts"), st, b)
  else if negb (cryptoUtils.isValidPin pin)
  then (mkResult false (Some "PIN must be exactly 4 digits"), st, b)
  else if negb (JS.truthy (appSettings st ≫= pinHash))
          || negb (JS.truthy (appSettings st ≫= pinSalt))
          || negb (truthyNum (appSettings st ≫= pinIterations))
  then (mkResult false (Some "PIN not configured"), st, b)
  else
    let hashData := mkPinHash (default EmptyString (appSettings st ≫= pinSalt))
                              (default 0 (appSettings st ≫= pinIterations))
                              (default EmptyString (appSettings st ≫= pinHash)) in
    let isValid := cryptoUtils.verifyPin pbkdf2 pin hashData in
    if isValid then
      (mkResult true None,
       mkState (appSettings st) (isInitialized st) false (Some 0) false None,
       with_localStorage
         (sessionUtils.unlockSession env
            (delete "nvj_pinLockoutEnd" (delete "nvj_pinAttempts" (localStorage b)))) b)
    else
      let newAttemptCount := (fun n => n + 1) <$> attemptCount st in
      let ls := <["nvj_pinAttempts" := numberToString newAttemptCount]> (localStorage b) in
      if match newAttemptCount with Some n => n >=? MAX_ATTEMPTS | None => false end then
        let lockoutEnd := now env + LOCKOUT_DURATION in
        (mkResult false (Some "Too many failed attempts. Access locked for 5 minutes."),
         mkState (appSettings st) (isInitialized st) (isLocked st) newAttemptCount
                 true (Some lockoutEnd),
         with_localStorage (<["nvj_pinLockoutEnd" := pretty lockoutEnd]> ls) b)
      else
        let remaining := (fun n => MAX_ATTEMPTS - n) <$> newAttemptCount in
        (mkResult false
           (Some ("Incorrect PIN. " +:+ numberToString remaining +:+ " attempt"
                  +:+ (if bool_decide (remaining = Some 1) then EmptyString else "s")
                  +:+ " remaining.")),
         mkState (appSettings st) (isInitialized st) (isLocked st) newAttemptCount
                 (isTemporaryLocked st) (lockoutEndTime st),
         with_localStorage ls b).

(** [setupPin]; [saltBytes] is the salt [hashPin] drew. Without settings in
    the application store the object written has no [id], and the [put] is
    rejected. *)
Definition setupPin (env : Env) (saltBytes : list byte) (pin : string) (st : State) (b : Browser)
    : M (PinResult * State * Browser) :=
  if negb (cryptoUtils.isValidPin pin)
  then ret (mkResult false (Some "PIN must be exactly 4 digits"), st, b)
  else
    try_catch
      (let hashData := cryptoUtils.hashPin pbkdf2 saltBytes pin in
       match appSettings st with
       | Some settings =>
           let updatedSettings :=
             with_pin (Some (hash hashData)) (Some (salt hashData)) (Some (iterations hashData))
                      (JS.num_or (lockTimeoutMinutes settings) 5) settings in
           settings_put updatedSettings;;
           ret (mkResult true None,
                mkState (Some updatedSettings) (isInitialized st) false (attemptCount st)
                        (isTemporaryLocked st) (lockoutEndTime st),
                with_localStorage (sessionUtils.unlockSession env (localStorage b)) b)
       | None => throw "DataError"
       end)
      (ret (mkResult false (Some "Failed to setup PIN. Please try again."), st, b)).

(** [disablePin]: the state written by the [verifyPin] call stays when the
    [put] fails. *)
Definition disablePin (env : Env) (currentPin : string) (st : State) (b : Browser)
    : M (PinResult * State * Browser) :=
  let '(verifyResult, st1, b1) := verifyPin env currentPin st b in
  if negb (success verifyResult) then ret (verifyResult, st1, b1)
  else
    try_catch
      (match appSettings st with
       | Some settings =>
           let updatedSettings := with_pin None None None (lockTimeoutMinutes settings) settings in
           settings_put updatedSettings;;
           ret (mkResult true None,
                mkState (Some updatedSettings) (isInitialized st1) false (Some 0) false None,
                with_localStorage (sessionUtils.clearPinData (localStorage b1)) b1)
       | None => throw "DataError"
       end)
      (ret (mkResult false (Some "Failed to disable PIN. Please try again."), st1, b1)).

End WebCrypto.

(** [resetWithWipe]: the transaction of [wipeAllData], then the storage
    cleaning of [deleteAllData], in one [try] whose [catch] branch answers
    with a fixed message; the provider's own state is not reset. *)
Definition resetWithWipe (refusals : dbUtils.Refusals) (b : Browser) : M (PinResult * Browser) :=
  let failed (b : Browser) : M (PinResult * Browser) :=
    ret (mkResult false (Some "Failed to reset all data. Please try again."), b) in
  try_catch
    (dbUtils.wipeAllData;;
     match dbUtils.clearBrowser refusals b with
     | (Ok _, b) => ret (mkResult true None, b)
     | (Throw _, b) => failed b
     end)
    (failed b).

End PinProvider.

(* ===================================================================== *)
(** * [TelemetryService] ([src/lib/telemetry.ts])                         *)
(* ===================================================================== *)

Record TelemetrySettings := mkTelemetry {
  isOptedIn : bool;
  anonId : option string;
  activationSent : bool;
  consecutiveDays : Z;
  lastCompletionDate : option string;
  d7EventSent : bool;
  installDate : string
}.

(** [Partial<TelemetrySettings>]: an omitted (or [undefined]) property is
    [None]. *)
Record TelemetryUpdates := mkUpdates {
  u_isOptedIn : option bool;
  u_anonId : option string;
  u_activationSent : option bool;
  u_consecutiveDays : option Z;
  u_lastCompletionDate : option string;
  u_d7EventSent : option bool
}.

Module TelemetryService.

(** The platform and timezone names are properties of the device, fixed
    here to the values [getPlatform] and [getTimezone] fall back to. *)
Definition getPlatform : string := "Unknown".
Definition getTimezone : string := "Unknown".

Definition generateAnonId (env : Env) : string :=
  "anon_" +:+ pretty (now env) +:+ "_" +:+ randomSuffix env.

(** [a ?? b]. *)
Definition coalesce {A} (a b : option A) : option A :=
  match a with Some _ => a | None => b end.

Definition getTelemetrySettings : M (option TelemetrySettings) :=
  try_catch
    (settings ← settings_get "main";
     match settings with
     | None => ret None
     | Some settings =>
         ret (Some (mkTelemetry
                      (telemetryOptIn settings)
                      (telemetryAnonId settings)
                      (default false (telemetryActivationSent settings))
                      (JS.num_or (default 0 (telemetryConsecutiveDays settings)) 0)
                      (telemetryLastCompletionDate settings)
                      (default false (telemetryD7EventSent settings))
                      (installAt settings)))
     end)
    (ret None).

Definition updateTelemetrySettings (updates : TelemetryUpdates) : M unit :=
  try_catch
    (settings ← settings_get "main";
     match settings with
     | None => ret tt
     | Some s =>
         settings_put
           (mkSettings (s_id s) (pinSalt s) (pinIterations s) (pinHash s) (lockTimeoutMinutes s)
              (dailyCueTime s) (dailyCueEnabled s) (notificationsEnabled s)
              (default (telemetryOptIn s) (u_isOptedIn updates))
              (coalesce (u_anonId updates) (telemetryAnonId s))
              (coalesce (u_activationSent updates) (telemetryActivationSent s))
              (coalesce (u_consecutiveDays updates) (telemetryConsecutiveDays s))
              (coalesce (u_lastCompletionDate updates) (telemetryLastCompletionDate s))
              (coalesce (u_d7EventSent updates) (telemetryD7EventSent s))
              (swapUsedDate s) (lastPromptDate s) (lastPromptId s) (installAt s) (currentTheme s))
     end)
    (ret tt).

Definition noUpdates : TelemetryUpdates := mkUpdates None None None None None None.

(** [Math.ceil(Math.abs(now - installDate) / msPerDay)], [0] without an
    install date or on a storage error; [None] is [NaN]. *)
Definition getDaysSinceInstall (env : Env) : M (option Z) :=
  try_catch
    (settings ← settings_get "main";
     match settings with
     | Some settings =>
         if JS.truthy (Some (installAt settings))
         then ret ((fun t => - ((- Z.abs (now env - t)) / JS.msPerDay)) <$> JS.Date_parse (installAt settings))
         else ret (Some 0)
     | None => ret (Some 0)
     end)
    (ret (Some 0)).

Definition createEvent (env : Env) (eventType : EventType) (dayNumber : option Z) : M TelemetryEvent :=
  telemetrySettings ← getTelemetrySettings;
  let stored := telemetrySettings ≫= anonId in
  let anonId := if JS.truthy stored then default EmptyString stored else generateAnonId env in
  (if negb (JS.truthy stored)
   then updateTelemetrySettings (mkUpdates None (Some anonId) None None None None)
   else ret tt);;
  ret (mkEvent ("evt_" +:+ pretty (now env) +:+ "_" +:+ randomSuffix env)
               eventType (JS.toISOString (now env)) anonId "0.1.0"
               getPlatform getTimezone dayNumber (Some 0) (JS.toISOString (now env))).

(** [this.eventQueue.push(event)]. Delivery ([processQueue], started
    without [await]) only removes or re-stamps queued events and never
    touches the settings, so the queue here records what was enqueued. *)
Definition enqueue (event : TelemetryEvent) : M unit :=
  fun w => (Ok tt, mkWorld (db w) (eventQueue w ++ [event]) (faults w)).

Definition sendD7CompletionEvent (env : Env) : M unit :=
  telemetrySettings ← getTelemetrySettings;
  match telemetrySettings with
  | None => ret tt
  | Some ts =>
      if negb (isOptedIn ts) || d7EventSent ts || (consecutiveDays ts <? 7) then ret tt
      else
        event ← createEvent env d7_completion None;
        enqueue event;;
        updateTelemetrySettings (mkUpdates None None None None None (Some true))
  end.

Definition sendDailyCompletionEvent (env : Env) : M unit :=
  telemetrySettings ← getTelemetrySettings;
  match telemetrySettings with
  | None => ret tt
  | Some ts =>
      if negb (isOptedIn ts) then ret tt
      else
        let today := JS.splitT0 (JS.toISOString (now env)) in
        dayNumber ← getDaysSinceInstall env;
        if JS.str_eq (lastCompletionDate ts) (Some today) then ret tt
        else
          event ← createEvent env daily_completion dayNumber;
          enqueue event;;
          (* yesterday.setDate(yesterday.getDate() - 1): one day back on the clock *)
          let yesterdayStr := JS.splitT0 (JS.toISOString (now env - JS.msPerDay)) in
          let newConsecutiveDays :=
            if JS.str_eq (lastCompletionDate ts) (Some yesterdayStr)
            then consecutiveDays ts + 1 else 1 in
          updateTelemetrySettings
            (mkUpdates None None None (Some newConsecutiveDays) (Some today)
                       (Some (if newConsecutiveDays >=? 7 then false else d7EventSent ts)));;
          if (newConsecutiveDays =? 7) && negb (d7EventSent ts)
          then sendD7CompletionEvent env
          else ret tt
  end.

(** Reading and replacing [this.eventQueue]. *)
Definition getQueue : M (list TelemetryEvent) := fun w => (Ok (eventQueue w), w).

Definition setQueue (queue : list TelemetryEvent) : M unit :=
  fun w => (Ok tt, mkWorld (db w) queue (faults w)).

Definition sendActivationEvent (env : Env) : M unit :=
  telemetrySettings ← getTelemetrySettings;
  match telemetrySettings with
  | None => ret tt
  | Some ts =>
      if negb (isOptedIn ts) || activationSent ts then ret tt
      else
        event ← createEvent env activation None;
        enqueue event;;
        updateTelemetrySettings (mkUpdates None None (Some true) None None None)
  end.

Definition optIn (env : Env) : M unit :=
  telemetrySettings ← getTelemetrySettings;
  match telemetrySettings with
  | None => ret tt
  | Some ts =>
      let anonId := if JS.truthy (anonId ts) then default EmptyString (anonId ts)
                    else generateAnonId env in
      updateTelemetrySettings (mkUpdates (Some true) (Some anonId) None None None None);;
      if negb (activationSent ts) then sendActivationEvent env else ret tt
  end.

(** [optOut]: the two properties passed as [undefined] are [None]. *)
Definition optOut : M unit :=
  updateTelemetrySettings (mkUpdates (Some false) None (Some false) (Some 0) None (Some false));;
  setQueue [].

Definition MAX_RETRY_ATTEMPTS : Z := 5.
Definition RETRY_DELAYS : list Z := [1000; 2000; 5000; 10000; 30000].

(** [this.eventQueue.filter(e => e.id !== id)]. *)
Definition removeById (id : string) (queue : list TelemetryEvent) : list TelemetryEvent :=
  List.filter (fun e => negb (String.eqb (ev_id e) id)) queue.

Definition withRetryCount (n : Z) (e : TelemetryEvent) : TelemetryEvent :=
  mkEvent (ev_id e) (eventType e) (ev_timestamp e) (ev_anonId e) (appVersion e)
          (platform e) (timezone e) (dayNumber e) (Some n) (queuedAt e).

(** The failure branch of the loop of [processQueue]: the first queued
    event with the id gets its [retryCount] raised, and a retry is
    scheduled after [RETRY_DELAYS[Math.min((retryCount || 1) - 1,
    RETRY_DELAYS.length - 1)]] milliseconds ([None] is an [undefined]
    delay). The result is [None] when no queued event has the id. *)
Fixpoint bumpRetry (id : string) (queue : list TelemetryEvent)
    : option (list TelemetryEvent * option Z) :=
  match queue with
  | [] => None
  | e :: rest =>
      if String.eqb (ev_id e) id then
        let n := default 0 (retryCount e) + 1 in
        Some (withRetryCount n e :: rest,
              promptUtils.at_index RETRY_DELAYS
                (Some (Z.min (JS.num_or n 1 - 1) (Z.of_nat (length RETRY_DELAYS) - 1))))
      else
        match bumpRetry id rest with
        | Some (rest', delay) => Some (e :: rest', delay)
        | None => None
        end
  end.

(** What a run of [processQueue] did: the queue it leaves, the events it
    handed to [sendEventToServer], in order, and the delay of the retry it
    scheduled with [setTimeout], if any. *)
Record Delivery := mkDelivery {
  remaining : list TelemetryEvent;
  sent : list TelemetryEvent;
  retryDelay : option (option Z)
}.

(** The loop of [processQueue] over the copy [eventsToProcess]. The head of
    [responses] is whether the server accepts the next event sent; without
    a response the request fails. *)
Fixpoint deliver (eventsToProcess : list TelemetryEvent) (responses : list bool)
    (queue : list TelemetryEvent) : Delivery :=
  match eventsToProcess with
  | [] => mkDelivery queue [] None
  | event :: rest =>
      if default 0 (retryCount event) >=? MAX_RETRY_ATTEMPTS
      then deliver rest responses (removeById (ev_id event) queue)
      else
        let success := hd false responses in
        if success then
          let d := deliver rest (tl responses) (removeById (ev_id event) queue) in
          mkDelivery (remaining d) (event :: sent d) (retryDelay d)
        else
          match bumpRetry (ev_id event) queue with
          | Some (queue', delay) => mkDelivery queue' [event] (Some delay)
          | None => mkDelivery queue [event] None
          end
  end.

(** [processQueue], for a call that starts while no other run is in
    progress ([processingQueue] is [false]). *)
Definition processQueue (responses : list bool) : M Delivery :=
  queue ← getQueue;
  if Nat.eqb (length queue) 0 then ret (mkDelivery queue [] None)
  else
    telemetrySettings ← getTelemetrySettings;
    if negb (default false (isOptedIn <$> telemetrySettings))
    then setQueue [];; ret (mkDelivery [] [] None)
    else
      let d := deliver queue responses queue in
      setQueue (remaining d);; ret d.

End TelemetryService.

(* ===================================================================== *)
(** * Saving an entry ([src/components/PromptEntry.tsx], [handleSave])    *)
(* ===================================================================== *)

Module PromptEntry.

(** The branch of [handleSave] that creates an entry: [await
    db.entries.add(entry)] and then [await dbUtils.updateStreak(today)],
    where [today] is the [dateLocal] the new entry was given. *)
Definition saveNewEntry (env : Env) (entry : Entry) : M dbUtils.StreakUpdate :=
  entries_add entry;;
  dbUtils.updateStreak env (dateLocal entry).

(** The branch of [handleSave] that edits the loaded [todayEntry]: [await
    db.entries.put(entry)] on the same [id], and then the same call of
    [updateStreak] for the date the entry was loaded under. *)
Definition saveEditedEntry (env : Env) (entry : Entry) : M dbUtils.StreakUpdate :=
  entries_put entry;;
  dbUtils.updateStreak env (dateLocal entry).

(** The three text fields of the form, already trimmed. *)
Record FormData := mkForm {
  f_setback : string;
  f_protective_step : string;
  f_gratitude : string
}.

(** The entry [handleSave] creates when no entry of today was loaded. *)
Definition newEntry (env : Env) (promptId : string) (formData : FormData) : Entry :=
  mkEntry ("entry-" +:+ pretty (now env)) (dbUtils.getTodayLocal env) promptId
          (f_setback formData) (f_protective_step formData) (f_gratitude formData)
          (JS.toISOString (now env)) None None.

(** The entry [handleSave] writes back when [todayEntry] was loaded. *)
Definition updatedEntry (env : Env) (todayEntry : Entry) (formData : FormData) : Entry :=
  mkEntry (e_id todayEntry) (dateLocal todayEntry) (prompt_id todayEntry)
          (f_setback formData) (f_protective_step formData) (f_gratitude formData)
          (e_created_at todayEntry) (Some (JS.toISOString (now env))) (duration_seconds todayEntry).

(** [handleSave], after validation, up to the streak update: [today] comes
    from [dbUtils.getTodayLocal]. *)
Definition handleSave (env : Env) (todayEntry : option Entry) (promptId : string)
    (formData : FormData) : M dbUtils.StreakUpdate :=
  let today := dbUtils.getTodayLocal env in
  match todayEntry with
  | Some todayEntry =>
      entries_put (updatedEntry env todayEntry formData);;
      dbUtils.updateStreak env today
  | None =>
      entries_add (newEntry env promptId formData);;
      dbUtils.updateStreak env today
  end.

End PromptEntry.

(* ===================================================================== *)
(** * Vocabulary of the specification                                     *)
(* ===================================================================== *)

(** The world after one store access that threw. *)
Definition tick (w : World) : World := mkWorld (db w) (eventQueue w) (tail (faults w)).

(** [wp m Q w]: running [m] from [w] ends in a result and a world that
    satisfy [Q]. *)
Definition wp {A} (m : M A) (Q : Result A -> World -> Prop) (w : World) : Prop :=
  Q (m w).1 (m w).2.

(** ** The streak engine *)

(** The four operations that write the streak-summary table. *)
Inductive StreakOp :=
| opInitialize
| opUpdate (entryDate : string)
| opValidate
| opReset.

Definition runOp (env : Env) (op : StreakOp) : M unit :=
  match op with
  | opInitialize => dbUtils.initializeStreakSummary env;; ret tt
  | opUpdate entryDate => dbUtils.updateStreak env entryDate;; ret tt
  | opValidate => dbUtils.validateAndRecoverStreakData env;; ret tt
  | opReset => dbUtils.resetStreakData env;; ret tt
  end.

(** The worlds the application can be in: it starts without a summary row,
    runs the streak operations at any time, on any clock and under any
    failure schedule, and in between does anything that leaves the
    summary table alone. *)
Inductive reachable : World -> Prop :=
| reach_empty w : streakSummary (db w) !! "main" = None -> reachable w
| reach_op w env op : reachable w -> reachable (runOp env op w).2
| reach_frame w w' : reachable w -> streakSummary (db w') = streakSummary (db w) -> reachable w'.

(** The invariant of a summary row, strengthened by what makes it
    inductive: a row that has counted an entry has a longest streak of at
    least one day. *)
Definition Inv (s : StreakSummary) : Prop :=
  0 <= current_streak s <= longest_streak s
  /\ (JS.truthy (last_entry_date s) = true -> 1 <= longest_streak s).

Definition TableInv (w : World) : Prop :=
  forall s, streakSummary (db w) !! "main" = Some s -> Inv s.

(** [e] is the first entry of the device's current day: it is dated today,
    its id is free, and no stored entry carries today's date. *)
Record firstSaveOfDay (env : Env) (e : Entry) (w : World) : Prop := mkFirstSave {
  fs_date : dateLocal e = JS.dayString (JS.localDay (tzOffset env) (now env));
  fs_fresh : entries (db w) !! e_id e = None;
  fs_first : countOn (dateLocal e) (entries (db w)) = 0
}.

(** [dailyRun w0 n d w]: from [w0], the user saved the first entry of the
    day on [n] consecutive days, the last of them day [d], and [w] is the
    world now. Between the saves anything may happen that leaves the
    summary table alone and a working store. *)
Inductive dailyRun (w0 : World) : nat -> Z -> World -> Prop :=
| run_first env e :
    firstSaveOfDay env e w0 ->
    dailyRun w0 1 (JS.localDay (tzOffset env) (now env)) (PromptEntry.saveNewEntry env e w0).2
| run_next n d w env e :
    dailyRun w0 n d w ->
    JS.localDay (tzOffset env) (now env) = d + 1 ->
    firstSaveOfDay env e w ->
    dailyRun w0 (S n) (d + 1) (PromptEntry.saveNewEntry env e w).2
| run_other n d w w' :
    dailyRun w0 n d w ->
    streakSummary (db w') = streakSummary (db w) ->
    faults w' = [] ->
    dailyRun w0 n d w'.

(** The summary row is the one [initializeStreakSummary] writes. *)
Definition freshlyInitialized (w : World) : Prop :=
  exists env0, streakSummary (db w) !! "main" = Some (dbUtils.freshStreak env0).

Definition runInv (n : nat) (d : Z) (w : World) : Prop :=
  faults w = []
  /\ exists s, streakSummary (db w) !! "main" = Some s /\ ss_id s = "main"
               /\ current_streak s = Z.of_nat n /\ longest_streak s = Z.of_nat n
               /\ last_entry_date s = Some (JS.dayString d).

(** The second-entry property of a way of saving: when an entry dated like
    [e] is already stored and a summary row exists, saving [e] and calling
    [updateStreak] reports [isFirstToday = false] and leaves the summary
    table as it was. *)
Definition sameDaySaveLeavesStreak (save : Env -> Entry -> M dbUtils.StreakUpdate)
    (env : Env) (e : Entry) (w : World) : Prop :=
  1 <= countOn (dateLocal e) (entries (db w)) ->
  is_Some (streakSummary (db w) !! "main") ->
  (forall u, (save env e w).1 = Ok u -> dbUtils.isFirstToday u = false)
  /\ streakSummary (db (save env e w).2) = streakSummary (db w).

(** ** JSON documents *)

(** [omitsField k v]: no property named [k] with a value other than
    [undefined] occurs in [v], at any depth. *)
Fixpoint omitsField (k : string) (v : JsVal) : bool :=
  match v with
  | JArr items =>
      (fix go (l : list JsVal) : bool :=
         match l with
         | [] => true
         | x :: r => omitsField k x && go r
         end) items
  | JObj props =>
      (fix go (l : list (string * JsVal)) : bool :=
         match l with
         | [] => true
         | (k', x) :: r =>
             match x with
             | JUndefined => go r
             | _ => negb (String.eqb k' k) && omitsField k x && go r
             end
         end) props
  | _ => true
  end.

(** The names of the PIN material in a settings row. *)
Definition isPinField (k : string) : Prop :=
  k = "pinHash" \/ k = "pinSalt" \/ k = "pinIterations".

(** ** Settings rows and the telemetry queue *)

(** The telemetry view [getTelemetrySettings] gives of a settings row. *)
Definition telemetryOf (s : Settings) : TelemetrySettings :=
  mkTelemetry (telemetryOptIn s) (telemetryAnonId s)
              (default false (telemetryActivationSent s))
              (JS.num_or (default 0 (telemetryConsecutiveDays s)) 0)
              (telemetryLastCompletionDate s)
              (default false (telemetryD7EventSent s))
              (installAt s).

(** The row [updateTelemetrySettings] writes for a row [s]. *)
Definition applyUpdates (updates : TelemetryUpdates) (s : Settings) : Settings :=
  mkSettings (s_id s) (pinSalt s) (pinIterations s) (pinHash s) (lockTimeoutMinutes s)
    (dailyCueTime s) (dailyCueEnabled s) (notificationsEnabled s)
    (default (telemetryOptIn s) (u_isOptedIn updates))
    (TelemetryService.coalesce (u_anonId updates) (telemetryAnonId s))
    (TelemetryService.coalesce (u_activationSent updates) (telemetryActivationSent s))
    (TelemetryService.coalesce (u_consecutiveDays updates) (telemetryConsecutiveDays s))
    (TelemetryService.coalesce (u_lastCompletionDate updates) (telemetryLastCompletionDate s))
    (TelemetryService.coalesce (u_d7EventSent updates) (telemetryD7EventSent s))
    (swapUsedDate s) (lastPromptDate s) (lastPromptId s) (installAt s) (currentTheme s).

(** The world with the settings row replaced. *)
Definition withRow (s : Settings) (w : World) : World :=
  mkWorld (mkStore (<["main" := s]> (settings (db w))) (prompts (db w)) (entries (db w))
                   (streakSummary (db w)))
          (eventQueue w) (faults w).

(** The store works and holds the settings row [s] under its own id. *)
Definition rowIs (s : Settings) (w : World) : Prop :=
  faults w = [] /\ settings (db w) !! "main" = Some s /\ s_id s = "main".

(** An event [processQueue] still tries to send. *)
Definition sendable (e : TelemetryEvent) : bool :=
  default 0 (retryCount e) <? TelemetryService.MAX_RETRY_ATTEMPTS.

(** The anonymous id [createEvent] and [optIn] use for a row. *)
Definition anonIdFor (env : Env) (s : Settings) : string :=
  if JS.truthy (telemetryAnonId s) then default EmptyString (telemetryAnonId s)
  else TelemetryService.generateAnonId env.

(** The event [createEvent] builds. *)
Definition eventOf (env : Env) (eventType : EventType) (dayNumber : option Z) (anonId : string)
    : TelemetryEvent :=
  mkEvent ("evt_" +:+ pretty (now env) +:+ "_" +:+ randomSuffix env)
          eventType (JS.toISOString (now env)) anonId "0.1.0"
          TelemetryService.getPlatform TelemetryService.getTimezone dayNumber (Some 0)
          (JS.toISOString (now env)).

(** The world with one more event in the queue. *)
Definition pushed (e : TelemetryEvent) (w : World) : World :=
  mkWorld (db w) (eventQueue w ++ [e]) (faults w).

(** ** The PIN provider *)

(** The hash data [verifyPin] of the provider reads from the settings of
    the application store. *)
Definition storedPin (st : PinProvider.State) : PinHashData :=
  mkPinHash (default EmptyString (PinProvider.appSettings st ≫= pinSalt))
            (default 0 (PinProvider.appSettings st ≫= pinIterations))
            (default EmptyString (PinProvider.appSettings st ≫= pinHash)).

(** [pin] is a well-formed PIN that is not the configured one. *)
Definition wrongPin (pbkdf2 : list byte -> list byte -> Z -> list byte)
    (st : PinProvider.State) (pin : string) : Prop :=
  cryptoUtils.isValidPin pin = true /\ cryptoUtils.verifyPin pbkdf2 pin (storedPin st) = false.

(** The provider after the user entered the PINs of [tries] one after the
    other, each at its own time. *)
Fixpoint tryPins (pbkdf2 : list byte -> list byte -> Z -> list byte)
    (tries : list (Env * string)) (st : PinProvider.State) (b : Browser)
    : PinProvider.State * Browser :=
  match tries with
  | [] => (st, b)
  | (env, pin) :: rest =>
      let '(_, st', b') := PinProvider.verifyPin pbkdf2 env pin st b in
      tryPins pbkdf2 rest st' b'
  end.

(** ** Bounded checks by evaluation *)

Fixpoint allFrom (P : Z -> bool) (z : Z) (n : nat) : bool :=
  match n with
  | O => true
  | S k => P z && allFrom P (z + 1) k
  end.

Definition pad2Check (n : Z) : bool :=
  Nat.eqb (String.length (JS.padStart0 2 n)) 2
  && bool_decide (JS.digits 0 (list_ascii_of_string (JS.padStart0 2 n)) = Some n).

Definition char64Check (n : Z) : bool :=
  bool_decide (Base64.index64 (Base64.char64 n) = Some n)
  && negb (Ascii.eqb (Base64.char64 n) Base64.pad).

(** ** The prompts table *)

(** The rows of [rows] whose primary key is free in [table]. *)
Definition freeRows (rows table : list Prompt) : list Prompt :=
  List.filter (fun row => negb (hasKey (p_id row) table)) rows.

(** ** The browser storage *)

(** [after] is [before] without some of the application's data: no key and
    no cache was added or changed, and what is not the application's was
    kept. *)
Definition lostOnlyAppData (before after : Browser) : Prop :=
  (forall k v, localStorage after !! k = Some v -> localStorage before !! k = Some v)
  /\ (forall k, dbUtils.isAppKey k = false -> localStorage after !! k = localStorage before !! k)
  /\ (forall k v, sessionStorage after !! k = Some v -> sessionStorage before !! k = Some v)
  /\ (forall k, dbUtils.isAppKey k = false
                -> sessionStorage after !! k = sessionStorage before !! k)
  /\ (forall name, name ∈ cacheNames after -> name ∈ cacheNames before)
  /\ (forall name, dbUtils.isAppCache name = false -> name ∈ cacheNames before
                   -> name ∈ cacheNames after).

(** [after] is [before] without the application's data: every key that
    starts with ["nvj_"] or contains ["negviz"] is gone from both storage
    areas, and every cache whose name contains ["negviz"] or ["journal"]. *)
Definition withoutAppData (before after : Browser) : Prop :=
  (forall k, localStorage after !! k
             = if dbUtils.isAppKey k then None else localStorage before !! k)
  /\ (forall k, sessionStorage after !! k
                = if dbUtils.isAppKey k then None else sessionStorage before !! k)
  /\ (forall name, name ∈ cacheNames after
                   <-> name ∈ cacheNames before /\ dbUtils.isAppCache name = false).

(** The browser refuses nothing the cleaning of [b] asks for. *)
Definition refusesNothing (refusals : dbUtils.Refusals) (b : Browser) : Prop :=
  dbUtils.localStorageThrows refusals = false
  /\ dbUtils.sessionStorageThrows refusals = false
  /\ dbUtils.cachesKeysRejects refusals = false
  /\ forall name, name ∈ cacheNames b -> dbUtils.isAppCache name = true
                  -> dbUtils.cacheDeleteRejects refusals name = false.

(* ===================================================================== *)
(** * Sample devices, stores and runs                                     *)
(* ===================================================================== *)

(** Noon UTC on the [day]-th day after 2024-01-01, on a device in UTC. *)
Definition noon (day : Z) : Env :=
  mkEnv (1704110400000 + day * JS.msPerDay) 0 0 "k3j9x0a1b".

(** 2024-01-01T12:00:00Z on a device in Tokyo (UTC+9, offset -540). *)
Definition tokyoEvening : Env := mkEnv 1704110400000 (-540) 0 "k3j9x0a1b".

(** The settings row [initializeSettings] writes. *)
Definition installedSettings : Settings :=
  mkSettings "main" None None None 5 None false false false None None None None None
             None None None "2024-01-01T08:00:00.000Z" system.

(** The same row after opting in to telemetry. *)
Definition optedInSettings : Settings :=
  mkSettings "main" None None None 5 None false false true (Some "anon_1704096000000_q1w2e3r4t")
             (Some true) None None None None None None "2024-01-01T08:00:00.000Z" system.

(** The same row with a PIN configured. *)
Definition pinSettings : Settings :=
  mkSettings "main" (Some "MDEyMzQ1Njc4OWFiY2RlZg==") (Some 100000) (Some "NDgyMQ==") 5
             None false false false None None None None None
             None None None "2024-01-01T08:00:00.000Z" system.

(** A store with the given settings row and the seed catalog. *)
Definition installed (s : Settings) : World :=
  (promptUtils.initializeSeedPrompts (noon 0)
     (mkWorld (mkStore {[ "main" := s ]} [] ∅ ∅) [] [])).2.

(** The same with the summary row initialized. *)
Definition freshInstall : World :=
  (dbUtils.initializeStreakSummary (noon 0) (installed installedSettings)).2.

(** The entry a user saves at noon of [day]. *)
Definition journalEntry (day : Z) : Entry :=
  mkEntry ("entry-" +:+ pretty (now (noon day)))
          (JS.dayString (JS.localDay (tzOffset (noon day)) (now (noon day))))
          "seed-1" "flat tyre" "check the pressure" "my bike"
          (JS.toISOString (now (noon day))) None None.

Definition savedOn (day : Z) (w : World) : World :=
  (PromptEntry.saveNewEntry (noon day) (journalEntry day) w).2.

Definition threeDays : World := savedOn 2 (savedOn 1 (savedOn 0 freshInstall)).

(** The entry of day 0 after an edit of its text. *)
Definition editedEntry : Entry :=
  mkEntry (e_id (journalEntry 0)) (dateLocal (journalEntry 0)) "seed-1"
          "flat tyre on the way to work" "check the pressure" "my bike"
          (e_created_at (journalEntry 0)) (Some (JS.toISOString (now (noon 0)))) None.

(** A second entry written on day 0, a second after the first. *)
Definition secondEntry : Entry :=
  mkEntry "entry-1704110401000" (dateLocal (journalEntry 0)) "seed-1"
          "missed the bus" "leave earlier" "a short walk"
          "2024-01-01T12:00:01.000Z" None None.

(** Telemetry: the world after the daily-completion trigger ran at noon of
    each of [days]. *)
Fixpoint completeDays (days : list Z) (w : World) : World :=
  match days with
  | [] => w
  | day :: rest => completeDays rest (TelemetryService.sendDailyCompletionEvent (noon day) w).2
  end.

Definition countD7 (w : World) : nat :=
  length (List.filter (fun event => match eventType event with d7_completion => true | _ => false end)
                      (eventQueue w)).

(** The id of the prompt a call returned. *)
Definition returnedPromptId (r : Result (option Prompt)) : option string :=
  match r with
  | Ok (Some p) => Some (p_id p)
  | _ => None
  end.

(** 21:00 in Tokyo on the [day]-th day after 2024-01-01. *)
Definition tokyoEveningOf (day : Z) : Env :=
  mkEnv (1704110400000 + day * JS.msPerDay) (-540) 0 "k3j9x0a1b".

Definition sampleForm : PromptEntry.FormData :=
  PromptEntry.mkForm "flat tyre" "check the pressure" "my bike".

(** The world after [handleSave] created an entry in the evening of each of
    [days], on a device in Tokyo. *)
Fixpoint tokyoEvenings (days : list Z) (w : World) : World :=
  match days with
  | [] => w
  | day :: rest =>
      tokyoEvenings rest (PromptEntry.handleSave (tokyoEveningOf day) None "seed-1" sampleForm w).2
  end.

(** The store after the user swapped the prompt on day 0. *)
Definition swappedToday : World :=
  (promptUtils.swapTodayPrompt (noon 0) (installAt installedSettings) freshInstall).2.

(** A key-derivation function for examples: the password bytes themselves. *)
Definition identityKdf (password saltBytes : list byte) (iterations : Z) : list byte := password.

(** The export of a store with a PIN configured. *)
Definition pinExport : dbUtils.Export :=
  match (dbUtils.exportDataWithProgress (noon 0) (installed pinSettings)).1 with
  | Ok x => x
  | Throw _ => dbUtils.mkExport EmptyString (dbUtils.mkMeta EmptyString EmptyString EmptyString 0)
  end.

(** A streak row with a negative longest streak, as a store holds it after
    a corrupted write. *)
Definition corruptedStreak : StreakSummary :=
  mkStreak "main" "2024-01-01T12:00:00.000Z" 9 (-2) (Some "2024-01-03").

Definition corruptedStore : World :=
  mkWorld (mkStore ∅ [] ∅ {[ "main" := corruptedStreak ]}) [] [].

(** A store with [n] journal entries, written one per second. *)
Definition entryNumber (i : nat) : Entry :=
  mkEntry ("entry-" +:+ pretty (1704110400000 + 1000 * Z.of_nat i)) "2024-01-01" "seed-1"
          "flat tyre" "check the pressure" "my bike"
          ("2024-01-01T12:" +:+ JS.padStart0 2 (Z.of_nat i / 60) +:+ ":"
             +:+ JS.padStart0 2 (Z.of_nat i mod 60) +:+ ".000Z") None None.

Definition journalOf (n : nat) : World :=
  mkWorld (mkStore ∅ [] (list_to_map ((fun i => (e_id (entryNumber i), entryNumber i)) <$> seq 0 n)) ∅)
          [] [].

(** The catalog with a user prompt and an archived seed in front. *)
Definition mixedPrompts : list Prompt :=
  mkPrompt "user-1" "Imagine a week without music" None false "2024-01-02T09:00:00.000Z" user
  :: mkPrompt "seed-0" "Imagine losing your keys" None true "2024-01-01T12:00:00.000Z" seed
  :: promptUtils.seedRows (noon 0).

Definition thirdSeed : Prompt :=
  mkPrompt "seed-3" "Visualize losing your current health and mobility"
           (Some "What physical abilities or aspects of your health do you value most?")
           false "2024-01-01T12:00:00.000Z" seed.

Definition fourthSeed : Prompt :=
  mkPrompt "seed-4" "Imagine your primary source of income disappearing"
           (Some "What opportunities or resources do you currently have that support you?")
           false "2024-01-01T12:00:00.000Z" seed.

(** A queued event that failed [retries] times, and a world with a given
    queue for an opted-in user. *)
Definition queuedEvent (i retries : Z) : TelemetryEvent :=
  mkEvent ("evt_" +:+ pretty i) daily_completion "2024-01-01T12:00:00.000Z"
          "anon_1704096000000_q1w2e3r4t" "0.1.0" "Unknown" "Unknown" (Some i) (Some retries)
          "2024-01-01T12:00:00.000Z".

Definition outbox (queue : list TelemetryEvent) : World :=
  mkWorld (db (installed optedInSettings)) queue [].

(** The provider of a device with the sample PIN, unlocked, and a browser
    with nothing stored. *)
Definition pinState : PinProvider.State :=
  PinProvider.mkState (Some pinSettings) true false (Some 0) false None.

Definition emptyBrowser : Browser := mkBrowser ∅ ∅ [].

(** Half past midnight in New York on 2024-01-02 (05:30 UTC), and the
    minutes after it. *)
Definition newYorkNight (minute : Z) : Env :=
  mkEnv (1704173400000 + minute * 60000) 300 0 "k3j9x0a1b".

(** The form after the user changed the first field. *)
Definition editedForm : PromptEntry.FormData :=
  PromptEntry.mkForm "flat tyre on the way to work" "check the pressure" "my bike".

(** One session in New York: [handleSave] creates the entry of the night,
    and the user saves two edits of it in the next two minutes. *)
Definition nightCreated : World :=
  (PromptEntry.handleSave (newYorkNight 0) None "seed-1" sampleForm freshInstall).2.

Definition nightEntry : Entry := PromptEntry.newEntry (newYorkNight 0) "seed-1" sampleForm.

Definition nightEdited : World :=
  (PromptEntry.handleSave (newYorkNight 1) (Some nightEntry) "seed-1" editedForm nightCreated).2.

(** A prompts table in which a prompt of the user has the key of a catalog
    row. *)
Definition clashingPrompts : World :=
  mkWorld (mkStore ∅ [ mkPrompt "seed-3" "Imagine a week without music" None false
                                "2023-12-30T09:00:00.000Z" user ] ∅ ∅) [] [].

(** A browser with keys and caches of the application and of others, a
    browser that refuses nothing, and one whose [caches.keys()] rejects. *)
Definition usedBrowser : Browser :=
  mkBrowser {[ "nvj_lastActivity" := "1704110400000"; "theme" := "dark" ]}
            {[ "negviz_draft" := "flat tyre" ]}
            [ "negviz-static-v1"; "fonts" ].

Definition noRefusals : dbUtils.Refusals :=
  dbUtils.mkRefusals false false false (fun _ => false) EmptyString.

Definition cachesRefused : dbUtils.Refusals :=
  dbUtils.mkRefusals false false true (fun _ => false) "The operation is insecure.".

(* ===================================================================== *)
(** * The calendar and the date strings                                   *)
(* ===================================================================== *)

Lemma allFrom_spec P n : forall z, allFrom P z n = true ->
  forall k, z <= k < z + Z.of_nat n -> P k = true.
Proof.
  induction n as [|n IH]; intros z H k Hk; [lia|].
  cbn [allFrom] in H. apply andb_true_iff in H as [H0 H1].
  destruct (Z.eq_dec k z) as [->|Hne]; [exact H0|].
  apply (IH (z + 1) H1). lia.
Qed.

Lemma pad2_spec n : 0 <= n <= 99 ->
  String.length (JS.padStart0 2 n) = 2%nat
  /\ JS.digits 0 (list_ascii_of_string (JS.padStart0 2 n)) = Some n.
Proof.
  intros Hn.
  assert (H : pad2Check n = true).
  { apply (allFrom_spec pad2Check 100 0); [vm_compute; reflexivity | lia]. }
  unfold pad2Check in H. apply andb_true_iff in H as [H1 H2].
  split; [by apply Nat.eqb_eq | by apply bool_decide_eq_true in H2].
Qed.

Lemma pad2_inj m n : 0 <= m <= 99 -> 0 <= n <= 99 ->
  JS.padStart0 2 m = JS.padStart0 2 n -> m = n.
Proof.
  intros Hm Hn E.
  destruct (pad2_spec m Hm) as [_ Dm]. destruct (pad2_spec n Hn) as [_ Dn].
  rewrite E in Dm. congruence.
Qed.

Lemma append_cons a s t : String a s +:+ t = String a (s +:+ t).
Proof. reflexivity. Qed.

Lemma append_nil t : EmptyString +:+ t = t.
Proof. reflexivity. Qed.

Lemma length_append s t : String.length (s +:+ t) = (String.length s + String.length t)%nat.
Proof. induction s as [|a s IH]; [reflexivity|]. rewrite append_cons. cbn. by rewrite IH. Qed.

(** Two concatenations with tails of one length agree part by part. *)
Lemma append_inj_tail s1 : forall s2 t1 t2,
  s1 +:+ t1 = s2 +:+ t2 -> String.length t1 = String.length t2 -> s1 = s2 /\ t1 = t2.
Proof.
  induction s1 as [|a s1 IH]; intros [|b s2] t1 t2 E L.
  - by rewrite !append_nil in E.
  - rewrite append_nil, append_cons in E. subst t1.
    cbn in L. rewrite length_append in L. lia.
  - rewrite append_nil, append_cons in E. subst t2.
    cbn in L. rewrite length_append in L. lia.
  - rewrite !append_cons in E. injection E as -> E.
    destruct (IH _ _ _ E L) as [-> ->]. done.
Qed.

(** The month and the day of a calendar date are in range. *)
Lemma civil_ranges z :
  1 <= JS.c_month (JS.civil_from_days z) <= 12 /\ 1 <= JS.c_day (JS.civil_from_days z) <= 31.
Proof.
  unfold JS.civil_from_days. cbn [JS.c_month JS.c_day].
  set (z' := z + 719468).
  set (doe := z' - z' / 146097 * 146097).
  assert (Hdoe : 0 <= doe < 146097) by (unfold doe; Z.div_mod_to_equations; lia).
  clearbody doe.
  set (yoe := (doe - doe / 1460 + doe / 36524 - doe / 146096) / 365).
  assert (Hdoy : 0 <= doe - (365 * yoe + yoe / 4 - yoe / 100) <= 365)
    by (unfold yoe; Z.div_mod_to_equations; lia).
  set (doy := doe - (365 * yoe + yoe / 4 - yoe / 100)) in *. clearbody doy.
  set (mp := (5 * doy + 2) / 153).
  assert (Hmp : 0 <= mp <= 11) by (unfold mp; Z.div_mod_to_equations; lia).
  assert (Hd : 1 <= doy - (153 * mp + 2) / 5 + 1 <= 31)
    by (unfold mp; Z.div_mod_to_equations; lia).
  split; [|exact Hd].
  destruct (mp <? 10) eqn:E; [apply Z.ltb_lt in E | apply Z.ltb_ge in E]; lia.
Qed.

(** A day number is recovered from its calendar date. *)
Lemma days_from_civil_from_days z : JS.days_from_civil (JS.civil_from_days z) = z.
Proof.
  unfold JS.civil_from_days, JS.days_from_civil. cbn [JS.c_year JS.c_month JS.c_day].
  set (z' := z + 719468).
  set (era := z' / 146097).
  set (doe := z' - era * 146097).
  assert (Hdoe : 0 <= doe < 146097) by (unfold doe, era; Z.div_mod_to_equations; lia).
  assert (Hz : z = era * 146097 + doe - 719468) by (unfold doe, z'; lia).
  clearbody doe era. clear z'.
  set (yoe := (doe - doe / 1460 + doe / 36524 - doe / 146096) / 365).
  assert (Hyoe : 0 <= yoe <= 399) by (unfold yoe; Z.div_mod_to_equations; lia).
  assert (Hdoy : 0 <= doe - (365 * yoe + yoe / 4 - yoe / 100) <= 365)
    by (unfold yoe; Z.div_mod_to_equations; lia).
  clearbody yoe.
  set (doy := doe - (365 * yoe + yoe / 4 - yoe / 100)) in *.
  assert (Edoe : doe = yoe * 365 + yoe / 4 - yoe / 100 + doy) by (unfold doy; lia).
  clearbody doy.
  set (mp := (5 * doy + 2) / 153).
  assert (Hmp : 0 <= mp <= 11) by (unfold mp; Z.div_mod_to_equations; lia).
  clearbody mp.
  set (m := if mp <? 10 then mp + 3 else mp - 9).
  assert (Hm : (if m <=? 2 then 1 else 0) = (if mp <? 10 then 0 else 1)
               /\ (if m >? 2 then m - 3 else m + 9) = mp).
  { unfold m. destruct (mp <? 10) eqn:E; [apply Z.ltb_lt in E | apply Z.ltb_ge in E].
    - replace (mp + 3 <=? 2) with false by (symmetry; apply Z.leb_gt; lia).
      replace (mp + 3 >? 2) with true by (symmetry; apply Z.gtb_lt; lia). split; lia.
    - replace (mp - 9 <=? 2) with true by (symmetry; apply Z.leb_le; lia).
      replace (mp - 9 >? 2) with false by (symmetry; rewrite Z.gtb_ltb; apply Z.ltb_ge; lia).
      split; lia. }
  destruct Hm as [Hm1 Hm2]. rewrite Hm2.
  replace (yoe + era * 400 + (if m <=? 2 then 1 else 0) - (if m <=? 2 then 1 else 0))
    with (yoe + era * 400) by lia.
  assert (Hera : (yoe + era * 400) / 400 = era) by (Z.div_mod_to_equations; lia).
  rewrite Hera.
  replace (yoe + era * 400 - era * 400) with yoe by lia.
  lia.
Qed.

Lemma civil_from_days_inj a b : JS.civil_from_days a = JS.civil_from_days b -> a = b.
Proof.
  intros E. rewrite <- (days_from_civil_from_days a), <- (days_from_civil_from_days b).
  by rewrite E.
Qed.

Lemma formatYMD_inj c1 c2 :
  0 <= JS.c_month c1 <= 99 -> 0 <= JS.c_day c1 <= 99 ->
  0 <= JS.c_month c2 <= 99 -> 0 <= JS.c_day c2 <= 99 ->
  JS.formatYMD c1 = JS.formatYMD c2 -> c1 = c2.
Proof.
  destruct c1 as [y1 m1 d1], c2 as [y2 m2 d2]. cbn [JS.c_month JS.c_day].
  intros Hm1 Hd1 Hm2 Hd2. unfold JS.formatYMD. cbn [JS.c_year JS.c_month JS.c_day].
  intros E.
  destruct (pad2_spec m1 Hm1) as [Lm1 _]. destruct (pad2_spec m2 Hm2) as [Lm2 _].
  destruct (pad2_spec d1 Hd1) as [Ld1 _]. destruct (pad2_spec d2 Hd2) as [Ld2 _].
  apply append_inj_tail in E as [Ey E].
  2:{ rewrite ?length_append. cbn [String.length]. rewrite ?length_append. lia. }
  rewrite !append_cons, !append_nil in E. injection E as E.
  apply append_inj_tail in E as [Em E].
  2:{ rewrite ?length_append. cbn [String.length]. rewrite ?length_append. lia. }
  injection E as E.
  apply (inj pretty) in Ey. apply pad2_inj in Em; [|done..]. apply pad2_inj in E; [|done..].
  by subst.
Qed.

(** Different days have different date strings. *)
Lemma dayString_inj a b : JS.dayString a = JS.dayString b -> a = b.
Proof.
  unfold JS.dayString. intros E. apply civil_from_days_inj.
  pose proof (civil_ranges a) as [? ?]. pose proof (civil_ranges b) as [? ?].
  apply formatYMD_inj; [lia..|exact E].
Qed.

Lemma dayString_truthy d : JS.truthy (Some (JS.dayString d)) = true.
Proof.
  unfold JS.dayString, JS.formatYMD.
  destruct (pretty (JS.c_year (JS.civil_from_days d))); reflexivity.
Qed.

Lemma str_eq_true a b : JS.str_eq a b = true <-> a = b.
Proof. unfold JS.str_eq. apply bool_decide_eq_true. Qed.

Lemma str_eq_dayString a b :
  JS.str_eq (Some (JS.dayString a)) (Some (JS.dayString b)) = bool_decide (a = b).
Proof.
  unfold JS.str_eq. apply bool_decide_ext. split.
  - intros [= E]. by apply dayString_inj.
  - by intros ->.
Qed.

(* ===================================================================== *)
(** * Reasoning about operations                                          *)
(* ===================================================================== *)

Section WP.
Context {A B : Type}.

Lemma wp_ret (a : A) Q w : Q (Ok a) w -> wp (ret a) Q w.
Proof. done. Qed.

Lemma wp_throw e (Q : Result A -> World -> Prop) w : Q (Throw e) w -> wp (throw e) Q w.
Proof. done. Qed.

Lemma wp_lift (r : Result A) Q w : Q r w -> wp (lift r) Q w.
Proof. done. Qed.

Lemma wp_bind (m : M A) (k : A -> M B) Q w :
  wp m (fun r w' => match r with
                    | Ok a => wp (k a) Q w'
                    | Throw e => Q (Throw e) w'
                    end) w ->
  wp (m ≫= k) Q w.
Proof.
  unfold wp, mbind, M_bind, bind. destruct (m w) as [[a|e] w']; done.
Qed.

Lemma wp_try (m h : M A) Q w :
  wp m (fun r w' => match r with
                    | Ok a => Q (Ok a) w'
                    | Throw _ => wp h Q w'
                    end) w ->
  wp (try_catch m h) Q w.
Proof.
  unfold wp, try_catch. destruct (m w) as [[a|e] w']; done.
Qed.

(** A store access either throws, leaving the tables alone, or runs. *)
Lemma wp_access (f : Store -> A * Store) Q w :
  Q (Throw "storage unavailable") (tick w) ->
  Q (Ok (f (db w)).1) (mkWorld (f (db w)).2 (eventQueue w) (tail (faults w))) ->
  wp (access f) Q w.
Proof.
  unfold wp, access, tick. intros H1 H2.
  destruct (faults w) as [|[] fs]; cbn [tail] in *; try done;
    destruct (f (db w)); done.
Qed.

Lemma wp_mono (m : M A) (Q Q' : Result A -> World -> Prop) w :
  (forall r w', Q r w' -> Q' r w') -> wp m Q w -> wp m Q' w.
Proof. unfold wp. auto. Qed.

End WP.

(** One step of symbolic execution, by the shape of the operation. *)
Ltac wp_step :=
  lazymatch goal with
  | |- wp (mbind _ _) _ _ => apply wp_bind
  | |- wp (try_catch _ _) _ _ => apply wp_try
  | |- wp (ret _) _ _ => apply wp_ret
  | |- wp (throw _) _ _ => apply wp_throw
  | |- wp (lift _) _ _ => apply wp_lift
  | |- wp (access _) _ _ => apply wp_access; cbn [fst snd db eventQueue faults tick]
  end;
  cbv beta iota.

(* ===================================================================== *)
(** * The streak engine                                                   *)
(* ===================================================================== *)

Create HintDb streak.

Lemma Inv_fresh env : Inv (dbUtils.freshStreak env).
Proof. split; cbn; [lia | done]. Qed.

Lemma Inv_advance env y date s : Inv s -> Inv (dbUtils.advance env y date s).
Proof.
  intros [H1 H2]. unfold dbUtils.advance, Inv.
  destruct (JS.truthy (last_entry_date s)) eqn:T; cbn [negb].
  - specialize (H2 eq_refl).
    destruct (JS.str_eq (last_entry_date s) (Some y));
      [|destruct (JS.str_eq (last_entry_date s) (Some date))];
      cbn [negb current_streak longest_streak last_entry_date]; split; lia.
  - cbn [current_streak longest_streak last_entry_date]. split; lia.
Qed.

Lemma ss_id_advance env y date s : ss_id (dbUtils.advance env y date s) = ss_id s.
Proof.
  unfold dbUtils.advance.
  destruct (negb _); [done|]. destruct (JS.str_eq _ _); [done|]. by destruct (negb _).
Qed.

(** Writing a row keeps the table invariant when the row is sound, or when
    it goes under another key. *)
Lemma TableInv_put w q fs r :
  TableInv w -> (ss_id r = "main" -> Inv r) ->
  TableInv (mkWorld (mkStore (settings (db w)) (prompts (db w)) (entries (db w))
                             (<[ss_id r := r]> (streakSummary (db w)))) q fs).
Proof.
  intros HT Hr s. cbn. rewrite lookup_insert. case_decide as E.
  - intros [= <-]. auto.
  - apply HT.
Qed.

Lemma TableInv_same w w' :
  streakSummary (db w') = streakSummary (db w) -> TableInv w -> TableInv w'.
Proof. unfold TableInv. by intros ->. Qed.

#[local] Hint Resolve Inv_fresh Inv_advance TableInv_put : streak.

Lemma initialize_inv env w :
  TableInv w ->
  wp (dbUtils.initializeStreakSummary env)
     (fun r w' => TableInv w' /\ forall s, r = Ok s -> ss_id s = "main" -> Inv s) w.
Proof.
  intros HT. unfold dbUtils.initializeStreakSummary, streak_get, streak_put.
  wp_step. wp_step.
  - split; [done|]. done.
  - destruct (streakSummary (db w) !! "main") as [s|] eqn:E.
    + wp_step. split; [done|]. intros ? [= <-] _. by apply HT.
    + wp_step. wp_step.
      * done.
      * wp_step. split.
        -- apply (TableInv_put (tick w)); auto with streak.
        -- intros ? [= <-] _. auto with streak.
Qed.

Lemma updateStreak_inv env date w :
  TableInv w -> wp (dbUtils.updateStreak env date) (fun _ w' => TableInv w') w.
Proof.
  intros HT. unfold dbUtils.updateStreak.
  wp_step. eapply wp_mono; [|by apply initialize_inv].
  intros [s|e] w1 [HT1 Hs]; [|done].
  unfold entries_countOn, streak_put.
  wp_step. wp_step; [done|].
  destruct (negb _).
  - wp_step. done.
  - wp_step. wp_step; [done|]. wp_step.
    apply (TableInv_put (mkWorld (db w1) (eventQueue w1) (tail (faults w1)))); [done|].
    rewrite ss_id_advance. intros E. apply Inv_advance. by apply Hs.
Qed.

Lemma validate_inv env w :
  TableInv w -> wp (dbUtils.validateAndRecoverStreakData env) (fun _ w' => TableInv w') w.
Proof.
  intros HT. unfold dbUtils.validateAndRecoverStreakData, streak_get, streak_put.
  assert (Hinit : forall w1, TableInv w1 ->
            wp (newStreak ← dbUtils.initializeStreakSummary env;
                ret (dbUtils.mkValidation false true newStreak)) (fun _ w' => TableInv w') w1).
  { intros w1 H1. wp_step. eapply wp_mono; [|by apply initialize_inv].
    intros [s|e] w2 [H2 _]; [|done]. by wp_step. }
  wp_step. wp_step. wp_step.
  - by apply Hinit.
  - destruct (streakSummary (db w) !! "main") as [s|] eqn:E.
    + destruct (HT s E) as [Hs _].
      replace ((current_streak s <? 0) || (longest_streak s <? 0)
               || (current_streak s >? longest_streak s)) with false.
      * wp_step. done.
      * symmetry. rewrite !orb_false_iff, Z.gtb_ltb, !Z.ltb_ge. lia.
    + eapply wp_mono; [|by apply (Hinit (tick w))].
      intros [v|e] w2 H2; [done|]. by apply Hinit.
Qed.

Lemma reset_inv env w :
  TableInv w -> wp (dbUtils.resetStreakData env) (fun _ w' => TableInv w') w.
Proof.
  intros HT. unfold dbUtils.resetStreakData, streak_get, streak_put, settings_get, settings_put.
  assert (Hput : forall w2, TableInv w2 ->
     wp (access (λ d : Store, ((), mkStore (settings d) (prompts d) (entries d)
            (<[ss_id (dbUtils.freshStreak env):=dbUtils.freshStreak env]> (streakSummary d))));;
         ret true)
        (fun r w' => match r with
                     | Ok _ => TableInv w'
                     | Throw _ => wp (ret false) (fun _ w' => TableInv w') w'
                     end) w2).
  { intros w2 H2. wp_step. wp_step; [by wp_step|]. wp_step.
    apply (TableInv_put w2); auto with streak. }
  wp_step. wp_step. wp_step; [by wp_step|].
  set (w1 := mkWorld _ _ _). assert (H1 : TableInv w1) by done. clearbody w1.
  destruct (streakSummary _ !! "main") as [s|].
  - wp_step. wp_step. wp_step; [by wp_step|].
    destruct (settings _ !! "main") as [st|].
    + wp_step; [by wp_step|]. apply Hput. by eapply TableInv_same; [|exact H1].
    + wp_step. by apply Hput.
  - wp_step. wp_step. by apply Hput.
Qed.

Lemma runOp_inv env op w : TableInv w -> TableInv (runOp env op w).2.
Proof.
  intros HT.
  assert (H : wp (runOp env op) (fun _ w' => TableInv w') w); [|exact H].
  destruct op; cbn [runOp]; wp_step.
  - eapply wp_mono; [|by apply initialize_inv]. intros [s|e] w' [H _]; [by wp_step|done].
  - eapply wp_mono; [|by apply updateStreak_inv]. intros [s|e] w' H; [by wp_step|done].
  - eapply wp_mono; [|by apply validate_inv]. intros [s|e] w' H; [by wp_step|done].
  - eapply wp_mono; [|by apply reset_inv]. intros [s|e] w' H; [by wp_step|done].
Qed.

Lemma reachable_inv w : reachable w -> TableInv w.
Proof.
  induction 1 as [w E|w env op _ IH|w w' _ IH E].
  - intros s. by rewrite E.
  - by apply runOp_inv.
  - by apply (TableInv_same w).
Qed.

(** C3. In every world the application can reach through
    [initializeStreakSummary], [updateStreak],
    [validateAndRecoverStreakData] and [resetStreakData], run in any
    order, on any clock and under any storage failures, the stored summary
    row satisfies [0 <= current_streak <= longest_streak]. *)
Theorem streak_invariant_preserved w s :
  reachable w -> streakSummary (db w) !! "main" = Some s ->
  0 <= current_streak s <= longest_streak s.
Proof. intros Hr Hs. by destruct (reachable_inv w Hr s Hs). Qed.

(** The bare inequality is not inductive by itself: from a row with a last
    entry date and [longest_streak = 0], which no operation writes, an
    entry counted after a gap gives [current_streak = 1] over
    [longest_streak = 0]. The second part of [Inv] rules such rows out. *)
Lemma bare_inequality_not_inductive :
  let s := mkStreak "main" "2023-12-01T12:00:00.000Z" 0 0 (Some "2023-12-01") in
  let s' := dbUtils.advance (noon 0) "2023-12-31" "2024-01-01" s in
  0 <= current_streak s <= longest_streak s
  /\ current_streak s' = 1 /\ longest_streak s' = 0.
Proof. vm_compute. split_and!; [discriminate.. | reflexivity | reflexivity]. Qed.

Lemma streak_invariant_preserved_witness :
  0 <= current_streak (mkStreak "main" "2024-01-01T12:00:00.000Z" 1 1 (Some "2024-01-01"))
    <= longest_streak (mkStreak "main" "2024-01-01T12:00:00.000Z" 1 1 (Some "2024-01-01")).
Proof.
  apply (streak_invariant_preserved
           (runOp (noon 0) (opUpdate "2024-01-01")
              (mkWorld (mkStore ∅ [] {[ e_id (journalEntry 0) := journalEntry 0 ]} ∅) [] [])).2).
  - apply reach_op, reach_empty. reflexivity.
  - vm_compute. reflexivity.
Defined.

(** ** Saving entries on a working store *)

Lemma countOn_insert_fresh date (es : gmap string Entry) e :
  es !! e_id e = None ->
  countOn date (<[e_id e := e]> es)
  = countOn date es + (if decide (dateLocal e = date) then 1 else 0).
Proof.
  intros Hf. unfold countOn. rewrite map_filter_insert. cbn [snd].
  case_decide as E.
  - rewrite map_size_insert_None; [lia|]. apply map_lookup_filter_None. by left.
  - rewrite delete_id by done. lia.
Qed.

(** [saveNewEntry] on a store that works, with a summary row and a free id. *)
Lemma saveNewEntry_run env e d q s :
  streakSummary d !! "main" = Some s ->
  entries d !! e_id e = None ->
  PromptEntry.saveNewEntry env e (mkWorld d q [])
  = if countOn (dateLocal e) (<[e_id e := e]> (entries d)) =? 1
    then
      let s' := dbUtils.advance env (JS.dayString (JS.localDay (tzOffset env) (now env) - 1))
                                (dateLocal e) s in
      (Ok (dbUtils.mkUpdate true true s'),
       mkWorld (mkStore (settings d) (prompts d) (<[e_id e := e]> (entries d))
                        (<[ss_id s' := s']> (streakSummary d))) q [])
    else
      (Ok (dbUtils.mkUpdate false false s),
       mkWorld (mkStore (settings d) (prompts d) (<[e_id e := e]> (entries d)) (streakSummary d)) q []).
Proof.
  intros Hs He.
  cbv [PromptEntry.saveNewEntry dbUtils.updateStreak dbUtils.initializeStreakSummary
       entries_add entries_countOn streak_get streak_put
       mbind M_bind bind ret throw access db eventQueue faults
       settings prompts entries streakSummary fst snd] in *.
  rewrite He, Hs.
  destruct (countOn _ _ =? 1); reflexivity.
Qed.

Lemma advance_first env y date s :
  last_entry_date s = None ->
  dbUtils.advance env y date s
  = mkStreak (ss_id s) (JS.toISOString (now env)) 1 1 (Some date).
Proof. intros E. unfold dbUtils.advance. rewrite E. reflexivity. Qed.

Lemma advance_consecutive env today s :
  last_entry_date s = Some (JS.dayString (today - 1)) ->
  dbUtils.advance env (JS.dayString (today - 1)) (JS.dayString today) s
  = mkStreak (ss_id s) (start_date s) (current_streak s + 1)
             (Z.max (longest_streak s) (current_streak s + 1)) (Some (JS.dayString today)).
Proof.
  intros E. unfold dbUtils.advance. rewrite E, dayString_truthy. cbn [negb].
  rewrite str_eq_dayString, bool_decide_eq_true_2 by done. reflexivity.
Qed.

Lemma advance_gap env today d s :
  last_entry_date s = Some (JS.dayString d) -> d + 2 <= today ->
  dbUtils.advance env (JS.dayString (today - 1)) (JS.dayString today) s
  = mkStreak (ss_id s) (JS.toISOString (now env)) 1 (longest_streak s)
             (Some (JS.dayString today)).
Proof.
  intros E Hd. unfold dbUtils.advance. rewrite E, dayString_truthy. cbn [negb].
  rewrite !str_eq_dayString, !bool_decide_eq_false_2 by lia. reflexivity.
Qed.

(** The first save of a day counts: the summary row advances. *)
Lemma saveNewEntry_first env e w s :
  faults w = [] ->
  streakSummary (db w) !! "main" = Some s -> ss_id s = "main" ->
  firstSaveOfDay env e w ->
  let today := JS.localDay (tzOffset env) (now env) in
  let s' := dbUtils.advance env (JS.dayString (today - 1)) (JS.dayString today) s in
  (PromptEntry.saveNewEntry env e w).1 = Ok (dbUtils.mkUpdate true true s')
  /\ faults (PromptEntry.saveNewEntry env e w).2 = []
  /\ streakSummary (db (PromptEntry.saveNewEntry env e w).2) !! "main" = Some s'
  /\ ss_id s' = "main".
Proof.
  intros Hf Hs Hid [Hdate Hfresh Hcount] today s'.
  destruct w as [d q fs]. cbn [faults db] in *. subst fs.
  rewrite (saveNewEntry_run env e d q s Hs Hfresh).
  rewrite countOn_insert_fresh, Hcount, decide_True by done.
  change (0 + 1 =? 1) with true. cbv iota. rewrite Hdate. fold today. fold s'.
  assert (Hid' : ss_id s' = "main") by (unfold s'; by rewrite ss_id_advance).
  cbn [fst snd faults db streakSummary]. rewrite Hid', lookup_insert_eq. done.
Qed.

Section ConsecutiveDays.

Variable w0 : World.
Hypothesis store_works : faults w0 = [].
Hypothesis summary_fresh : freshlyInitialized w0.

Lemma dailyRun_inv n d w : dailyRun w0 n d w -> runInv n d w.
Proof.
  destruct summary_fresh as [env0 H0].
  induction 1 as [env e Hfs|n d w env e _ IH Hday Hfs|n d w w' _ IH Hsame Hf'].
  - destruct (saveNewEntry_first env e w0 _ store_works H0 eq_refl Hfs) as (_ & Hf1 & Hs1 & Hid1).
    split; [done|]. eexists. split; [exact Hs1|]. split; [done|].
    rewrite advance_first by done. done.
  - destruct IH as (Hfw & s & Hs & Hid & Hc & Hl & Hlast).
    destruct (saveNewEntry_first env e w s Hfw Hs Hid Hfs) as (_ & Hf1 & Hs1 & Hid1).
    split; [done|]. eexists. split; [exact Hs1|]. split; [done|].
    rewrite Hday. replace (d + 1 - 1) with d by lia.
    assert (E : last_entry_date s = Some (JS.dayString (d + 1 - 1)))
      by (by replace (d + 1 - 1) with d by lia).
    replace (JS.dayString d) with (JS.dayString (d + 1 - 1)) at 1 2 3 by (f_equal; lia).
    rewrite (advance_consecutive env (d + 1) s E).
    cbn [current_streak longest_streak last_entry_date]. rewrite Hc, Hl.
    split_and!; [lia | lia | done].
  - destruct IH as (_ & s & Hs & Hrest). split; [done|].
    exists s. by rewrite Hsame.
Qed.

(** C1. From the freshly initialized summary, on a store that works: after
    the first entry of the day was saved (and [updateStreak] called) on
    [n] consecutive calendar days, [current_streak = n] and
    [longest_streak = n]; and when the next first-of-day save comes at
    least two calendar days after the last one, [current_streak] becomes
    [1] while [longest_streak] stays [n]. *)
Theorem streak_counts_consecutive_days n d w :
  dailyRun w0 n d w ->
  (exists s, streakSummary (db w) !! "main" = Some s
             /\ current_streak s = Z.of_nat n /\ longest_streak s = Z.of_nat n)
  /\ (forall env e,
        d + 2 <= JS.localDay (tzOffset env) (now env) ->
        firstSaveOfDay env e w ->
        exists s', streakSummary (db (PromptEntry.saveNewEntry env e w).2) !! "main" = Some s'
                   /\ current_streak s' = 1 /\ longest_streak s' = Z.of_nat n).
Proof.
  intros Hrun.
  destruct (dailyRun_inv n d w Hrun) as (Hfw & s & Hs & Hid & Hc & Hl & Hlast).
  split; [by exists s|].
  intros env e Hgap Hfs.
  destruct (saveNewEntry_first env e w s Hfw Hs Hid Hfs) as (_ & _ & Hs1 & _).
  eexists. split; [exact Hs1|].
  rewrite (advance_gap env _ d s Hlast Hgap). done.
Qed.

End ConsecutiveDays.

Lemma firstSaveOfDay_journal day w :
  entries (db w) !! e_id (journalEntry day) = None ->
  countOn (dateLocal (journalEntry day)) (entries (db w)) = 0 ->
  firstSaveOfDay (noon day) (journalEntry day) w.
Proof. intros H1 H2. by split. Qed.

Lemma threeDays_run : dailyRun freshInstall 3 19725 threeDays.
Proof.
  apply (run_next freshInstall 2 19724 (savedOn 1 (savedOn 0 freshInstall)) (noon 2) (journalEntry 2)).
  - apply (run_next freshInstall 1 19723 (savedOn 0 freshInstall) (noon 1) (journalEntry 1)).
    + apply (run_first freshInstall (noon 0) (journalEntry 0)).
      apply firstSaveOfDay_journal; vm_compute; reflexivity.
    + vm_compute. reflexivity.
    + apply firstSaveOfDay_journal; vm_compute; reflexivity.
  - vm_compute. reflexivity.
  - apply firstSaveOfDay_journal; vm_compute; reflexivity.
Defined.

Lemma streak_counts_consecutive_days_witness :
  (exists s, streakSummary (db threeDays) !! "main" = Some s
             /\ current_streak s = 3 /\ longest_streak s = 3)
  /\ (exists s', streakSummary (db (savedOn 4 threeDays)) !! "main" = Some s'
                 /\ current_streak s' = 1 /\ longest_streak s' = 3).
Proof.
  destruct (streak_counts_consecutive_days freshInstall eq_refl
              (ex_intro _ (noon 0) eq_refl) 3 19725 threeDays threeDays_run) as [H1 H2].
  split; [exact H1|].
  apply (H2 (noon 4) (journalEntry 4)).
  - vm_compute. discriminate.
  - apply firstSaveOfDay_journal; vm_compute; reflexivity.
Defined.

(** ** A second save on the same day *)

(** The property fails when the save is an edit: on the store that holds
    the one entry of day 0, already counted, re-saving that entry with
    [put] leaves one entry for the date, so [updateStreak] reports
    [isFirstToday = true]. *)
Lemma edit_of_only_entry_reports_first_today :
  ~ sameDaySaveLeavesStreak PromptEntry.saveEditedEntry (noon 0) editedEntry (savedOn 0 freshInstall).
Proof.
  intros H. destruct H as [H _].
  - vm_compute. discriminate.
  - eexists. vm_compute. reflexivity.
  - specialize (H (dbUtils.mkUpdate true true
                     (mkStreak "main" "2024-01-01T12:00:00.000Z" 1 1 (Some "2024-01-01")))).
    assert (E : (PromptEntry.saveEditedEntry (noon 0) editedEntry (savedOn 0 freshInstall)).1
                = Ok (dbUtils.mkUpdate true true
                       (mkStreak "main" "2024-01-01T12:00:00.000Z" 1 1 (Some "2024-01-01"))))
      by (vm_compute; reflexivity).
    specialize (H E). discriminate H.
Qed.

(** The path that creates an entry has the property: when an entry for the
    date already existed and the save adds a new entry row for it,
    [updateStreak] leaves the summary table as it was and returns
    [isFirstToday = false] (and [updated = false], with the stored row); on
    a store that works it does return. *)
Theorem second_new_entry_leaves_streak env e w s :
  1 <= countOn (dateLocal e) (entries (db w)) ->
  streakSummary (db w) !! "main" = Some s ->
  entries (db w) !! e_id e = None ->
  streakSummary (db (PromptEntry.saveNewEntry env e w).2) = streakSummary (db w)
  /\ (forall u, (PromptEntry.saveNewEntry env e w).1 = Ok u ->
        dbUtils.isFirstToday u = false /\ dbUtils.updated u = false /\ dbUtils.streakData u = s)
  /\ (faults w = [] ->
        (PromptEntry.saveNewEntry env e w).1 = Ok (dbUtils.mkUpdate false false s)).
Proof.
  intros Hc Hs Hfresh.
  assert (Hcount : (countOn (dateLocal e) (<[e_id e:=e]> (entries (db w))) =? 1) = false).
  { rewrite countOn_insert_fresh, decide_True by done. apply Z.eqb_neq. lia. }
  split_and!.
  - assert (H : wp (PromptEntry.saveNewEntry env e)
                   (fun _ w' => streakSummary (db w') = streakSummary (db w)) w); [|exact H].
    unfold PromptEntry.saveNewEntry, entries_add, dbUtils.updateStreak,
      dbUtils.initializeStreakSummary, streak_get, entries_countOn.
    wp_step. wp_step. wp_step; [done|].
    rewrite Hfresh. cbn [fst snd]. wp_step.
    wp_step. wp_step. wp_step; [done|]. cbn [streakSummary]. rewrite Hs.
    wp_step. wp_step. wp_step; [done|]. cbn [entries].
    rewrite Hcount. cbn [negb]. by wp_step.
  - assert (H : wp (PromptEntry.saveNewEntry env e)
                   (fun r _ => forall u, r = Ok u -> dbUtils.isFirstToday u = false
                       /\ dbUtils.updated u = false /\ dbUtils.streakData u = s) w); [|exact H].
    unfold PromptEntry.saveNewEntry, entries_add, dbUtils.updateStreak,
      dbUtils.initializeStreakSummary, streak_get, entries_countOn.
    wp_step. wp_step. wp_step; [done|].
    rewrite Hfresh. cbn [fst snd]. wp_step.
    wp_step. wp_step. wp_step; [done|]. cbn [streakSummary]. rewrite Hs.
    wp_step. wp_step. wp_step; [done|]. cbn [entries].
    rewrite Hcount. cbn [negb]. wp_step. by intros ? [= <-].
  - intros Hf. destruct w as [d q fs]. cbn [faults db] in *. subst fs.
    rewrite (saveNewEntry_run env e d q s Hs Hfresh), Hcount. done.
Qed.

Lemma second_new_entry_leaves_streak_witness :
  streakSummary (db (PromptEntry.saveNewEntry (noon 0) secondEntry (savedOn 0 freshInstall)).2)
  = streakSummary (db (savedOn 0 freshInstall))
  /\ (forall u, (PromptEntry.saveNewEntry (noon 0) secondEntry (savedOn 0 freshInstall)).1 = Ok u ->
        dbUtils.isFirstToday u = false /\ dbUtils.updated u = false
        /\ dbUtils.streakData u
           = mkStreak "main" "2024-01-01T12:00:00.000Z" 1 1 (Some "2024-01-01"))
  /\ (faults (savedOn 0 freshInstall) = [] ->
        (PromptEntry.saveNewEntry (noon 0) secondEntry (savedOn 0 freshInstall)).1
        = Ok (dbUtils.mkUpdate false false
                (mkStreak "main" "2024-01-01T12:00:00.000Z" 1 1 (Some "2024-01-01")))).
Proof.
  apply (second_new_entry_leaves_streak (noon 0) secondEntry (savedOn 0 freshInstall)).
  - vm_compute. discriminate.
  - vm_compute. reflexivity.
  - vm_compute. reflexivity.
Defined.

(** C2. [handleSave] calls [updateStreak] after an edit as well, and
    [updateStreak] takes the day's only entry for a new one. On a device in
    UTC, at noon of day 0, with the one entry of the day stored and
    counted, saving an edit of it returns [isFirstToday = true] and
    [updated = true] and writes the summary row again. In New York, half
    an hour after midnight, where [getTodayLocal] gives the date of the day
    before, the entry [handleSave] creates starts the streak at 1, and each
    of the two edits saved in the next two minutes raises it: to 2 and
    to 3. *)
Theorem edit_counts_as_first_entry_of_the_day :
  countOn "2024-01-01" (entries (db (savedOn 0 freshInstall))) = 1
  /\ (PromptEntry.handleSave (noon 0) (Some (journalEntry 0)) "seed-1" editedForm
        (savedOn 0 freshInstall)).1
     = Ok (dbUtils.mkUpdate true true
             (mkStreak "main" "2024-01-01T12:00:00.000Z" 1 1 (Some "2024-01-01")))
  /\ dbUtils.getTodayLocal (newYorkNight 0) = "2024-01-01"
  /\ dbUtils.getTodayLocal_catch (newYorkNight 0) = "2024-01-02"
  /\ streakSummary (db nightCreated) !! "main"
     = Some (mkStreak "main" "2024-01-02T05:30:00.000Z" 1 1 (Some "2024-01-01"))
  /\ countOn "2024-01-01" (entries (db nightCreated)) = 1
  /\ (PromptEntry.handleSave (newYorkNight 1) (Some nightEntry) "seed-1" editedForm
        nightCreated).1
     = Ok (dbUtils.mkUpdate true true
             (mkStreak "main" "2024-01-02T05:30:00.000Z" 2 2 (Some "2024-01-01")))
  /\ countOn "2024-01-01" (entries (db nightEdited)) = 1
  /\ (PromptEntry.handleSave (newYorkNight 2)
        (Some (PromptEntry.updatedEntry (newYorkNight 1) nightEntry editedForm)) "seed-1"
        sampleForm nightEdited).1
     = Ok (dbUtils.mkUpdate true true
             (mkStreak "main" "2024-01-02T05:30:00.000Z" 3 3 (Some "2024-01-01"))).
Proof. vm_compute. repeat split. Qed.

(* ===================================================================== *)
(** * The device's date                                                   *)
(* ===================================================================== *)

Lemma getTodayLocal_unfold env :
  dbUtils.getTodayLocal env
  = JS.dayString (JS.localDay (tzOffset env) (now env - tzOffset env * 60000)).
Proof. reflexivity. Qed.

(** [getTodayLocal] gives the local date exactly when taking the offset
    off the clock a second time does not cross a day boundary. *)
Lemma getTodayLocal_right_iff env :
  dbUtils.getTodayLocal env = JS.dayString (JS.localDay (tzOffset env) (now env))
  <-> (now env - 2 * (tzOffset env * 60000)) / JS.msPerDay
      = (now env - tzOffset env * 60000) / JS.msPerDay.
Proof.
  unfold dbUtils.getTodayLocal, JS.localDay.
  replace (now env - tzOffset env * 60000 - tzOffset env * 60000)
    with (now env - 2 * (tzOffset env * 60000)) by lia.
  split; [apply dayString_inj | by intros ->].
Qed.

Lemma getTodayLocal_in_UTC env :
  tzOffset env = 0 ->
  dbUtils.getTodayLocal env = JS.dayString (JS.localDay (tzOffset env) (now env)).
Proof. intros E. apply getTodayLocal_right_iff. rewrite E. reflexivity. Qed.

(** Off UTC the date is wrong at some time of every day: just after local
    midnight west of Greenwich, just before it east of Greenwich. *)
Lemma getTodayLocal_wrong_somewhere offset :
  offset <> 0 ->
  exists t, forall e r,
    dbUtils.getTodayLocal (mkEnv t offset e r) <> JS.dayString (JS.localDay offset t).
Proof.
  intros Hoff.
  exists (if 0 <? offset then offset * 60000 else offset * 60000 + JS.msPerDay - 1).
  intros e r H.
  apply (getTodayLocal_right_iff (mkEnv _ offset e r)) in H. cbn [now tzOffset] in H.
  change JS.msPerDay with 86400000 in H.
  destruct (0 <? offset) eqn:E; [apply Z.ltb_lt in E | apply Z.ltb_ge in E];
    revert H; Z.div_mod_to_equations; lia.
Qed.

(** The entry [handleSave] creates carries the date of [getTodayLocal]. *)
Lemma handleSave_new env promptId formData :
  PromptEntry.handleSave env None promptId formData
  = PromptEntry.saveNewEntry env (PromptEntry.newEntry env promptId formData).
Proof. reflexivity. Qed.

Lemma handleSave_edit env todayEntry promptId formData :
  dateLocal todayEntry = dbUtils.getTodayLocal env ->
  PromptEntry.handleSave env (Some todayEntry) promptId formData
  = PromptEntry.saveEditedEntry env (PromptEntry.updatedEntry env todayEntry formData).
Proof.
  intros E. unfold PromptEntry.handleSave, PromptEntry.saveEditedEntry.
  cbn [dateLocal PromptEntry.updatedEntry]. by rewrite E.
Qed.

(** What the shifted date does to the streak: entries saved at 21:00 in
    Tokyo on three consecutive days are dated the day after, and the
    streak stays at one day. *)
Lemma evening_saves_in_Tokyo_do_not_extend_streak :
  (fun s => (current_streak s, longest_streak s, last_entry_date s))
    <$> streakSummary (db (tokyoEvenings [0; 1; 2] freshInstall)) !! "main"
  = Some (1, 1, Some "2024-01-04").
Proof. vm_compute. reflexivity. Qed.

(** C4. At 2024-01-01T12:00:00Z on a device in Tokyo (21:00 local time, the
    offset is -540 minutes) the local calendar date is 2024-01-01, which is
    what the [catch] branch and [getTodayString] compute, but
    [getTodayLocal] returns 2024-01-02: it applies the offset twice. *)
Theorem getTodayLocal_applies_offset_twice :
  JS.toISOString (now tokyoEvening) = "2024-01-01T12:00:00.000Z"
  /\ JS.dayString (JS.localDay (tzOffset tokyoEvening) (now tokyoEvening)) = "2024-01-01"
  /\ dbUtils.getTodayLocal_catch tokyoEvening = "2024-01-01"
  /\ promptUtils.getTodayString tokyoEvening = "2024-01-01"
  /\ dbUtils.getTodayLocal tokyoEvening = "2024-01-02".
Proof. vm_compute. done. Qed.

(* ===================================================================== *)
(** * The prompt scheduler                                                *)
(* ===================================================================== *)

(** C6. When the settings row says the swap was already used today,
    [swapTodayPrompt] returns a failure and leaves all four tables as they
    were, whatever the store does. *)
Theorem second_swap_same_day_rejected env installDate w s :
  settings (db w) !! "main" = Some s ->
  swapUsedDate s = Some (promptUtils.getTodayString env) ->
  (exists message,
     (promptUtils.swapTodayPrompt env installDate w).1
     = Ok (promptUtils.mkSwap false None (Some message)))
  /\ db (promptUtils.swapTodayPrompt env installDate w).2 = db w.
Proof.
  intros Hs Hused.
  assert (H : wp (promptUtils.swapTodayPrompt env installDate)
                 (fun r w' => (exists message, r = Ok (promptUtils.mkSwap false None (Some message)))
                              /\ db w' = db w) w); [|exact H].
  unfold promptUtils.swapTodayPrompt, settings_get.
  wp_step. wp_step. wp_step.
  - wp_step. eauto.
  - rewrite Hs. unfold promptUtils.canSwapToday. rewrite Hused.
    unfold promptUtils.getTodayString.
    replace (JS.str_eq _ _) with true by (symmetry; by apply str_eq_true).
    cbn [negb]. wp_step. eauto.
Qed.

Lemma second_swap_same_day_rejected_witness :
  (exists message,
     (promptUtils.swapTodayPrompt (noon 0) (installAt installedSettings) swappedToday).1
     = Ok (promptUtils.mkSwap false None (Some message)))
  /\ db (promptUtils.swapTodayPrompt (noon 0) (installAt installedSettings) swappedToday).2
     = db swappedToday.
Proof.
  apply (second_swap_same_day_rejected (noon 0) (installAt installedSettings) swappedToday
           (promptUtils.with_swap "2024-01-01" "seed-1" installedSettings)).
  - vm_compute. reflexivity.
  - vm_compute. reflexivity.
Defined.

(** ** The current prompt *)

Lemma pseudoRandom_nonneg d : 0 <= d -> 0 <= promptUtils.pseudoRandom d.
Proof. intros Hd. unfold promptUtils.pseudoRandom. apply Z.rem_nonneg; lia. Qed.

(** For an install date that is not in the future, [getTodayPrompt] either
    throws (no active seed prompt) or returns a prompt. *)
Lemma getTodayPrompt_defined env installDate ps d :
  promptUtils.daysSinceInstall env installDate = Some d -> 0 <= d ->
  (exists message, promptUtils.getTodayPrompt env installDate ps = Throw message)
  \/ (exists p, promptUtils.getTodayPrompt env installDate ps = Ok (Some p)).
Proof.
  intros Hd Hpos. unfold promptUtils.getTodayPrompt. rewrite Hd. cbn [fmap option_fmap option_map].
  set (seedPrompts := List.filter promptUtils.isActiveSeed ps).
  destruct (Nat.eqb (length seedPrompts) 0) eqn:E; [left; eauto|right].
  apply Nat.eqb_neq in E.
  pose proof (pseudoRandom_nonneg d Hpos) as Hr.
  assert (Hi : 0 <= Z.rem (promptUtils.pseudoRandom d) (Z.of_nat (length seedPrompts))
               < Z.of_nat (length seedPrompts)) by (apply Z.rem_bound_pos; lia).
  unfold promptUtils.at_index.
  replace (_ <? 0) with false by (symmetry; apply Z.ltb_ge; lia).
  destruct (lookup_lt_is_Some_2 seedPrompts
              (Z.to_nat (Z.rem (promptUtils.pseudoRandom d) (Z.of_nat (length seedPrompts)))))
    as [p Hp]; [lia|].
  exists p. by rewrite Hp.
Qed.

(** With an install date that is not in the future, [getCurrentPrompt]
    returns a prompt whatever the store holds or does. *)
Lemma getCurrentPrompt_total env installDate w d :
  promptUtils.daysSinceInstall env installDate = Some d -> 0 <= d ->
  exists p, (promptUtils.getCurrentPrompt env installDate w).1 = Ok (Some p).
Proof.
  intros Hd Hpos.
  assert (H : wp (promptUtils.getCurrentPrompt env installDate)
                 (fun r _ => exists p, r = Ok (Some p)) w); [|exact H].
  unfold promptUtils.getCurrentPrompt, settings_get, prompts_toArray.
  assert (Htoday : forall w1,
    wp (access (λ d0 : Store, (prompts d0, d0))
        ≫= λ allPrompts, lift (promptUtils.getTodayPrompt env installDate allPrompts))
       (fun r w' => match r with
                    | Ok a => exists p, Ok a = Ok (Some p)
                    | Throw _ => wp (ret (Some (promptUtils.getFallbackPrompt env installDate)))
                                    (fun r _ => exists p, r = Ok (Some p)) w'
                    end) w1).
  { intros w1. wp_step. wp_step; [wp_step; eauto|]. wp_step.
    destruct (getTodayPrompt_defined env installDate (prompts (db w1)) d Hd Hpos)
      as [[m ->] | [p ->]]; [wp_step|]; eauto. }
  wp_step. wp_step. wp_step; [wp_step; eauto|].
  destruct (_ && _).
  - wp_step. wp_step. wp_step; [wp_step; eauto|]. wp_step.
    destruct (List.find _ _) as [p|]; [wp_step; eauto|]. apply Htoday.
  - wp_step. wp_step. apply Htoday.
Qed.

(** [getCurrentPrompt] never throws. *)
Lemma getCurrentPrompt_never_throws env installDate w :
  exists r, (promptUtils.getCurrentPrompt env installDate w).1 = Ok r.
Proof.
  unfold promptUtils.getCurrentPrompt, try_catch.
  match goal with |- context [match ?m w with _ => _ end] => destruct (m w) as [[a|e] w'] end;
    cbn [fst]; eauto.
Qed.

(** C7. With the seed catalog stored and readable, and an install date two
    years after the device clock (731 days ahead), [getCurrentPrompt]
    returns [undefined]: the truncating [%] gives a negative index, and
    [seedPrompts[index]] is [undefined] without an exception, so the
    fallback is not reached. *)
Theorem getCurrentPrompt_undefined_for_future_install :
  promptUtils.daysSinceInstall (noon 0) "2026-01-01T00:00:00.000Z" = Some (-731)
  /\ length (prompts (db (installed installedSettings))) = 10%nat
  /\ (promptUtils.getCurrentPrompt (noon 0) "2026-01-01T00:00:00.000Z"
        (installed installedSettings)).1 = Ok None.
Proof. vm_compute. done. Qed.

(** ** Resetting the streak *)

(** On a store that works, [resetStreakData] writes the fresh summary row
    and changes the settings row in [lastPromptId] alone. *)
Lemma resetStreakData_effect env w st s :
  faults w = [] ->
  settings (db w) !! "main" = Some st -> s_id st = "main" ->
  streakSummary (db w) !! "main" = Some s ->
  dbUtils.resetStreakData env w
  = (Ok true,
     mkWorld (mkStore (<["main" := dbUtils.with_lastPromptId (dbUtils.backupString env s) st]>
                         (settings (db w)))
                      (prompts (db w)) (entries (db w))
                      (<["main" := dbUtils.freshStreak env]> (streakSummary (db w))))
             (eventQueue w) []).
Proof.
  intros Hf Hst Hid Hs. destruct w as [d q fs]. cbn [faults db eventQueue] in *. subst fs.
  cbv [dbUtils.resetStreakData try_catch streak_get settings_get settings_put streak_put
       mbind M_bind bind ret access db eventQueue faults
       settings prompts entries streakSummary fst snd] in *.
  rewrite Hs, Hst. cbn [s_id dbUtils.with_lastPromptId]. rewrite Hid. reflexivity.
Qed.

(** C10. The backup goes into [lastPromptId], which the prompt scheduler
    reads: on the day the user swapped to prompt seed-1, [getCurrentPrompt]
    returns seed-1 before [resetStreakData] and the default seed-3 after
    it. *)
Theorem resetStreakData_overwrites_swap_bookkeeping :
  (lastPromptId <$> settings (db swappedToday) !! "main") = Some (Some "seed-1")
  /\ returnedPromptId (promptUtils.getCurrentPrompt (noon 0) (installAt installedSettings) swappedToday).1
     = Some "seed-1"
  /\ (dbUtils.resetStreakData (noon 0) swappedToday).1 = Ok true
  /\ returnedPromptId (promptUtils.getCurrentPrompt (noon 0) (installAt installedSettings)
                         (dbUtils.resetStreakData (noon 0) swappedToday).2).1
     = Some "seed-3".
Proof. vm_compute. done. Qed.

(* ===================================================================== *)
(** * The telemetry outbox                                                *)
(* ===================================================================== *)

(** C5. Seven consecutive daily completions enqueue one [d7_completion] and
    an eighth day adds none; but the eighth day clears the sent flag, so
    after a gap (day 8 is skipped) a second run of seven days enqueues a
    second [d7_completion]. *)
Theorem d7_completion_fires_again_after_gap :
  countD7 (completeDays [0; 1; 2; 3; 4; 5; 6] (installed optedInSettings)) = 1%nat
  /\ countD7 (completeDays [0; 1; 2; 3; 4; 5; 6; 7] (installed optedInSettings)) = 1%nat
  /\ (telemetryD7EventSent <$>
        settings (db (completeDays [0; 1; 2; 3; 4; 5; 6; 7] (installed optedInSettings))) !! "main")
     = Some (Some false)
  /\ countD7 (completeDays [0; 1; 2; 3; 4; 5; 6; 7; 9; 10; 11; 12; 13; 14; 15]
                           (installed optedInSettings)) = 2%nat.
Proof. vm_compute. done. Qed.

(* ===================================================================== *)
(** * PIN hashing                                                         *)
(* ===================================================================== *)

Lemma char64_spec n : 0 <= n < 64 ->
  Base64.index64 (Base64.char64 n) = Some n
  /\ Ascii.eqb (Base64.char64 n) Base64.pad = false.
Proof.
  intros Hn.
  assert (H : char64Check n = true).
  { apply (allFrom_spec char64Check 64 0); [vm_compute; reflexivity | lia]. }
  unfold char64Check in H. apply andb_true_iff in H as [H1 H2].
  split; [by apply bool_decide_eq_true in H1 | by apply negb_true_iff].
Qed.

Lemma code_range b : 0 <= Base64.code b < 256.
Proof.
  unfold Base64.code. pose proof (Byte.to_N_bounded b). lia.
Qed.

Lemma byteOf_code b : Base64.byteOf (Base64.code b) = b.
Proof.
  unfold Base64.byteOf, Base64.code. rewrite N2Z.id, Byte.of_to_N. reflexivity.
Qed.

(** Induction on a list three elements at a time. *)
Lemma list_ind3 {A} (P : list A -> Prop) :
  P [] -> (forall a, P [a]) -> (forall a b, P [a; b]) ->
  (forall a b c r, P r -> P (a :: b :: c :: r)) ->
  forall l, P l.
Proof.
  intros H0 H1 H2 H3.
  assert (H : forall l, P l /\ (forall a, P (a :: l)) /\ (forall a b, P (a :: b :: l))).
  { induction l as [|x l (IH0 & IH1 & IH2)]; [by auto|].
    split_and!; [apply IH1 | intros; apply IH2 | intros; by apply H3]. }
  intros l. apply H.
Qed.

Ltac sextet := Z.div_mod_to_equations; lia.

(** [atob(btoa(bytes))] gives the bytes back. *)
Lemma decode_encode l : Base64.decode (Base64.encode l) = Some l.
Proof.
  induction l as [|a|a b|a b c r IH] using list_ind3.
  - reflexivity.
  - pose proof (code_range a) as Ha.
    cbn [Base64.encode Base64.decode].
    destruct (char64_spec (Base64.code a / 4)) as [-> _]; [sextet|].
    destruct (char64_spec (Base64.code a mod 4 * 16)) as [-> _]; [sextet|].
    cbn [Ascii.eqb Base64.pad Bool.eqb]. cbv iota.
    replace (_ * 4 + _ / 16) with (Base64.code a) by sextet.
    by rewrite byteOf_code.
  - pose proof (code_range a) as Ha. pose proof (code_range b) as Hb.
    cbn [Base64.encode Base64.decode].
    destruct (char64_spec (Base64.code a / 4)) as [-> _]; [sextet|].
    destruct (char64_spec (Base64.code a mod 4 * 16 + Base64.code b / 16)) as [-> _]; [sextet|].
    destruct (char64_spec (Base64.code b mod 16 * 4)) as [-> ->]; [sextet|].
    cbn [Ascii.eqb Base64.pad Bool.eqb]. cbv iota.
    replace (_ * 4 + _ / 16) with (Base64.code a) by sextet.
    replace (_ mod 16 * 16 + _ / 4) with (Base64.code b) by sextet.
    by rewrite !byteOf_code.
  - pose proof (code_range a) as Ha. pose proof (code_range b) as Hb.
    pose proof (code_range c) as Hc.
    cbn [Base64.encode Base64.decode].
    destruct (char64_spec (Base64.code a / 4)) as [-> _]; [sextet|].
    destruct (char64_spec (Base64.code a mod 4 * 16 + Base64.code b / 16)) as [-> _]; [sextet|].
    destruct (char64_spec (Base64.code b mod 16 * 4 + Base64.code c / 64)) as [-> ->]; [sextet|].
    destruct (char64_spec (Base64.code c mod 64)) as [-> ->]; [sextet|].
    rewrite IH.
    replace (_ * 4 + _ / 16) with (Base64.code a) by sextet.
    replace (_ mod 16 * 16 + _ / 4) with (Base64.code b) by sextet.
    replace (_ mod 4 * 64 + _) with (Base64.code c) by sextet.
    by rewrite !byteOf_code.
Qed.

Lemma encode_inj l1 l2 : Base64.encode l1 = Base64.encode l2 -> l1 = l2.
Proof.
  intros E. pose proof (decode_encode l1) as H1. rewrite E, decode_encode in H1. congruence.
Qed.

Lemma nat_of_ascii_inj x y : nat_of_ascii x = nat_of_ascii y -> x = y.
Proof. intros E. rewrite <- (ascii_nat_embedding x), <- (ascii_nat_embedding y). by rewrite E. Qed.

(** The accumulator of [constantTimeEquals] ends at zero exactly when it
    started at zero and the strings agree. *)
Lemma xorAccumulate_zero a : forall b acc,
  0 <= acc -> String.length a = String.length b ->
  cryptoUtils.xorAccumulate acc a b = 0 <-> acc = 0 /\ a = b.
Proof.
  induction a as [|x a IH]; intros [|y b] acc Hacc L; cbn in L; try discriminate.
  - cbn. tauto.
  - cbn [cryptoUtils.xorAccumulate].
    set (cx := Z.of_nat (nat_of_ascii x)). set (cy := Z.of_nat (nat_of_ascii y)).
    assert (Hx : 0 <= Z.lxor cx cy) by (apply Z.lxor_nonneg; unfold cx, cy; lia).
    rewrite IH; [|apply Z.lor_nonneg; lia|lia].
    rewrite Z.lor_eq_0_iff, Z.lxor_eq_0_iff. unfold cx, cy. split.
    + intros [[Hacc0 E] Hab]. apply Nat2Z.inj, nat_of_ascii_inj in E. by subst.
    + intros [Hacc0 Hab]. injection Hab as Hxy Hab. by subst.
Qed.

Lemma constantTimeEquals_spec a b : cryptoUtils.constantTimeEquals a b = true <-> a = b.
Proof.
  unfold cryptoUtils.constantTimeEquals.
  destruct (Nat.eqb (String.length a) (String.length b)) eqn:L; cbn [negb].
  - apply Nat.eqb_eq in L. rewrite Z.eqb_eq, xorAccumulate_zero; [|lia|done]. tauto.
  - apply Nat.eqb_neq in L. split; [done|]. intros E. by subst.
Qed.

Lemma textEncode_inj p q : cryptoUtils.textEncode p = cryptoUtils.textEncode q -> p = q.
Proof.
  unfold cryptoUtils.textEncode. intros E.
  rewrite <- (string_of_list_byte_of_string p), <- (string_of_list_byte_of_string q).
  by rewrite E.
Qed.

Section PinRoundTrip.

Variable pbkdf2 : list byte -> list byte -> Z -> list byte.

(** PBKDF2 does not collide on two PINs under one salt and iteration
    count. *)
Hypothesis pbkdf2_injective_on_pins : forall saltBytes iterations p q,
  cryptoUtils.isValidPin p = true -> cryptoUtils.isValidPin q = true ->
  pbkdf2 (cryptoUtils.textEncode p) saltBytes iterations
  = pbkdf2 (cryptoUtils.textEncode q) saltBytes iterations ->
  p = q.

(** Verification succeeds exactly when the derived bits agree. *)
Lemma verifyPin_hashPin saltBytes p q :
  cryptoUtils.verifyPin pbkdf2 q (cryptoUtils.hashPin pbkdf2 saltBytes p) = true
  <-> pbkdf2 (cryptoUtils.textEncode q) saltBytes 100000
      = pbkdf2 (cryptoUtils.textEncode p) saltBytes 100000.
Proof.
  unfold cryptoUtils.verifyPin, cryptoUtils.hashPin. cbn [salt iterations hash].
  unfold cryptoUtils.base64ToArrayBuffer, cryptoUtils.arrayBufferToBase64.
  rewrite decode_encode, constantTimeEquals_spec.
  split; [apply encode_inj | by intros ->].
Qed.

(** C8. For every valid 4-digit PIN [p] and every salt [hashPin] draws,
    [verifyPin p (hashPin p)] is [true], and [verifyPin q (hashPin p)] is
    [false] for every other valid PIN [q], given a key-derivation function
    that is injective on PINs under one salt and iteration count. *)
Theorem pin_hash_verify_round_trip saltBytes p :
  cryptoUtils.isValidPin p = true ->
  cryptoUtils.verifyPin pbkdf2 p (cryptoUtils.hashPin pbkdf2 saltBytes p) = true
  /\ forall q, cryptoUtils.isValidPin q = true -> q <> p ->
       cryptoUtils.verifyPin pbkdf2 q (cryptoUtils.hashPin pbkdf2 saltBytes p) = false.
Proof.
  intros Hp. split.
  - by apply verifyPin_hashPin.
  - intros q Hq Hne. apply not_true_is_false. intros E. apply Hne.
    apply verifyPin_hashPin in E.
    by apply (pbkdf2_injective_on_pins saltBytes 100000).
Qed.

End PinRoundTrip.

Lemma identityKdf_injective saltBytes iterations p q :
  cryptoUtils.isValidPin p = true -> cryptoUtils.isValidPin q = true ->
  identityKdf (cryptoUtils.textEncode p) saltBytes iterations
  = identityKdf (cryptoUtils.textEncode q) saltBytes iterations ->
  p = q.
Proof. intros _ _. apply textEncode_inj. Qed.

Lemma pin_hash_verify_round_trip_witness :
  cryptoUtils.isValidPin "4821" = true
  /\ cryptoUtils.verifyPin identityKdf "4821"
       (cryptoUtils.hashPin identityKdf (list_byte_of_string "0123456789abcdef") "4821") = true
  /\ forall q, cryptoUtils.isValidPin q = true -> q <> "4821" ->
       cryptoUtils.verifyPin identityKdf q
         (cryptoUtils.hashPin identityKdf (list_byte_of_string "0123456789abcdef") "4821") = false.
Proof.
  split; [reflexivity|].
  apply (pin_hash_verify_round_trip identityKdf identityKdf_injective). reflexivity.
Defined.

(* ===================================================================== *)
(** * The export                                                          *)
(* ===================================================================== *)

(** A value that omits a field has a document without that member name. *)
Lemma omitsField_sound k : forall v doc,
  omitsField k v = true -> toJson v = Some doc -> ~ In k (fieldNames doc).
Proof.
  fix IH 1. intros [| |b|n|s|items|props] doc Ho Ht; cbn in Ht; try (injection Ht as <-; cbn; tauto).
  - discriminate.
  - injection Ht as <-. cbn [fieldNames]. cbn [omitsField] in Ho.
    induction items as [|x r IHr]; [cbn; tauto|].
    apply andb_true_iff in Ho as [Hx Hr].
    destruct (toJson x) as [j|] eqn:Ex.
    + intros Hin. apply in_app_or in Hin as [Hin|Hin].
      * exact (IH x j Hx Ex Hin).
      * exact (IHr Hr Hin).
    + intros Hin. cbn in Hin. exact (IHr Hr Hin).
  - injection Ht as <-. cbn [fieldNames]. cbn [omitsField] in Ho.
    induction props as [|[k' x] r IHr]; [cbn; tauto|].
    destruct (toJson x) as [j|] eqn:Ex.
    + assert (H3 : negb (String.eqb k' k) = true /\ omitsField k x = true
                   /\ (fix go (l : list (string * JsVal)) : bool :=
                         match l with
                         | [] => true
                         | (k', x) :: r =>
                             match x with
                             | JUndefined => go r
                             | _ => negb (String.eqb k' k) && omitsField k x && go r
                             end
                         end) r = true).
      { destruct x; try discriminate Ex;
          apply andb_true_iff in Ho as [Ho ?]; apply andb_true_iff in Ho as [? ?]; done. }
      destruct H3 as (Hk & Hx & Hr).
      intros [Hin|Hin].
      * apply negb_true_iff, String.eqb_neq in Hk. done.
      * apply in_app_or in Hin as [Hin|Hin]; [exact (IH x j Hx Ex Hin) | exact (IHr Hr Hin)].
    + destruct x; try discriminate Ex. exact (IHr Ho).
Qed.

Lemma omitsField_optStr k o : omitsField k (optStr o) = true.
Proof. by destruct o. Qed.

Lemma omitsField_optNum k o : omitsField k (optNum o) = true.
Proof. by destruct o. Qed.

Lemma omitsField_optBool k o : omitsField k (optBool o) = true.
Proof. by destruct o. Qed.

(** An object omits [k] when each property is [undefined], or has another
    name and a value that omits [k]. *)
Lemma omitsField_props k props :
  Forall (fun kv => kv.2 = JUndefined \/ (String.eqb kv.1 k = false /\ omitsField k kv.2 = true)) props ->
  omitsField k (JObj props) = true.
Proof.
  cbn [omitsField]. induction 1 as [|[k' x] r Hx _ IH]; [done|].
  cbn [fst snd] in Hx. destruct Hx as [-> | [Hk Ho]]; [exact IH|].
  rewrite Hk, Ho, IH. by destruct x.
Qed.

Lemma omitsField_map {A} k (f : A -> JsVal) l :
  (forall x, omitsField k (f x) = true) -> omitsField k (JArr (map f l)) = true.
Proof.
  intros Hf. cbn [omitsField]. induction l as [|x r IH]; [done|].
  cbn [map]. by rewrite Hf, IH.
Qed.

(** Goes through the properties of an object literal. *)
Ltac props_omit :=
  apply omitsField_props;
  repeat (constructor;
          [ first [ left; reflexivity
                  | right; split;
                    [ reflexivity
                    | first [ apply omitsField_optStr | apply omitsField_optNum
                            | apply omitsField_optBool | reflexivity | props_omit ] ] ]
          | ]);
  constructor.

Lemma omitsField_sanitizedSettings k s :
  isPinField k -> omitsField k (dbUtils.sanitizedSettings (Some s)) = true.
Proof.
  intros [-> | [-> | ->]]; unfold dbUtils.sanitizedSettings, settingsObject;
    cbn [setProp String.eqb Ascii.eqb Bool.eqb]; props_omit.
Qed.

Lemma omitsField_exportData k metadata settings ps es streak :
  isPinField k ->
  omitsField k (dbUtils.exportData metadata settings ps es streak) = true.
Proof.
  intros Hk. unfold dbUtils.exportData.
  assert (Hmeta : omitsField k (dbUtils.metaObject metadata) = true)
    by (destruct Hk as [-> | [-> | ->]]; reflexivity).
  assert (Hentries : omitsField k (JArr (map dbUtils.exportEntry es)) = true).
  { apply omitsField_map. intros e. unfold dbUtils.exportEntry.
    destruct Hk as [-> | [-> | ->]]; props_omit. }
  assert (Hsettings : omitsField k (dbUtils.sanitizedSettings settings) = true).
  { destruct settings as [s|]; [|reflexivity]. by apply omitsField_sanitizedSettings. }
  assert (Hprompts : omitsField k (JArr (map dbUtils.exportPrompt ps)) = true).
  { apply omitsField_map. intros p. unfold dbUtils.exportPrompt.
    destruct Hk as [-> | [-> | ->]]; props_omit. }
  assert (Hstreak : omitsField k (from_option streakObject JUndefined streak) = true).
  { destruct streak as [s|]; [|reflexivity]. unfold from_option, streakObject.
    destruct Hk as [-> | [-> | ->]]; props_omit. }
  apply omitsField_props.
  repeat (constructor; [right; split; [destruct Hk as [-> | [-> | ->]]; reflexivity | assumption]|]).
  constructor.
Qed.

(** C9. Whatever the store holds, a PIN included: on a store that works
    [exportDataWithProgress] returns, and whenever it returns, the JSON
    text is the rendering of a document in which no member, at any depth,
    is named [pinHash], [pinSalt] or [pinIterations]. *)
Theorem export_omits_pin_fields env w :
  (faults w = [] -> exists x, (dbUtils.exportDataWithProgress env w).1 = Ok x)
  /\ (forall x, (dbUtils.exportDataWithProgress env w).1 = Ok x ->
       exists doc,
         dbUtils.json x = render "  " EmptyString doc
         /\ ~ In "pinHash" (fieldNames doc)
         /\ ~ In "pinSalt" (fieldNames doc)
         /\ ~ In "pinIterations" (fieldNames doc)).
Proof.
  split.
  { intros Hf. destruct w as [d q fs]. cbn [faults] in Hf. subst fs.
    eexists. reflexivity. }
  assert (H : wp (dbUtils.exportDataWithProgress env)
                 (fun r _ => forall x, r = Ok x ->
                    exists doc, dbUtils.json x = render "  " EmptyString doc
                      /\ ~ In "pinHash" (fieldNames doc)
                      /\ ~ In "pinSalt" (fieldNames doc)
                      /\ ~ In "pinIterations" (fieldNames doc)) w); [|exact H].
  unfold dbUtils.exportDataWithProgress, settings_get, prompts_toArray,
    dbUtils.entries_orderByCreatedAt, streak_get.
  wp_step. wp_step; [done|]. wp_step. wp_step; [done|].
  wp_step. wp_step; [done|]. wp_step. wp_step; [done|]. wp_step.
  intros x0 Hx.
  set (v := dbUtils.exportData _ _ _ _ _) in Hx.
  assert (Hjson : dbUtils.json x0 = textOf (stringify2 v)) by (by injection Hx as <-).
  assert (Hdoc : exists doc, toJson v = Some doc) by (eexists; reflexivity).
  destruct Hdoc as [doc E].
  exists doc. rewrite Hjson. unfold stringify2. rewrite E. split; [reflexivity|].
  split_and!; apply (omitsField_sound _ v); auto; apply omitsField_exportData;
    unfold isPinField; auto.
Qed.

Lemma export_omits_pin_fields_witness :
  (exists x, (dbUtils.exportDataWithProgress (noon 0) (installed pinSettings)).1 = Ok x)
  /\ exists doc,
       dbUtils.json pinExport = render "  " EmptyString doc
       /\ ~ In "pinHash" (fieldNames doc)
       /\ ~ In "pinSalt" (fieldNames doc)
       /\ ~ In "pinIterations" (fieldNames doc).
Proof.
  destruct (export_omits_pin_fields (noon 0) (installed pinSettings)) as [H1 H2].
  split.
  - apply H1. vm_compute. reflexivity.
  - apply (H2 pinExport). vm_compute. reflexivity.
Defined.

(* ===================================================================== *)
(** * Maintenance of the store                                            *)
(* ===================================================================== *)

(** X1. [initializeSettings] on a working store returns the row that is
    stored afterwards: the existing row, with the store untouched, when
    there is one, and the first-launch row otherwise. A later call, at any
    later time, returns the same row and writes nothing, so [installAt] is
    set once. *)
Theorem initializeSettings_idempotent env env' w :
  faults w = [] ->
  exists s,
    (dbUtils.initializeSettings env w).1 = Ok s
    /\ settings (db (dbUtils.initializeSettings env w).2) !! "main" = Some s
    /\ (forall s0, settings (db w) !! "main" = Some s0 ->
          s = s0 /\ (dbUtils.initializeSettings env w).2 = w)
    /\ (settings (db w) !! "main" = None -> s = dbUtils.newSettings env)
    /\ dbUtils.initializeSettings env' (dbUtils.initializeSettings env w).2
       = (Ok s, (dbUtils.initializeSettings env w).2).
Proof.
  intros Hf. destruct w as [d q fs]. cbn [faults] in Hf. subst fs.
  cbv [dbUtils.initializeSettings settings_get settings_put mbind M_bind bind ret access
       db eventQueue faults fst snd].
  destruct (settings d !! "main") as [s0|] eqn:E.
  - exists s0. cbn [fst snd db faults eventQueue]. rewrite E.
    split_and!; try done. intros ? [= <-]. done.
  - exists (dbUtils.newSettings env). cbn [fst snd db faults eventQueue settings].
    change (s_id (dbUtils.newSettings env)) with "main".
    rewrite lookup_insert_eq. split_and!; done.
Qed.

Lemma initializeSettings_idempotent_witness :
  exists s,
    (dbUtils.initializeSettings (noon 0) (mkWorld (mkStore ∅ [] ∅ ∅) [] [])).1 = Ok s
    /\ settings (db (dbUtils.initializeSettings (noon 0) (mkWorld (mkStore ∅ [] ∅ ∅) [] [])).2)
         !! "main" = Some s
    /\ (forall s0, settings (db (mkWorld (mkStore ∅ [] ∅ ∅) [] [])) !! "main" = Some s0 ->
          s = s0 /\ (dbUtils.initializeSettings (noon 0) (mkWorld (mkStore ∅ [] ∅ ∅) [] [])).2
                    = mkWorld (mkStore ∅ [] ∅ ∅) [] [])
    /\ (settings (db (mkWorld (mkStore ∅ [] ∅ ∅) [] [])) !! "main" = None ->
          s = dbUtils.newSettings (noon 0))
    /\ dbUtils.initializeSettings (noon 30)
         (dbUtils.initializeSettings (noon 0) (mkWorld (mkStore ∅ [] ∅ ∅) [] [])).2
       = (Ok s, (dbUtils.initializeSettings (noon 0) (mkWorld (mkStore ∅ [] ∅ ∅) [] [])).2).
Proof.
  apply (initializeSettings_idempotent (noon 0) (noon 30) (mkWorld (mkStore ∅ [] ∅ ∅) [] [])).
  reflexivity.
Defined.

(** On integer counters the test of the source, with its two [typeof]
    tests, is the test [validateAndRecoverStreakData] makes on a row, and
    the recovered counters are those of the row it writes. *)
Lemma looksCorrupted_integers current longest :
  dbUtils.looksCorrupted (dbUtils.counterOf current) (dbUtils.counterOf longest)
  = (current <? 0) || (longest <? 0) || (current >? longest).
Proof.
  unfold dbUtils.looksCorrupted, dbUtils.counterOf. cbn. by rewrite Z.gtb_ltb.
Qed.

Lemma recoveredCounters_integers current longest :
  dbUtils.recoveredCounters (dbUtils.counterOf current) (dbUtils.counterOf longest)
  = (dbUtils.Int (Z.max 0 (Z.min (JS.num_or current 0) (JS.num_or longest 0))),
     dbUtils.Int (Z.max 0 (Z.max (JS.num_or longest 0) (JS.num_or current 0)))).
Proof.
  assert (Hnum : forall x, JS.num_or x 0 = x).
  { intros x. unfold JS.num_or. destruct (Z.eqb_spec x 0); lia. }
  by rewrite !Hnum.
Qed.

(** Outside the integers the validation does not heal: a [NaN] counter
    passes the test, since every comparison with [NaN] is false, and a
    value that is not a number and converts to [NaN] is recovered to
    [NaN]. *)
Lemma nan_counter_passes_validation longest :
  dbUtils.typeofNumber longest = true ->
  dbUtils.jsLt (dbUtils.toNumber longest) (dbUtils.Int 0) = false ->
  dbUtils.looksCorrupted (dbUtils.IsNumber dbUtils.NaN) longest = false.
Proof.
  intros Ht Hlt. unfold dbUtils.looksCorrupted. rewrite Ht, Hlt. cbn.
  by destruct (dbUtils.toNumber longest).
Qed.

Lemma recovery_can_write_nan longest :
  dbUtils.looksCorrupted (dbUtils.NotNumber true dbUtils.NaN) longest = true
  /\ dbUtils.recoveredCounters (dbUtils.NotNumber true dbUtils.NaN) longest
     = (dbUtils.NaN, dbUtils.NaN).
Proof.
  split; [done|]. unfold dbUtils.recoveredCounters. cbn [dbUtils.orZero].
  by destruct (dbUtils.orZero longest).
Qed.

(** X2. [validateAndRecoverStreakData] repairs a stored summary row whose
    counters are integers, of any sign and in any order: on a working
    store the row stored afterwards is the one returned, it satisfies
    [0 <= current_streak <= longest_streak], it keeps [last_entry_date],
    it is reported valid exactly when the row was sound before, and a
    second validation finds it valid and writes nothing. On these counters
    the test of the source, with its [typeof] tests, fires exactly when the
    row is reported invalid, and the counters it recovers are those of the
    returned row. *)
Theorem validateAndRecoverStreakData_heals env env' w s :
  faults w = [] ->
  streakSummary (db w) !! "main" = Some s ->
  exists v,
    (dbUtils.validateAndRecoverStreakData env w).1 = Ok v
    /\ streakSummary (db (dbUtils.validateAndRecoverStreakData env w).2) !! "main"
       = Some (dbUtils.v_streak v)
    /\ 0 <= current_streak (dbUtils.v_streak v) <= longest_streak (dbUtils.v_streak v)
    /\ last_entry_date (dbUtils.v_streak v) = last_entry_date s
    /\ (dbUtils.isValid v = true <-> 0 <= current_streak s <= longest_streak s)
    /\ dbUtils.validateAndRecoverStreakData env' (dbUtils.validateAndRecoverStreakData env w).2
       = (Ok (dbUtils.mkValidation true false (dbUtils.v_streak v)),
          (dbUtils.validateAndRecoverStreakData env w).2)
    /\ dbUtils.looksCorrupted (dbUtils.counterOf (current_streak s))
                              (dbUtils.counterOf (longest_streak s))
       = negb (dbUtils.isValid v)
    /\ (dbUtils.isValid v = false ->
        dbUtils.recoveredCounters (dbUtils.counterOf (current_streak s))
                                  (dbUtils.counterOf (longest_streak s))
        = (dbUtils.Int (current_streak (dbUtils.v_streak v)),
           dbUtils.Int (longest_streak (dbUtils.v_streak v)))).
Proof.
  intros Hf Hs. destruct w as [d q fs]. cbn [faults db] in Hf, Hs. subst fs.
  rewrite looksCorrupted_integers, recoveredCounters_integers.
  cbv [dbUtils.validateAndRecoverStreakData try_catch streak_get streak_put mbind M_bind bind
       ret access db eventQueue faults fst snd].
  rewrite Hs.
  destruct ((current_streak s <? 0) || (longest_streak s <? 0)
            || (current_streak s >? longest_streak s)) eqn:C.
  - eexists. split; [reflexivity|].
    cbn [fst snd db faults eventQueue streakSummary ss_id dbUtils.v_streak
         dbUtils.isValid current_streak longest_streak last_entry_date].
    rewrite lookup_insert_eq.
    assert (Hnum : forall x, JS.num_or x 0 = x).
    { intros x. unfold JS.num_or. destruct (Z.eqb_spec x 0); lia. }
    cbv beta iota. cbn [current_streak longest_streak]. rewrite !Hnum.
    split; [reflexivity|]. split; [lia|]. split; [reflexivity|]. split; [|split; [|done]].
    + split; [done|]. intros H. exfalso.
      rewrite !orb_true_iff, Z.gtb_ltb, !Z.ltb_lt in C. lia.
    + replace ((_ <? 0) || (_ <? 0) || (_ >? _)) with false; [reflexivity|].
      symmetry. rewrite !orb_false_iff, Z.gtb_ltb, !Z.ltb_ge. lia.
  - eexists. split; [reflexivity|].
    cbn [fst snd db faults eventQueue streakSummary dbUtils.v_streak dbUtils.isValid].
    rewrite Hs, C.
    rewrite !orb_false_iff, Z.gtb_ltb, !Z.ltb_ge in C.
    split; [reflexivity|]. split; [lia|]. split; [reflexivity|].
    split; [split; [lia | done]|]. done.
Qed.

Lemma validateAndRecoverStreakData_heals_witness :
  exists v,
    (dbUtils.validateAndRecoverStreakData (noon 3) corruptedStore).1 = Ok v
    /\ streakSummary (db (dbUtils.validateAndRecoverStreakData (noon 3) corruptedStore).2) !! "main"
       = Some (dbUtils.v_streak v)
    /\ 0 <= current_streak (dbUtils.v_streak v) <= longest_streak (dbUtils.v_streak v)
    /\ last_entry_date (dbUtils.v_streak v) = last_entry_date corruptedStreak
    /\ (dbUtils.isValid v = true
        <-> 0 <= current_streak corruptedStreak <= longest_streak corruptedStreak)
    /\ dbUtils.validateAndRecoverStreakData (noon 4)
         (dbUtils.validateAndRecoverStreakData (noon 3) corruptedStore).2
       = (Ok (dbUtils.mkValidation true false (dbUtils.v_streak v)),
          (dbUtils.validateAndRecoverStreakData (noon 3) corruptedStore).2)
    /\ dbUtils.looksCorrupted (dbUtils.counterOf (current_streak corruptedStreak))
                              (dbUtils.counterOf (longest_streak corruptedStreak))
       = negb (dbUtils.isValid v)
    /\ (dbUtils.isValid v = false ->
        dbUtils.recoveredCounters (dbUtils.counterOf (current_streak corruptedStreak))
                                  (dbUtils.counterOf (longest_streak corruptedStreak))
        = (dbUtils.Int (current_streak (dbUtils.v_streak v)),
           dbUtils.Int (longest_streak (dbUtils.v_streak v)))).
Proof.
  apply (validateAndRecoverStreakData_heals (noon 3) (noon 4) corruptedStore corruptedStreak);
    reflexivity.
Defined.

(** X3. [resetStreakData] never throws, and its answer tells what happened
    to the summary table, whatever the store does: after [true] the row is
    the fresh one, after [false] the table is as it was. The prompts and
    the entries are never touched. *)
Theorem resetStreakData_reports_outcome env w :
  exists b,
    (dbUtils.resetStreakData env w).1 = Ok b
    /\ (if b
        then streakSummary (db (dbUtils.resetStreakData env w).2) !! "main"
             = Some (dbUtils.freshStreak env)
        else streakSummary (db (dbUtils.resetStreakData env w).2) = streakSummary (db w))
    /\ prompts (db (dbUtils.resetStreakData env w).2) = prompts (db w)
    /\ entries (db (dbUtils.resetStreakData env w).2) = entries (db w).
Proof.
  set (Q := fun (r : Result bool) (w' : World) =>
    exists b, r = Ok b
      /\ (if b then streakSummary (db w') !! "main" = Some (dbUtils.freshStreak env)
          else streakSummary (db w') = streakSummary (db w))
      /\ prompts (db w') = prompts (db w) /\ entries (db w') = entries (db w)).
  assert (H : wp (dbUtils.resetStreakData env) Q w); [|exact H].
  unfold dbUtils.resetStreakData, streak_get, streak_put, settings_get, settings_put.
  assert (Hput : forall w2,
     streakSummary (db w2) = streakSummary (db w) -> prompts (db w2) = prompts (db w) ->
     entries (db w2) = entries (db w) ->
     wp (access (λ d : Store, ((), mkStore (settings d) (prompts d) (entries d)
            (<[ss_id (dbUtils.freshStreak env):=dbUtils.freshStreak env]> (streakSummary d))));;
         ret true)
        (fun r w' => match r with
                     | Ok a => Q (Ok a) w'
                     | Throw _ => wp (ret false) Q w'
                     end) w2).
  { intros w2 H1 H2 H3. wp_step. wp_step.
    - wp_step. exists false. done.
    - wp_step. exists true. cbn. rewrite lookup_insert_eq. done. }
  wp_step. wp_step. wp_step.
  - wp_step. exists false. done.
  - destruct (streakSummary _ !! "main") as [s|].
    + wp_step. wp_step. wp_step.
      * wp_step. exists false. done.
      * destruct (settings _ !! "main") as [st|].
        -- wp_step.
           ++ wp_step. exists false. done.
           ++ apply Hput; done.
        -- wp_step. apply Hput; done.
    + wp_step. wp_step. apply Hput; done.
Qed.

(** X4. Once today's date is the last counted date, [updateStreak] for
    today changes nothing, however many entries today has and whatever the
    store does: the summary row stays as it is, and the row handed back is
    the stored one. Saving or editing again on a counted day cannot raise
    the streak. *)
Theorem updateStreak_again_same_day env w s :
  streakSummary (db w) !! "main" = Some s ->
  last_entry_date s = Some (promptUtils.getTodayString env) ->
  streakSummary (db (dbUtils.updateStreak env (promptUtils.getTodayString env) w).2) !! "main"
  = Some s
  /\ forall u, (dbUtils.updateStreak env (promptUtils.getTodayString env) w).1 = Ok u ->
       dbUtils.streakData u = s.
Proof.
  intros Hs Hlast.
  set (Q := fun (r : Result dbUtils.StreakUpdate) (w' : World) =>
    streakSummary (db w') !! "main" = Some s
    /\ forall u, r = Ok u -> dbUtils.streakData u = s).
  assert (H : wp (dbUtils.updateStreak env (promptUtils.getTodayString env)) Q w); [|exact H].
  assert (Hadv : dbUtils.advance env (JS.dayString (JS.localDay (tzOffset env) (now env) - 1))
                   (promptUtils.getTodayString env) s = s).
  { unfold dbUtils.advance. rewrite Hlast. unfold promptUtils.getTodayString.
    rewrite dayString_truthy. cbn [negb].
    replace (JS.str_eq _ (Some (JS.dayString (_ - 1)))) with false.
    2:{ symmetry. apply not_true_is_false. intros E. apply str_eq_true in E.
        injection E as E. apply dayString_inj in E. lia. }
    replace (JS.str_eq _ _) with true by (symmetry; by apply str_eq_true).
    cbn [negb]. destruct s. cbn in *. by rewrite Hlast. }
  unfold dbUtils.updateStreak, dbUtils.initializeStreakSummary, streak_get, entries_countOn,
    streak_put.
  wp_step. wp_step. wp_step; [done|].
  rewrite Hs. wp_step. wp_step. wp_step; [done|].
  destruct (negb _).
  - wp_step. split; [done|]. by intros ? [= <-].
  - rewrite Hadv. wp_step. wp_step; [done|]. wp_step. split.
    + cbn. rewrite lookup_insert. case_decide; done.
    + by intros ? [= <-].
Qed.

Lemma updateStreak_again_same_day_witness :
  streakSummary (db (dbUtils.updateStreak (noon 0) (promptUtils.getTodayString (noon 0))
                       (savedOn 0 freshInstall)).2) !! "main"
  = Some (mkStreak "main" "2024-01-01T12:00:00.000Z" 1 1 (Some "2024-01-01"))
  /\ forall u, (dbUtils.updateStreak (noon 0) (promptUtils.getTodayString (noon 0))
                  (savedOn 0 freshInstall)).1 = Ok u ->
       dbUtils.streakData u = mkStreak "main" "2024-01-01T12:00:00.000Z" 1 1 (Some "2024-01-01").
Proof.
  apply (updateStreak_again_same_day (noon 0) (savedOn 0 freshInstall)
           (mkStreak "main" "2024-01-01T12:00:00.000Z" 1 1 (Some "2024-01-01"))).
  - vm_compute. reflexivity.
  - vm_compute. reflexivity.
Defined.

(** ** Freeing storage *)

Lemma map_is_fmap {A B} (f : A -> B) l : map f l = f <$> l.
Proof. reflexivity. Qed.

Lemma createdBefore_total : Total (fun a b => Is_true (dbUtils.createdBefore a b)).
Proof.
  intros a b. unfold dbUtils.createdBefore.
  rewrite (String.eqb_sym (e_created_at b)).
  destruct (String.eqb _ _).
  - apply (total String.le).
  - apply (total String.le).
Qed.

Lemma createdBefore_trans : Transitive (fun a b => Is_true (dbUtils.createdBefore a b)).
Proof.
  intros a b c. unfold dbUtils.createdBefore.
  destruct (String.eqb_spec (e_created_at a) (e_created_at b)) as [Eab|Nab];
    destruct (String.eqb_spec (e_created_at b) (e_created_at c)) as [Ebc|Nbc];
    destruct (String.eqb_spec (e_created_at a) (e_created_at c)) as [Eac|Nac];
    try congruence; intros H1 H2.
  - exact (transitivity (R := String.le) H1 H2).
  - exfalso. apply Nab. apply (anti_symm String.le); [exact H1|]. by rewrite Eac.
  - exact (transitivity (R := String.le) H1 H2).
Qed.

Lemma createdBefore_le a b :
  Is_true (dbUtils.createdBefore a b) -> String.le (e_created_at a) (e_created_at b).
Proof.
  unfold dbUtils.createdBefore.
  destruct (String.eqb_spec (e_created_at a) (e_created_at b)) as [->|]; [|done].
  intros _. reflexivity.
Qed.

Lemma lookup_bulkDelete {A} (m : gmap string A) ids k :
  foldr delete m ids !! k = if decide (k ∈ ids) then None else m !! k.
Proof.
  induction ids as [|i ids IH]; cbn [foldr].
  - rewrite decide_False; [done|]. apply not_elem_of_nil.
  - destruct (decide (i = k)) as [->|Hne].
    + rewrite lookup_delete_eq, decide_True; [done|]. apply elem_of_cons. by left.
    + rewrite lookup_delete_ne, IH by done.
      destruct (decide (k ∈ ids)) as [Hin|Hin].
      * rewrite decide_True; [done|]. apply elem_of_cons. by right.
      * rewrite decide_False; [done|]. rewrite elem_of_cons. by intros [->|?].
Qed.

Lemma size_bulkDelete {A} (m : gmap string A) ids :
  NoDup ids -> (forall k, k ∈ ids -> is_Some (m !! k)) ->
  (size (foldr delete m ids) + length ids = size m)%nat.
Proof.
  induction 1 as [|i ids Hni Hnd IH]; intros Hin; cbn [foldr length].
  - lia.
  - assert (Hi : is_Some (foldr delete m ids !! i)).
    { rewrite lookup_bulkDelete, decide_False by done. apply Hin, elem_of_cons. by left. }
    rewrite map_size_delete_Some by done.
    assert (size (foldr delete m ids) <> 0%nat).
    { destruct Hi as [x Hx]. by eapply map_size_ne_0_lookup_2. }
    specialize (IH (fun k Hk => Hin k (proj2 (elem_of_cons _ _ _) (or_intror Hk)))).
    lia.
Qed.

(** In a table that is keyed by [id], the rows in any order carry the keys
    of the table, each once. *)
Lemma keyed_rows (es : gmap string Entry) rows :
  map_Forall (fun k e => e_id e = k) es ->
  rows ≡ₚ (map_to_list es).*2 ->
  NoDup (map e_id rows)
  /\ forall e, e ∈ rows <-> es !! e_id e = Some e.
Proof.
  intros Hkeyed.
  assert (Hids : map e_id ((map_to_list es).*2) = (map_to_list es).*1).
  { assert (H : Forall (fun kv => e_id kv.2 = kv.1) (map_to_list es)).
    { apply Forall_forall. intros [k e] Hin. apply elem_of_map_to_list in Hin. by apply Hkeyed. }
    induction H as [|[k e] l Hke _ IH]; [done|]. csimpl in *. by rewrite Hke, IH. }
  intros Hperm. split.
  - rewrite Hperm, Hids. apply NoDup_fst_map_to_list.
  - intros e. rewrite Hperm. rewrite list_elem_of_fmap. split.
    + intros [[k e'] [-> Hin]]. apply elem_of_map_to_list in Hin. cbn.
      by rewrite (Hkeyed _ _ Hin).
    + intros He. exists (e_id e, e). split; [done|]. by apply elem_of_map_to_list.
Qed.

(** X5. When more than 1000 entries are stored, on a working store whose
    entries are keyed by their [id], [handleStorageQuotaExceeded] reports
    how many entries it removed and leaves exactly 1000 of the stored
    entries: none is changed or added, no removed entry was created after a
    kept one, and the other tables stay as they were. *)
Theorem handleStorageQuotaExceeded_keeps_newest w :
  faults w = [] ->
  map_Forall (fun k e => e_id e = k) (entries (db w)) ->
  1000 < Z.of_nat (size (entries (db w))) ->
  (dbUtils.handleStorageQuotaExceeded w).1
  = Ok (dbUtils.mkQuota true
          ("Cleaned up " +:+ pretty (Z.of_nat (size (entries (db w)) - 1000))
           +:+ " old entries to free storage space."))
  /\ size (entries (db (dbUtils.handleStorageQuotaExceeded w).2)) = 1000%nat
  /\ entries (db (dbUtils.handleStorageQuotaExceeded w).2) ⊆ entries (db w)
  /\ (forall k e k' e',
        entries (db w) !! k = Some e ->
        entries (db (dbUtils.handleStorageQuotaExceeded w).2) !! k = None ->
        entries (db (dbUtils.handleStorageQuotaExceeded w).2) !! k' = Some e' ->
        String.le (e_created_at e) (e_created_at e'))
  /\ settings (db (dbUtils.handleStorageQuotaExceeded w).2) = settings (db w)
  /\ prompts (db (dbUtils.handleStorageQuotaExceeded w).2) = prompts (db w)
  /\ streakSummary (db (dbUtils.handleStorageQuotaExceeded w).2) = streakSummary (db w).
Proof.
  intros Hf Hkeyed Hmany. destruct w as [[st ps es ss] q fs].
  cbn [faults db entries settings prompts streakSummary] in *. subst fs.
  set (R := fun a b : Entry => Is_true (dbUtils.createdBefore a b)).
  set (sorted := merge_sort R (map_to_list es).*2).
  set (n := Z.to_nat (Z.of_nat (size es) - 1000)).
  assert (Hperm : sorted ≡ₚ (map_to_list es).*2) by apply merge_sort_Permutation.
  assert (Hlen : length sorted = size es).
  { rewrite Hperm, length_fmap. apply length_map_to_list. }
  assert (Hold : length (take n sorted) = n) by (rewrite length_take; lia).
  destruct (keyed_rows es sorted Hkeyed Hperm) as [Hnd Hrows].
  assert (Hsorted : StronglySorted R (take n sorted ++ drop n sorted)).
  { rewrite take_drop.
    apply (@StronglySorted_merge_sort _ R _ createdBefore_trans createdBefore_total). }
  assert (Hids : NoDup (map e_id (take n sorted))).
  { rewrite <- (take_drop n sorted), map_app in Hnd. by apply NoDup_app in Hnd as [? _]. }
  assert (Hrun : dbUtils.handleStorageQuotaExceeded (mkWorld (mkStore st ps es ss) q [])
                 = (Ok (dbUtils.mkQuota true
                          ("Cleaned up " +:+ pretty (Z.of_nat (size es - 1000))
                           +:+ " old entries to free storage space.")),
                    mkWorld (mkStore st ps (foldr delete es (map e_id (take n sorted))) ss) q [])).
  { cbv [dbUtils.handleStorageQuotaExceeded try_catch dbUtils.entries_count dbUtils.entries_oldest
         dbUtils.entries_bulkDelete mbind M_bind bind ret access db eventQueue faults
         entries settings prompts streakSummary].
    replace (Z.of_nat (size es) >? 1000) with true by (symmetry; apply Z.gtb_lt; lia).
    fold R. fold sorted. fold n. rewrite Hold.
    replace (Nat.ltb 0 n) with true by (symmetry; apply Nat.ltb_lt; lia).
    replace (Z.of_nat n) with (Z.of_nat (size es - 1000)) by lia. reflexivity. }
  rewrite Hrun. cbn [fst snd db entries settings prompts streakSummary].
  assert (Hin : forall k, k ∈ map e_id (take n sorted) ->
                  exists e, e ∈ take n sorted /\ es !! k = Some e).
  { intros k Hk. rewrite map_is_fmap in Hk. apply list_elem_of_fmap in Hk as [e [-> He]]. exists e. split; [done|].
    apply Hrows. rewrite <- (take_drop n sorted). apply elem_of_app. by left. }
  split; [reflexivity|]. split.
  { pose proof (size_bulkDelete es (map e_id (take n sorted)) Hids) as Hsize.
    rewrite length_map, Hold in Hsize.
    specialize (Hsize (fun k Hk => match Hin k Hk with ex_intro _ e (conj _ H) => mk_is_Some _ _ H end)).
    lia. }
  split.
  { apply map_subseteq_spec. intros k e. rewrite lookup_bulkDelete. by case_decide. }
  split; [|done].
  intros k e k' e' He Hgone Hkept. rewrite lookup_bulkDelete in Hgone, Hkept.
  destruct (decide (k ∈ _)) as [Hk|]; [|congruence].
  destruct (decide (k' ∈ _)) as [|Hk']; [done|].
  apply createdBefore_le.
  apply (StronglySorted_app_1_elem_of R _ _ e e' Hsorted).
  - destruct (Hin k Hk) as [x [Hx Hlook]]. congruence.
  - assert (He' : e' ∈ sorted) by (apply Hrows; by rewrite (Hkeyed _ _ Hkept)).
    rewrite <- (take_drop n sorted) in He'. apply elem_of_app in He' as [He'|He']; [|done].
    exfalso. apply Hk'. rewrite map_is_fmap. apply list_elem_of_fmap. exists e'. split; [|done].
    symmetry. by apply Hkeyed.
Qed.

Lemma handleStorageQuotaExceeded_keeps_newest_witness :
  (dbUtils.handleStorageQuotaExceeded (journalOf 1003)).1
  = Ok (dbUtils.mkQuota true
          ("Cleaned up " +:+ pretty (Z.of_nat (size (entries (db (journalOf 1003))) - 1000))
           +:+ " old entries to free storage space."))
  /\ size (entries (db (dbUtils.handleStorageQuotaExceeded (journalOf 1003)).2)) = 1000%nat
  /\ entries (db (dbUtils.handleStorageQuotaExceeded (journalOf 1003)).2)
     ⊆ entries (db (journalOf 1003))
  /\ (forall k e k' e',
        entries (db (journalOf 1003)) !! k = Some e ->
        entries (db (dbUtils.handleStorageQuotaExceeded (journalOf 1003)).2) !! k = None ->
        entries (db (dbUtils.handleStorageQuotaExceeded (journalOf 1003)).2) !! k' = Some e' ->
        String.le (e_created_at e) (e_created_at e'))
  /\ settings (db (dbUtils.handleStorageQuotaExceeded (journalOf 1003)).2)
     = settings (db (journalOf 1003))
  /\ prompts (db (dbUtils.handleStorageQuotaExceeded (journalOf 1003)).2)
     = prompts (db (journalOf 1003))
  /\ streakSummary (db (dbUtils.handleStorageQuotaExceeded (journalOf 1003)).2)
     = streakSummary (db (journalOf 1003)).
Proof.
  apply (handleStorageQuotaExceeded_keeps_newest (journalOf 1003)).
  - reflexivity.
  - refine (bool_decide_unpack _ _). vm_compute. exact I.
  - vm_compute. reflexivity.
Defined.

(** X6. [handleStorageQuotaExceeded] never throws, whatever the store does;
    when it reports no success the store is as it was; and with 1000
    entries or fewer it reports no success. *)
Theorem handleStorageQuotaExceeded_failure_changes_nothing w :
  exists result,
    (dbUtils.handleStorageQuotaExceeded w).1 = Ok result
    /\ (dbUtils.success result = false -> db (dbUtils.handleStorageQuotaExceeded w).2 = db w)
    /\ (Z.of_nat (size (entries (db w))) <= 1000 -> dbUtils.success result = false).
Proof.
  set (Q := fun (r : Result dbUtils.QuotaResult) (w' : World) =>
    exists result, r = Ok result
      /\ (dbUtils.success result = false -> db w' = db w)
      /\ (Z.of_nat (size (entries (db w))) <= 1000 -> dbUtils.success result = false)).
  assert (H : wp dbUtils.handleStorageQuotaExceeded Q w); [|exact H].
  unfold dbUtils.handleStorageQuotaExceeded, dbUtils.entries_count, dbUtils.entries_oldest,
    dbUtils.entries_bulkDelete.
  wp_step. wp_step. wp_step.
  - wp_step. eexists. done.
  - destruct (Z.gtb_spec (Z.of_nat (size (entries (db w)))) 1000) as [Hgt|Hle].
    + wp_step. wp_step.
      * wp_step. eexists. done.
      * destruct (Nat.ltb _ _).
        -- wp_step. wp_step.
           ++ wp_step. eexists. done.
           ++ wp_step. eexists. split; [done|]. cbn. split; [done|lia].
        -- wp_step. eexists. done.
    + wp_step. eexists. done.
Qed.

(** A store access on a store that works. *)
Lemma wp_access_works {A} (f : Store -> A * Store) Q w :
  faults w = [] ->
  Q (Ok (f (db w)).1) (mkWorld (f (db w)).2 (eventQueue w) []) ->
  wp (access f) Q w.
Proof.
  unfold wp, access. intros -> H. by destruct (f (db w)).
Qed.

(** ** The prompt of the day and the swap *)

Lemma getCurrentPrompt_without_prompts env installDate w :
  prompts (db w) = [] ->
  (promptUtils.getCurrentPrompt env installDate w).1
  = Ok (Some (promptUtils.getFallbackPrompt env installDate)).
Proof.
  intros Hps.
  assert (H : wp (promptUtils.getCurrentPrompt env installDate)
                 (fun r _ => r = Ok (Some (promptUtils.getFallbackPrompt env installDate))) w);
    [|exact H].
  unfold promptUtils.getCurrentPrompt, settings_get, prompts_toArray.
  wp_step. wp_step. wp_step; [by wp_step|].
  assert (Htoday : forall q fs,
    wp (access (λ d0 : Store, (prompts d0, d0))
        ≫= λ allPrompts, lift (promptUtils.getTodayPrompt env installDate allPrompts))
       (fun r w' => match r with
                    | Ok a => Ok a = Ok (Some (promptUtils.getFallbackPrompt env installDate))
                    | Throw _ => wp (ret (Some (promptUtils.getFallbackPrompt env installDate)))
                                    (fun r _ => r = Ok (Some (promptUtils.getFallbackPrompt env installDate))) w'
                    end) (mkWorld (db w) q fs)).
  { intros q fs. wp_step. wp_step; [by wp_step|]. rewrite Hps. wp_step.
    change (promptUtils.getTodayPrompt env installDate [])
      with (@Throw (option Prompt) "No seed prompts available").
    cbv beta iota. by wp_step. }
  destruct (_ && _).
  - wp_step. wp_step. wp_step; [by wp_step|]. rewrite Hps. wp_step. cbn [List.find].
    apply Htoday.
  - wp_step. wp_step. apply Htoday.
Qed.

(** X7. [wipeAllData] is all or nothing: it either throws and leaves the
    four tables as they were, or it returns and leaves all four empty.
    After a wipe [getCurrentPrompt] still answers, with the fallback prompt
    of the seed catalog, whatever the store does then. *)
Theorem wipeAllData_all_or_nothing env installDate w :
  match (dbUtils.wipeAllData w).1 with
  | Ok _ =>
      db (dbUtils.wipeAllData w).2 = mkStore ∅ [] ∅ ∅
      /\ (promptUtils.getCurrentPrompt env installDate (dbUtils.wipeAllData w).2).1
         = Ok (Some (promptUtils.getFallbackPrompt env installDate))
  | Throw _ => db (dbUtils.wipeAllData w).2 = db w
  end.
Proof.
  destruct ((dbUtils.wipeAllData w).1) as [[]|e] eqn:E.
  - assert (Hdb : db (dbUtils.wipeAllData w).2 = mkStore ∅ [] ∅ ∅).
    { revert E. unfold dbUtils.wipeAllData, access.
      destruct (faults w) as [|[] fs]; cbn; [done|discriminate|done]. }
    split; [exact Hdb|]. apply getCurrentPrompt_without_prompts. by rewrite Hdb.
  - revert E. unfold dbUtils.wipeAllData, access.
    destruct (faults w) as [|[] fs]; cbn; [discriminate|done|discriminate].
Qed.

Lemma at_index_elem_of {A} (l : list A) index x :
  promptUtils.at_index l index = Some x -> x ∈ l.
Proof.
  unfold promptUtils.at_index. destruct index as [i|]; [|done].
  destruct (i <? 0); [done|]. apply list_elem_of_lookup_2.
Qed.

Lemma isActiveSeed_spec p :
  promptUtils.isActiveSeed p = true <-> source p = seed /\ archived p = false.
Proof.
  unfold promptUtils.isActiveSeed. destruct (source p), (archived p); cbn; intuition congruence.
Qed.

(** X8. A prompt [getTodayPrompt] returns is a row of the list it was
    given, with source [seed] and not archived: user prompts and archived
    prompts are never the prompt of the day. *)
Theorem getTodayPrompt_returns_active_seed env installDate ps p :
  promptUtils.getTodayPrompt env installDate ps = Ok (Some p) ->
  p ∈ ps /\ source p = seed /\ archived p = false.
Proof.
  unfold promptUtils.getTodayPrompt. destruct (Nat.eqb _ _); [done|].
  intros [= H]. apply at_index_elem_of in H.
  apply list_elem_of_In, filter_In in H as [H1 H2].
  split; [by apply list_elem_of_In|]. by apply isActiveSeed_spec.
Qed.

Lemma getTodayPrompt_returns_active_seed_witness :
  fourthSeed ∈ mixedPrompts /\ source fourthSeed = seed /\ archived fourthSeed = false.
Proof.
  apply (getTodayPrompt_returns_active_seed (noon 0) (installAt installedSettings)).
  vm_compute. reflexivity.
Defined.

Lemma getSwapPrompt_spec env currentPromptId lastPromptId ps p :
  promptUtils.getSwapPrompt env currentPromptId lastPromptId ps = Ok p ->
  p ∈ ps
  /\ ((p_id p <> currentPromptId /\ Some (p_id p) <> lastPromptId
       /\ source p = seed /\ archived p = false)
      \/ (p_id p = currentPromptId
          /\ forall q, q ∈ ps -> source q = seed -> archived q = false ->
               p_id q = currentPromptId \/ Some (p_id q) = lastPromptId)).
Proof.
  unfold promptUtils.getSwapPrompt.
  set (keep := fun p : Prompt => promptUtils.isActiveSeed p
                 && negb (String.eqb (p_id p) currentPromptId)
                 && negb (JS.str_eq (Some (p_id p)) lastPromptId)).
  assert (Hkeep : forall q, keep q = true <->
            (source q = seed /\ archived q = false) /\ p_id q <> currentPromptId
            /\ Some (p_id q) <> lastPromptId).
  { intros q. unfold keep. rewrite !andb_true_iff, !negb_true_iff, isActiveSeed_spec.
    rewrite <- !not_true_iff_false, String.eqb_eq, str_eq_true. tauto. }
  destruct (List.filter keep ps) as [|first rest] eqn:F.
  - destruct (List.find _ ps) as [c|] eqn:Hfind; [|done]. intros [= <-].
    apply find_some in Hfind as [Hin Hid]. apply String.eqb_eq in Hid.
    split; [by apply list_elem_of_In|]. right. split; [done|].
    intros q Hq Hseed Harch.
    destruct (String.eqb_spec (p_id q) currentPromptId) as [|Hc]; [by left|right].
    destruct (decide (Some (p_id q) = lastPromptId)) as [|Hl]; [done|exfalso].
    assert (Hq' : In q (List.filter keep ps)).
    { apply filter_In. split; [by apply list_elem_of_In|]. by apply Hkeep. }
    by rewrite F in Hq'.
  - intros Hp0.
    assert (Hp : nth (Z.to_nat (entropy env mod Z.of_nat (length (first :: rest))))
                     (first :: rest) first = p) by congruence.
    clear Hp0.
    assert (Hi : (Z.to_nat (entropy env mod Z.of_nat (length (first :: rest)))
                  < length (first :: rest))%nat).
    { cbn [length].
      pose proof (Z.mod_pos_bound (entropy env) (Z.of_nat (S (length rest)))). lia. }
    pose proof (nth_In (first :: rest) first Hi) as Hin.
    rewrite Hp, <- F in Hin. apply filter_In in Hin as [Hin Hk].
    split; [by apply list_elem_of_In|]. left. apply Hkeep in Hk. tauto.
Qed.

(** X9. A prompt [getSwapPrompt] returns is a row of the list it was
    given. Either it is an active seed prompt other than the current one
    and the last one, or it is the current prompt and the list has no such
    alternative. *)
Theorem getSwapPrompt_avoids_current_and_last env currentPromptId lastPromptId ps p :
  promptUtils.getSwapPrompt env currentPromptId lastPromptId ps = Ok p ->
  p ∈ ps
  /\ ((p_id p <> currentPromptId /\ Some (p_id p) <> lastPromptId
       /\ source p = seed /\ archived p = false)
      \/ (p_id p = currentPromptId
          /\ forall q, q ∈ ps -> source q = seed -> archived q = false ->
               p_id q = currentPromptId \/ Some (p_id q) = lastPromptId)).
Proof. apply getSwapPrompt_spec. Qed.

Lemma getSwapPrompt_avoids_current_and_last_witness :
  fourthSeed ∈ mixedPrompts
  /\ ((p_id fourthSeed <> "seed-3" /\ Some (p_id fourthSeed) <> Some "seed-1"
       /\ source fourthSeed = seed /\ archived fourthSeed = false)
      \/ (p_id fourthSeed = "seed-3"
          /\ forall q, q ∈ mixedPrompts -> source q = seed -> archived q = false ->
               p_id q = "seed-3" \/ Some (p_id q) = Some "seed-1")).
Proof.
  apply (getSwapPrompt_avoids_current_and_last (mkEnv 1704110400000 0 9 "k3j9x0a1b")).
  vm_compute. reflexivity.
Defined.

Lemma swapTodayPrompt_success_spec env installDate w p :
  (promptUtils.swapTodayPrompt env installDate w).1
  = Ok (promptUtils.mkSwap true (Some p) None) ->
  exists s current,
    settings (db w) !! "main" = Some s
    /\ promptUtils.getTodayPrompt env installDate (prompts (db w)) = Ok (Some current)
    /\ db (promptUtils.swapTodayPrompt env installDate w).2
       = mkStore (<[s_id s := promptUtils.with_swap (promptUtils.getTodayString env) (p_id p) s]>
                    (settings (db w)))
                 (prompts (db w)) (entries (db w)) (streakSummary (db w))
    /\ p ∈ prompts (db w) /\ source p = seed /\ archived p = false
    /\ p_id p <> p_id current /\ Some (p_id p) <> lastPromptId s.
Proof.
  set (Q := fun (r : Result promptUtils.SwapResult) (w' : World) =>
    r = Ok (promptUtils.mkSwap true (Some p) None) ->
    exists s current,
      settings (db w) !! "main" = Some s
      /\ promptUtils.getTodayPrompt env installDate (prompts (db w)) = Ok (Some current)
      /\ db w' = mkStore (<[s_id s := promptUtils.with_swap (promptUtils.getTodayString env) (p_id p) s]>
                            (settings (db w)))
                         (prompts (db w)) (entries (db w)) (streakSummary (db w))
      /\ p ∈ prompts (db w) /\ source p = seed /\ archived p = false
      /\ p_id p <> p_id current /\ Some (p_id p) <> lastPromptId s).
  assert (H : wp (promptUtils.swapTodayPrompt env installDate) Q w); [|exact H].
  unfold promptUtils.swapTodayPrompt, settings_get, prompts_toArray, settings_put.
  wp_step. wp_step. wp_step; [by wp_step|].
  destruct (settings (db w) !! "main") as [s|] eqn:Hs; [|by wp_step].
  destruct (negb _); [by wp_step|].
  wp_step. wp_step; [by wp_step|]. wp_step. wp_step.
  destruct (promptUtils.getTodayPrompt env installDate (prompts (db w))) as [[current|]|e] eqn:Ht;
    [| wp_step; by wp_step | by wp_step].
  wp_step. wp_step.
  destruct (promptUtils.getSwapPrompt env (p_id current) (lastPromptId s) (prompts (db w)))
    as [new|e] eqn:Hn; [|by wp_step].
  destruct (String.eqb_spec (p_id new) (p_id current)) as [|Hne]; [by wp_step|].
  wp_step. wp_step; [by wp_step|]. wp_step.
  intros [= <-]. exists s, current.
  apply getSwapPrompt_spec in Hn as [Hin [H|[H _]]]; [|done].
  split_and!; try done; tauto.
Qed.

(** X10. A successful [swapTodayPrompt] wrote exactly one thing: the
    settings row with [swapUsedDate] and [lastPromptDate] set to today's
    local date and [lastPromptId] set to the id of the new prompt. The new
    prompt is an active seed prompt of the table, it is not today's default
    prompt and not the prompt in the old [lastPromptId], and the other
    three tables are untouched. *)
Theorem swapTodayPrompt_success_effect env installDate w p :
  (promptUtils.swapTodayPrompt env installDate w).1
  = Ok (promptUtils.mkSwap true (Some p) None) ->
  exists s current,
    settings (db w) !! "main" = Some s
    /\ promptUtils.getTodayPrompt env installDate (prompts (db w)) = Ok (Some current)
    /\ db (promptUtils.swapTodayPrompt env installDate w).2
       = mkStore (<[s_id s := promptUtils.with_swap (promptUtils.getTodayString env) (p_id p) s]>
                    (settings (db w)))
                 (prompts (db w)) (entries (db w)) (streakSummary (db w))
    /\ p ∈ prompts (db w) /\ source p = seed /\ archived p = false
    /\ p_id p <> p_id current /\ Some (p_id p) <> lastPromptId s.
Proof. apply swapTodayPrompt_success_spec. Qed.

Lemma swapTodayPrompt_success_effect_witness :
  exists s current,
    settings (db freshInstall) !! "main" = Some s
    /\ promptUtils.getTodayPrompt (noon 0) (installAt installedSettings) (prompts (db freshInstall))
       = Ok (Some current)
    /\ db (promptUtils.swapTodayPrompt (noon 0) (installAt installedSettings) freshInstall).2
       = mkStore (<[s_id s := promptUtils.with_swap (promptUtils.getTodayString (noon 0))
                                (p_id (hd thirdSeed (prompts (db freshInstall)))) s]>
                    (settings (db freshInstall)))
                 (prompts (db freshInstall)) (entries (db freshInstall))
                 (streakSummary (db freshInstall))
    /\ hd thirdSeed (prompts (db freshInstall)) ∈ prompts (db freshInstall)
    /\ source (hd thirdSeed (prompts (db freshInstall))) = seed
    /\ archived (hd thirdSeed (prompts (db freshInstall))) = false
    /\ p_id (hd thirdSeed (prompts (db freshInstall))) <> p_id current
    /\ Some (p_id (hd thirdSeed (prompts (db freshInstall)))) <> lastPromptId s.
Proof.
  apply (swapTodayPrompt_success_effect (noon 0) (installAt installedSettings) freshInstall).
  vm_compute. reflexivity.
Defined.

Lemma find_by_id (ps : list Prompt) p :
  NoDup (p_id <$> ps) -> p ∈ ps ->
  List.find (fun q => JS.str_eq (Some (p_id q)) (Some (p_id p))) ps = Some p.
Proof.
  induction ps as [|q ps IH]; intros Hnd Hin; [by apply elem_of_nil in Hin|].
  csimpl in Hnd. apply NoDup_cons in Hnd as [Hq Hnd]. cbn [List.find].
  apply elem_of_cons in Hin as [->|Hin].
  - replace (JS.str_eq _ _) with true; [done|]. symmetry. by apply str_eq_true.
  - replace (JS.str_eq _ _) with false; [by apply IH|].
    symmetry. apply not_true_is_false. intros E. apply str_eq_true in E. injection E as E.
    apply Hq. rewrite E. by apply list_elem_of_fmap_2.
Qed.

(** X11. After a successful swap on a working store, [getCurrentPrompt]
    returns the prompt the swap chose, at any time of the same local day
    and whatever install date it is given, provided the settings row is
    stored under its own [id], the prompt ids are distinct and the id of
    the new prompt is not empty. *)
Theorem swapped_prompt_is_current env env' installDate installDate' w p :
  faults w = [] ->
  (forall s, settings (db w) !! "main" = Some s -> s_id s = "main") ->
  NoDup (p_id <$> prompts (db w)) ->
  p_id p <> EmptyString ->
  promptUtils.getTodayString env' = promptUtils.getTodayString env ->
  (promptUtils.swapTodayPrompt env installDate w).1
  = Ok (promptUtils.mkSwap true (Some p) None) ->
  (promptUtils.getCurrentPrompt env' installDate'
     (promptUtils.swapTodayPrompt env installDate w).2).1 = Ok (Some p).
Proof.
  intros Hf Hid Hnd Hne Hday Hswap.
  assert (Hfaults : faults (promptUtils.swapTodayPrompt env installDate w).2 = []).
  { assert (H : wp (promptUtils.swapTodayPrompt env installDate) (fun _ w' => faults w' = []) w);
      [|exact H].
    assert (Hacc : forall A (f : Store -> A * Store) (Q : Result A -> World -> Prop) w1,
              faults w1 = [] ->
              (forall w2, faults w2 = [] -> Q (Ok (f (db w1)).1) w2) -> wp (access f) Q w1).
    { intros A f Q w1 H1 H2. apply wp_access_works; [done|]. by apply H2. }
    unfold promptUtils.swapTodayPrompt, settings_get, prompts_toArray, settings_put.
    wp_step. wp_step. apply Hacc; [done|]. intros w1 H1. cbn [fst snd]. cbv beta iota.
    destruct (settings (db w) !! "main"); [|by wp_step].
    destruct (negb _); [by wp_step|].
    wp_step. apply Hacc; [done|]. intros w2 H2. cbn [fst snd]. cbv beta iota. wp_step. wp_step.
    destruct (promptUtils.getTodayPrompt _ _ _) as [[c|]|]; [|wp_step; by wp_step|by wp_step].
    wp_step. wp_step. destruct (promptUtils.getSwapPrompt _ _ _ _); [|by wp_step].
    destruct (String.eqb _ _); [by wp_step|].
    wp_step. apply Hacc; [done|]. intros w3 H3. cbn [fst snd]. cbv beta iota. by wp_step. }
  destruct (swapTodayPrompt_success_spec env installDate w p Hswap)
    as (s & current & Hs & _ & Hdb & Hin & _).
  set (w' := (promptUtils.swapTodayPrompt env installDate w).2) in *.
  assert (H : wp (promptUtils.getCurrentPrompt env' installDate') (fun r _ => r = Ok (Some p)) w');
    [|exact H].
  unfold promptUtils.getCurrentPrompt, settings_get, prompts_toArray.
  wp_step. wp_step. apply wp_access_works; [done|]. cbn [fst snd].
  rewrite Hdb. cbn [settings]. rewrite (Hid s Hs), lookup_insert_eq.
  cbn [mbind option_bind promptUtils.with_swap swapUsedDate lastPromptId].
  rewrite Hday.
  replace (JS.str_eq _ _) with true by (symmetry; by apply str_eq_true).
  replace (JS.truthy (Some (p_id p))) with true by (by destruct (p_id p)).
  cbn [andb]. wp_step. wp_step. apply wp_access_works; [done|]. cbn [fst snd db prompts].
  wp_step. rewrite (find_by_id _ p Hnd Hin). by wp_step.
Qed.

Lemma swapped_prompt_is_current_witness :
  (promptUtils.getCurrentPrompt (noon 0) "2023-06-01T00:00:00.000Z"
     (promptUtils.swapTodayPrompt (noon 0) (installAt installedSettings) freshInstall).2).1
  = Ok (Some (hd thirdSeed (prompts (db freshInstall)))).
Proof.
  apply (swapped_prompt_is_current (noon 0) (noon 0) (installAt installedSettings)
           "2023-06-01T00:00:00.000Z" freshInstall).
  - reflexivity.
  - intros s. vm_compute. intros [= <-]. reflexivity.
  - refine (bool_decide_unpack _ _). vm_compute. exact I.
  - vm_compute. discriminate.
  - reflexivity.
  - vm_compute. reflexivity.
Defined.

Lemma seedRows_seed env r : r ∈ promptUtils.seedRows env -> source r = seed.
Proof.
  unfold promptUtils.seedRows. intros H. apply list_elem_of_lookup_1 in H as [i H].
  rewrite list_lookup_imap in H. destruct (SEED_PROMPTS !! i); [|done].
  cbn in H. by injection H as <-.
Qed.

Lemma has_seed_count (ps : list Prompt) r :
  r ∈ ps -> source r = seed ->
  Nat.ltb 0 (length (List.filter (fun p => match source p with seed => true | user => false end) ps))
  = true.
Proof.
  intros Hin Hseed. apply Nat.ltb_lt.
  assert (H : In r (List.filter (fun p => match source p with seed => true | user => false end) ps)).
  { apply filter_In. split; [by apply list_elem_of_In|]. by rewrite Hseed. }
  destruct (List.filter _ ps); [done|]. cbn. lia.
Qed.

Lemma hasKey_true id table : hasKey id table = true <-> exists p, p ∈ table /\ p_id p = id.
Proof.
  unfold hasKey. rewrite existsb_exists. split.
  - intros (p & Hin & Heq). exists p. split; [by apply list_elem_of_In|].
    by apply String.eqb_eq.
  - intros (p & Hin & Heq). exists p. split; [by apply list_elem_of_In|].
    by apply String.eqb_eq.
Qed.

Lemma hasKey_false id table : hasKey id table = false <-> forall p, p ∈ table -> p_id p <> id.
Proof.
  rewrite <- not_true_iff_false, hasKey_true. split.
  - intros H p Hin Heq. apply H. by exists p.
  - intros H (p & Hin & Heq). by apply (H p).
Qed.

Lemma insertByKey_Permutation row table : insertByKey row table ≡ₚ row :: table.
Proof.
  induction table as [|p rest IH]; [done|]. cbn [insertByKey].
  destruct (String.leb (p_id row) (p_id p)); [done|].
  rewrite IH. apply Permutation_swap.
Qed.

Lemma hasKey_Permutation id t1 t2 : t1 ≡ₚ t2 -> hasKey id t1 = hasKey id t2.
Proof.
  intros Hperm. apply eq_true_iff_eq. rewrite !hasKey_true.
  split; intros (p & Hin & Heq); exists p; split; try done.
  - by rewrite <- Hperm.
  - by rewrite Hperm.
Qed.

Lemma hasKey_insertByKey id row table :
  hasKey id (insertByKey row table) = String.eqb (p_id row) id || hasKey id table.
Proof. by rewrite (hasKey_Permutation _ _ _ (insertByKey_Permutation row table)). Qed.

(** Rows whose keys are all taken leave the table as it is. *)
Lemma addRows_all_taken rows table :
  (forall row, row ∈ rows -> hasKey (p_id row) table = true) -> (addRows rows table).1 = table.
Proof.
  induction rows as [|row rows IH]; intros Htaken; [done|]. cbn [addRows].
  rewrite Htaken by left. cbn [fst]. apply IH. intros r Hr. apply Htaken. by right.
Qed.

(** [bulkAdd] of rows with distinct keys: the rows with a free key go in,
    and the call succeeds when that is every row. *)
Lemma addRows_spec rows : NoDup (p_id <$> rows) -> forall table,
  (addRows rows table).1 ≡ₚ table ++ freeRows rows table
  /\ (addRows rows table).2 = forallb (fun row => negb (hasKey (p_id row) table)) rows.
Proof.
  unfold freeRows.
  induction rows as [|row rows IH]; intros Hnd table.
  { cbn. by rewrite app_nil_r. }
  apply NoDup_cons in Hnd as [Hfresh Hnd]. cbn [addRows List.filter forallb].
  destruct (hasKey (p_id row) table) eqn:Hrow; cbn [negb fst snd andb].
  { destruct (IH Hnd table) as [H1 _]. by split. }
  destruct (IH Hnd (insertByKey row table)) as [H1 H2].
  assert (Hsame : forall r, r ∈ rows ->
            hasKey (p_id r) (insertByKey row table) = hasKey (p_id r) table).
  { intros r Hr. rewrite hasKey_insertByKey.
    destruct (String.eqb_spec (p_id row) (p_id r)) as [Heq|]; [|done].
    exfalso. apply Hfresh. rewrite Heq. by apply list_elem_of_fmap_2. }
  split.
  - rewrite H1, insertByKey_Permutation.
    rewrite (filter_ext_in _ (fun r => negb (hasKey (p_id r) table))).
    + cbn [app]. apply Permutation_middle.
    + intros r Hr. f_equal. apply Hsame. by apply list_elem_of_In.
  - rewrite H2. clear -Hsame. induction rows as [|r rows IH']; [done|].
    cbn [forallb]. rewrite Hsame by left. f_equal. apply IH'.
    intros r' Hr'. apply Hsame. by right.
Qed.

Lemma seedRows_keys env :
  p_id <$> promptUtils.seedRows env
  = ["seed-1"; "seed-2"; "seed-3"; "seed-4"; "seed-5"; "seed-6"; "seed-7"; "seed-8"; "seed-9";
     "seed-10"].
Proof. reflexivity. Qed.

Lemma seedRows_NoDup env : NoDup (p_id <$> promptUtils.seedRows env).
Proof. rewrite seedRows_keys. apply (bool_decide_unpack _). vm_compute. exact I. Qed.

Lemma seed_count_has (ps : list Prompt) :
  Nat.ltb 0 (length (List.filter (fun p => match source p with seed => true | user => false end) ps))
  = true ->
  exists q, q ∈ ps /\ source q = seed.
Proof.
  intros H. apply Nat.ltb_lt in H.
  destruct (List.filter _ ps) as [|q l] eqn:E; [cbn in H; lia|].
  assert (Hq : In q (List.filter (fun p => match source p with seed => true | user => false end) ps))
    by (rewrite E; by left).
  apply filter_In in Hq as [Hin Hs]. exists q. split; [by apply list_elem_of_In|].
  by destruct (source q).
Qed.

Lemma seed_count_none (ps : list Prompt) :
  Nat.ltb 0 (length (List.filter (fun p => match source p with seed => true | user => false end) ps))
  = false ->
  forall q, q ∈ ps -> source q = user.
Proof.
  intros H q Hq. destruct (source q) eqn:Hs; [|done].
  by rewrite (has_seed_count ps q Hq Hs) in H.
Qed.

(** X12. [initializeSeedPrompts] writes nothing but the prompts table and
    keeps every stored prompt. On a working store: when a seed prompt is
    stored it returns and changes nothing; when none is stored, the table
    afterwards holds the stored prompts and the catalog rows whose key
    ["seed-1"] to ["seed-10"] was free, and the call returns when every key
    was free and rejects with a [BulkError] when a stored prompt has one of
    them, the rows with a free key staying added. A second call, at any
    later time, leaves the store as the first call left it. *)
Theorem initializeSeedPrompts_idempotent env env' w :
  faults w = [] ->
  settings (db (promptUtils.initializeSeedPrompts env w).2) = settings (db w)
  /\ entries (db (promptUtils.initializeSeedPrompts env w).2) = entries (db w)
  /\ streakSummary (db (promptUtils.initializeSeedPrompts env w).2) = streakSummary (db w)
  /\ ((exists q, q ∈ prompts (db w) /\ source q = seed) ->
      promptUtils.initializeSeedPrompts env w = (Ok tt, w))
  /\ ((forall q, q ∈ prompts (db w) -> source q = user) ->
      prompts (db (promptUtils.initializeSeedPrompts env w).2)
      ≡ₚ prompts (db w) ++ freeRows (promptUtils.seedRows env) (prompts (db w))
      /\ ((forall row q, row ∈ promptUtils.seedRows env -> q ∈ prompts (db w) ->
             p_id q <> p_id row) ->
          (promptUtils.initializeSeedPrompts env w).1 = Ok tt)
      /\ ((exists row q, row ∈ promptUtils.seedRows env /\ q ∈ prompts (db w)
                         /\ p_id q = p_id row) ->
          (promptUtils.initializeSeedPrompts env w).1 = Throw "BulkError"))
  /\ (promptUtils.initializeSeedPrompts env'
        (promptUtils.initializeSeedPrompts env w).2).2
     = (promptUtils.initializeSeedPrompts env w).2.
Proof.
  intros Hf. destruct w as [[st ps es ss] q fs]. cbn [faults] in Hf. subst fs.
  cbv [promptUtils.initializeSeedPrompts prompts_bulkAdd mbind M_bind bind ret access db
       eventQueue faults settings prompts entries streakSummary].
  set (isSeed := fun p : Prompt => match source p with seed => true | user => false end).
  destruct (Nat.ltb 0 (length (List.filter isSeed ps))) eqn:E.
  - cbn [fst snd db prompts settings entries streakSummary].
    cbv [mbind M_bind bind ret access db eventQueue faults prompts]. fold isSeed. rewrite E.
    split_and!; try done.
    intros Huser. apply seed_count_has in E as (s & Hs & Hseed).
    rewrite (Huser s Hs) in Hseed. discriminate.
  - pose proof (seed_count_none ps E) as Huser.
    destruct (addRows_spec (promptUtils.seedRows env) (seedRows_NoDup env) ps) as [Hperm Hok].
    destruct (addRows (promptUtils.seedRows env) ps) as [table allAdded] eqn:Eadd.
    cbn [fst snd] in Hperm, Hok.
    assert (Hres : forall (b : bool) (w0 : World),
              ((if b then ret tt else throw "BulkError") w0).1
              = if b then Ok tt else Throw "BulkError") by (by intros []).
    assert (Hw : forall (b : bool) (w0 : World),
              ((if b then ret tt else throw "BulkError") w0).2 = w0) by (by intros []).
    cbn [fst snd]. rewrite !Hw. cbn [db prompts settings entries streakSummary].
    split_and!; try done.
    + intros (s & Hs & Hseed). rewrite (Huser s Hs) in Hseed. discriminate.
    + intros _. split_and!; [done| |].
      * intros Hfree. rewrite Hres, Hok.
        replace (forallb _ _) with true; [done|]. symmetry. apply forallb_forall.
        intros row Hrow. apply negb_true_iff, hasKey_false.
        intros p Hp. apply Hfree; [by apply list_elem_of_In|done].
      * intros (row & p & Hrow & Hp & Heq). rewrite Hres, Hok.
        replace (forallb _ _) with false; [done|]. symmetry. apply not_true_iff_false.
        intros Hall. rewrite forallb_forall in Hall.
        specialize (Hall row (proj1 (list_elem_of_In _ _) Hrow)).
        apply negb_true_iff in Hall. rewrite hasKey_false in Hall. by apply (Hall p).
    + cbv [mbind M_bind bind ret access db eventQueue faults prompts]. fold isSeed.
      destruct (forallb (fun row => hasKey (p_id row) ps) (promptUtils.seedRows env)) eqn:Hall.
      * assert (Htable : table = ps).
        { change table with (table, allAdded).1. rewrite <- Eadd. apply addRows_all_taken.
          intros row Hrow. rewrite forallb_forall in Hall. apply Hall. by apply list_elem_of_In. }
        subst table. rewrite E.
        assert (Hall' : forall row, row ∈ promptUtils.seedRows env' -> hasKey (p_id row) ps = true).
        { intros row Hrow.
          assert (Hkey : p_id row ∈ p_id <$> promptUtils.seedRows env).
          { rewrite seedRows_keys, <- (seedRows_keys env'). by apply list_elem_of_fmap_2. }
          apply list_elem_of_fmap in Hkey as (r & Heq & Hr). rewrite Heq.
          rewrite forallb_forall in Hall. apply Hall. by apply list_elem_of_In. }
        pose proof (addRows_all_taken _ _ Hall') as Htable.
        destruct (addRows (promptUtils.seedRows env') ps) as [table' allAdded'].
        cbn [fst] in Htable. subst table'. by destruct allAdded'.
      * assert (Hsome : exists row, row ∈ freeRows (promptUtils.seedRows env) ps).
        { apply not_true_iff_false in Hall.
          destruct (freeRows (promptUtils.seedRows env) ps) as [|row l] eqn:Efree.
          - exfalso. apply Hall, forallb_forall. intros row Hrow.
            destruct (hasKey (p_id row) ps) eqn:Hk; [done|].
            assert (Hin : In row (freeRows (promptUtils.seedRows env) ps)).
            { apply filter_In. by rewrite Hk. }
            by rewrite Efree in Hin.
          - exists row. by left. }
        destruct Hsome as [row Hrow].
        assert (Hseed : source row = seed).
        { apply (seedRows_seed env). apply list_elem_of_In in Hrow.
          apply filter_In in Hrow as [Hrow _]. by apply list_elem_of_In. }
        unfold isSeed. rewrite (has_seed_count table row); [done| |done].
        rewrite Hperm. apply elem_of_app. by right.
Qed.

Lemma initializeSeedPrompts_idempotent_witness :
  settings (db (promptUtils.initializeSeedPrompts (noon 0) clashingPrompts).2)
  = settings (db clashingPrompts)
  /\ entries (db (promptUtils.initializeSeedPrompts (noon 0) clashingPrompts).2)
     = entries (db clashingPrompts)
  /\ streakSummary (db (promptUtils.initializeSeedPrompts (noon 0) clashingPrompts).2)
     = streakSummary (db clashingPrompts)
  /\ ((exists q, q ∈ prompts (db clashingPrompts) /\ source q = seed) ->
      promptUtils.initializeSeedPrompts (noon 0) clashingPrompts = (Ok tt, clashingPrompts))
  /\ ((forall q, q ∈ prompts (db clashingPrompts) -> source q = user) ->
      prompts (db (promptUtils.initializeSeedPrompts (noon 0) clashingPrompts).2)
      ≡ₚ prompts (db clashingPrompts)
         ++ freeRows (promptUtils.seedRows (noon 0)) (prompts (db clashingPrompts))
      /\ ((forall row q, row ∈ promptUtils.seedRows (noon 0) -> q ∈ prompts (db clashingPrompts) ->
             p_id q <> p_id row) ->
          (promptUtils.initializeSeedPrompts (noon 0) clashingPrompts).1 = Ok tt)
      /\ ((exists row q, row ∈ promptUtils.seedRows (noon 0) /\ q ∈ prompts (db clashingPrompts)
                         /\ p_id q = p_id row) ->
          (promptUtils.initializeSeedPrompts (noon 0) clashingPrompts).1 = Throw "BulkError"))
  /\ (promptUtils.initializeSeedPrompts (noon 9)
        (promptUtils.initializeSeedPrompts (noon 0) clashingPrompts).2).2
     = (promptUtils.initializeSeedPrompts (noon 0) clashingPrompts).2.
Proof.
  apply (initializeSeedPrompts_idempotent (noon 0) (noon 9) clashingPrompts).
  reflexivity.
Defined.

(** The clash at work: with a prompt of the user stored under ["seed-3"],
    the call rejects and leaves the nine other catalog rows added. *)
Lemma initializeSeedPrompts_rejects_on_taken_key :
  (promptUtils.initializeSeedPrompts (noon 0) clashingPrompts).1 = Throw "BulkError"
  /\ p_id <$> prompts (db (promptUtils.initializeSeedPrompts (noon 0) clashingPrompts).2)
     = ["seed-1"; "seed-10"; "seed-2"; "seed-3"; "seed-4"; "seed-5"; "seed-6"; "seed-7";
        "seed-8"; "seed-9"]
  /\ source <$> List.filter (fun p => String.eqb (p_id p) "seed-3")
                  (prompts (db (promptUtils.initializeSeedPrompts (noon 0) clashingPrompts).2))
     = [user].
Proof. vm_compute. done. Qed.

(** X13. The fallback prompt always comes from the seed catalog, for every
    clock and every install date, parseable or not: it is an unarchived
    seed prompt whose text and gratitude prompt are those of a catalog
    entry. Its id is either ["fallback-1"], with the first entry, or the id
    of the row [initializeSeedPrompts] stores for that entry. *)
Theorem getFallbackPrompt_from_catalog env env0 installDate :
  archived (promptUtils.getFallbackPrompt env installDate) = false
  /\ source (promptUtils.getFallbackPrompt env installDate) = seed
  /\ exists (i : nat) s,
       SEED_PROMPTS !! i = Some s
       /\ p_text (promptUtils.getFallbackPrompt env installDate) = seed_text s
       /\ gratitude_prompt (promptUtils.getFallbackPrompt env installDate) = Some (seed_gratitude s)
       /\ ((i = 0%nat /\ p_id (promptUtils.getFallbackPrompt env installDate) = "fallback-1")
           \/ exists r, promptUtils.seedRows env0 !! i = Some r
                        /\ p_id r = p_id (promptUtils.getFallbackPrompt env installDate)
                        /\ p_text r = p_text (promptUtils.getFallbackPrompt env installDate)
                        /\ gratitude_prompt r
                           = gratitude_prompt (promptUtils.getFallbackPrompt env installDate)).
Proof.
  unfold promptUtils.getFallbackPrompt.
  destruct (_ <$> promptUtils.daysSinceInstall env installDate) as [i|] eqn:Hi.
  - destruct (promptUtils.at_index SEED_PROMPTS (Some i)) as [s|] eqn:Hs.
    + cbn [archived source p_text gratitude_prompt p_id]. split; [done|]. split; [done|].
      unfold promptUtils.at_index in Hs. destruct (Z.ltb_spec i 0) as [|Hpos]; [done|].
      exists (Z.to_nat i), s. split_and!; try done. right.
      unfold promptUtils.seedRows. rewrite list_lookup_imap, Hs. cbn.
      eexists. split; [reflexivity|]. cbn. rewrite Z2Nat.id by done. done.
    + cbn [archived source p_text gratitude_prompt p_id]. split; [done|]. split; [done|].
      exists 0%nat, promptUtils.firstSeed. split_and!; try done. by left.
  - cbn [archived source p_text gratitude_prompt p_id]. split; [done|]. split; [done|].
    exists 0%nat, promptUtils.firstSeed. split_and!; try done. by left.
Qed.

(* ===================================================================== *)
(** * The telemetry service on a working store                            *)
(* ===================================================================== *)

Lemma bind_run {A B} (m : M A) (k : A -> M B) w a w' :
  m w = (Ok a, w') -> (m ≫= k) w = k a w'.
Proof. unfold mbind, M_bind, bind. by intros ->. Qed.

Lemma rowIs_withRow s s' w : rowIs s w -> s_id s' = "main" -> rowIs s' (withRow s' w).
Proof.
  intros (Hf & _ & _) Hid. split_and!; [done| |done]. cbn. apply lookup_insert_eq.
Qed.

Lemma withRow_same s w : rowIs s w -> withRow s w = w.
Proof.
  intros (Hf & Hs & _). destruct w as [[st ps es ss] q fs]. unfold withRow. cbn in *.
  by rewrite insert_id.
Qed.

Lemma withRow_withRow s s' w : withRow s' (withRow s w) = withRow s' w.
Proof. unfold withRow. cbn. by rewrite insert_insert_eq. Qed.

Lemma getTelemetrySettings_works s w :
  rowIs s w -> TelemetryService.getTelemetrySettings w = (Ok (Some (telemetryOf s)), w).
Proof.
  intros (Hf & Hs & _). destruct w as [d q fs]. cbn in *. subst fs.
  cbv [TelemetryService.getTelemetrySettings try_catch settings_get mbind M_bind bind ret access
       db eventQueue faults].
  by rewrite Hs.
Qed.

Lemma updateTelemetrySettings_works updates s w :
  rowIs s w ->
  TelemetryService.updateTelemetrySettings updates w = (Ok tt, withRow (applyUpdates updates s) w).
Proof.
  intros (Hf & Hs & Hid). destruct w as [d q fs]. cbn in *. subst fs.
  cbv [TelemetryService.updateTelemetrySettings try_catch settings_get settings_put mbind M_bind
       bind ret access db eventQueue faults].
  rewrite Hs. unfold withRow, applyUpdates.
  cbn [s_id db settings prompts entries streakSummary eventQueue faults].
  rewrite Hid. reflexivity.
Qed.

Lemma truthy_anonIdFor env s : JS.truthy (Some (anonIdFor env s)) = true.
Proof.
  unfold anonIdFor. destruct (telemetryAnonId s) as [[|c r]|]; done.
Qed.

Lemma createEvent_works env eventType dayNumber s w :
  rowIs s w ->
  TelemetryService.createEvent env eventType dayNumber w
  = (Ok (eventOf env eventType dayNumber (anonIdFor env s)),
     withRow (applyUpdates (mkUpdates None (Some (anonIdFor env s)) None None None None) s) w).
Proof.
  intros Hrow. unfold TelemetryService.createEvent.
  rewrite (bind_run _ _ _ _ _ (getTelemetrySettings_works s w Hrow)).
  cbn [mbind option_bind anonId telemetryOf]. fold (anonIdFor env s).
  destruct (JS.truthy (telemetryAnonId s)) eqn:T; cbn [negb].
  - assert (Hsame : applyUpdates (mkUpdates None (Some (anonIdFor env s)) None None None None) s = s).
    { unfold anonIdFor. rewrite T. destruct s as [? ? ? ? ? ? ? ? ? [a|]]; done. }
    rewrite Hsame, (withRow_same s w Hrow). reflexivity.
  - rewrite (bind_run _ _ _ _ _ (updateTelemetrySettings_works _ s w Hrow)). reflexivity.
Qed.

(** X14. While the user has not opted in, the three event triggers do
    nothing at all, whatever the store does: no event is enqueued and no
    table is written. *)
Theorem nothing_enqueued_while_opted_out env w :
  (forall s, settings (db w) !! "main" = Some s -> telemetryOptIn s = false) ->
  (eventQueue (TelemetryService.sendActivationEvent env w).2 = eventQueue w
   /\ db (TelemetryService.sendActivationEvent env w).2 = db w)
  /\ (eventQueue (TelemetryService.sendDailyCompletionEvent env w).2 = eventQueue w
      /\ db (TelemetryService.sendDailyCompletionEvent env w).2 = db w)
  /\ (eventQueue (TelemetryService.sendD7CompletionEvent env w).2 = eventQueue w
      /\ db (TelemetryService.sendD7CompletionEvent env w).2 = db w).
Proof.
  intros Hout.
  set (Q := fun (_ : Result unit) (w' : World) => eventQueue w' = eventQueue w /\ db w' = db w).
  assert (Hget : forall k : option TelemetrySettings -> M unit,
            (forall w', eventQueue w' = eventQueue w -> db w' = db w -> wp (k None) Q w') ->
            (forall s w', telemetryOptIn s = false -> eventQueue w' = eventQueue w ->
                          db w' = db w -> wp (k (Some (telemetryOf s))) Q w') ->
            wp (TelemetryService.getTelemetrySettings ≫= k) Q w).
  { intros k HNone HSome. unfold TelemetryService.getTelemetrySettings, settings_get.
    wp_step. wp_step. wp_step. wp_step.
    - wp_step. by apply HNone.
    - destruct (settings (db w) !! "main") as [s|] eqn:Hs.
      + wp_step. apply HSome; [by apply Hout|done..].
      + wp_step. by apply HNone. }
  split; [|split].
  - assert (H : wp (TelemetryService.sendActivationEvent env) Q w); [|exact H].
    apply Hget.
    + intros w' H1 H2. cbv beta iota. by wp_step.
    + intros s w' Hs H1 H2. cbv beta iota. cbn [isOptedIn telemetryOf]. rewrite Hs. cbn [negb orb]. by wp_step.
  - assert (H : wp (TelemetryService.sendDailyCompletionEvent env) Q w); [|exact H].
    apply Hget.
    + intros w' H1 H2. cbv beta iota. by wp_step.
    + intros s w' Hs H1 H2. cbv beta iota. cbn [isOptedIn telemetryOf]. rewrite Hs. cbn [negb orb]. by wp_step.
  - assert (H : wp (TelemetryService.sendD7CompletionEvent env) Q w); [|exact H].
    apply Hget.
    + intros w' H1 H2. cbv beta iota. by wp_step.
    + intros s w' Hs H1 H2. cbv beta iota. cbn [isOptedIn telemetryOf]. rewrite Hs. cbn [negb orb]. by wp_step.
Qed.

Lemma nothing_enqueued_while_opted_out_witness :
  (eventQueue (TelemetryService.sendActivationEvent (noon 0) (installed installedSettings)).2
   = eventQueue (installed installedSettings)
   /\ db (TelemetryService.sendActivationEvent (noon 0) (installed installedSettings)).2
      = db (installed installedSettings))
  /\ (eventQueue (TelemetryService.sendDailyCompletionEvent (noon 0) (installed installedSettings)).2
      = eventQueue (installed installedSettings)
      /\ db (TelemetryService.sendDailyCompletionEvent (noon 0) (installed installedSettings)).2
         = db (installed installedSettings))
  /\ (eventQueue (TelemetryService.sendD7CompletionEvent (noon 0) (installed installedSettings)).2
      = eventQueue (installed installedSettings)
      /\ db (TelemetryService.sendD7CompletionEvent (noon 0) (installed installedSettings)).2
         = db (installed installedSettings)).
Proof.
  apply (nothing_enqueued_while_opted_out (noon 0) (installed installedSettings)).
  intros s. vm_compute. intros [= <-]. reflexivity.
Defined.

Lemma rowIs_pushed s e w : rowIs s w -> rowIs s (pushed e w).
Proof. done. Qed.

Lemma pushed_withRow e s w : pushed e (withRow s w) = withRow s (pushed e w).
Proof. reflexivity. Qed.

Lemma enqueue_run e w : TelemetryService.enqueue e w = (Ok tt, pushed e w).
Proof. reflexivity. Qed.

Lemma seq_run {A B} (m : M A) (k : M B) w a w' :
  m w = (Ok a, w') -> (m ;; k) w = k w'.
Proof. unfold mbind, M_bind, bind. by intros ->. Qed.

Lemma s_id_applyUpdates updates s : s_id (applyUpdates updates s) = s_id s.
Proof. done. Qed.

(** ** Opting out and in *)

Lemma optOut_works s w :
  rowIs s w ->
  TelemetryService.optOut w
  = (Ok tt,
     mkWorld (db (withRow (applyUpdates (mkUpdates (Some false) None (Some false) (Some 0) None
                                                   (Some false)) s) w)) [] []).
Proof.
  intros Hrow. unfold TelemetryService.optOut.
  rewrite (seq_run _ _ _ _ _ (updateTelemetrySettings_works _ s w Hrow)).
  unfold TelemetryService.setQueue, withRow. cbn [db eventQueue faults].
  destruct Hrow as [-> _]. reflexivity.
Qed.

Lemma sendActivationEvent_works env s w :
  rowIs s w -> telemetryOptIn s = true -> telemetryActivationSent s <> Some true ->
  TelemetryService.sendActivationEvent env w
  = (Ok tt,
     withRow (applyUpdates (mkUpdates None None (Some true) None None None)
                (applyUpdates (mkUpdates None (Some (anonIdFor env s)) None None None None) s))
             (pushed (eventOf env activation None (anonIdFor env s)) w)).
Proof.
  intros Hrow Hin Hact. unfold TelemetryService.sendActivationEvent.
  rewrite (bind_run _ _ _ _ _ (getTelemetrySettings_works s w Hrow)).
  cbn [isOptedIn activationSent telemetryOf]. rewrite Hin.
  replace (default false (telemetryActivationSent s)) with false
    by (by destruct (telemetryActivationSent s) as [[]|]).
  cbn [negb orb].
  rewrite (bind_run _ _ _ _ _ (createEvent_works env activation None s w Hrow)).
  set (s1 := applyUpdates _ s).
  assert (Hrow1 : rowIs s1 (withRow s1 w)) by (apply (rowIs_withRow s); [done|apply Hrow]).
  rewrite (seq_run _ _ _ _ _ (enqueue_run _ _)).
  rewrite (updateTelemetrySettings_works _ s1 _ (rowIs_pushed s1 _ _ Hrow1)).
  f_equal. unfold withRow, pushed. cbn. by rewrite insert_insert_eq.
Qed.

Lemma optIn_works env s w :
  rowIs s w ->
  TelemetryService.optIn env w
  = (if negb (default false (telemetryActivationSent s))
     then TelemetryService.sendActivationEvent env
     else ret tt)
      (withRow (applyUpdates (mkUpdates (Some true) (Some (anonIdFor env s)) None None None None) s) w).
Proof.
  intros Hrow. unfold TelemetryService.optIn.
  rewrite (bind_run _ _ _ _ _ (getTelemetrySettings_works s w Hrow)).
  cbn [anonId activationSent telemetryOf]. fold (anonIdFor env s).
  by rewrite (seq_run _ _ _ _ _ (updateTelemetrySettings_works _ s w Hrow)).
Qed.

Lemma anonIdFor_stored env s a :
  telemetryAnonId s = Some a -> JS.truthy (Some a) = true -> anonIdFor env s = a.
Proof. unfold anonIdFor. intros -> ->. done. Qed.

(** X15. [optIn] on a working store whose activation event was not sent
    yet sets the opt-in flag, stores an anonymous id (the one already
    stored, if any), enqueues exactly one [activation] event under that id
    and marks the activation as sent; calling [optIn] again, at any time,
    changes nothing. *)
Theorem optIn_sends_one_activation env env' w s :
  faults w = [] -> settings (db w) !! "main" = Some s -> s_id s = "main" ->
  telemetryActivationSent s <> Some true ->
  exists s1 e,
    settings (db (TelemetryService.optIn env w).2) !! "main" = Some s1
    /\ telemetryOptIn s1 = true
    /\ telemetryActivationSent s1 = Some true
    /\ telemetryAnonId s1 = Some (ev_anonId e)
    /\ (JS.truthy (telemetryAnonId s) = true -> telemetryAnonId s1 = telemetryAnonId s)
    /\ eventQueue (TelemetryService.optIn env w).2 = eventQueue w ++ [e]
    /\ eventType e = activation
    /\ TelemetryService.optIn env' (TelemetryService.optIn env w).2
       = (Ok tt, (TelemetryService.optIn env w).2).
Proof.
  intros Hf Hs Hid Hact. assert (Hrow : rowIs s w) by done.
  rewrite (optIn_works env s w Hrow).
  replace (default false (telemetryActivationSent s)) with false
    by (by destruct (telemetryActivationSent s) as [[]|]).
  cbn [negb].
  set (s0 := applyUpdates _ s).
  assert (Hrow0 : rowIs s0 (withRow s0 w)) by (by apply (rowIs_withRow s)).
  assert (Hanon0 : anonIdFor env s0 = anonIdFor env s).
  { apply anonIdFor_stored; [done|]. apply truthy_anonIdFor. }
  rewrite (sendActivationEvent_works env s0 _ Hrow0); [|done|].
  2:{ cbn. by destruct (telemetryActivationSent s) as [[]|]. }
  rewrite Hanon0, pushed_withRow, withRow_withRow. cbn [snd].
  set (s1 := applyUpdates _ (applyUpdates _ s0)).
  set (e := eventOf env activation None (anonIdFor env s)).
  set (w1 := withRow s1 (pushed e w)).
  assert (Hrow1 : rowIs s1 w1) by (by apply (rowIs_withRow s)).
  exists s1, e. split_and!; try done.
  - apply Hrow1.
  - intros T. cbn. unfold anonIdFor. rewrite T. by destruct (telemetryAnonId s).
  - rewrite (optIn_works env' s1 w1 Hrow1). cbn [negb default s1 applyUpdates
      telemetryActivationSent TelemetryService.coalesce u_activationSent].
    replace (applyUpdates _ s1) with s1; [by rewrite (withRow_same s1 w1 Hrow1)|].
    assert (Hanon1 : anonIdFor env' s1 = anonIdFor env s).
    { apply anonIdFor_stored; [done|]. apply truthy_anonIdFor. }
    rewrite Hanon1. done.
Qed.

Lemma optIn_sends_one_activation_witness :
  exists s1 e,
    settings (db (TelemetryService.optIn (noon 0) (installed installedSettings)).2) !! "main"
    = Some s1
    /\ telemetryOptIn s1 = true
    /\ telemetryActivationSent s1 = Some true
    /\ telemetryAnonId s1 = Some (ev_anonId e)
    /\ (JS.truthy (telemetryAnonId installedSettings) = true ->
        telemetryAnonId s1 = telemetryAnonId installedSettings)
    /\ eventQueue (TelemetryService.optIn (noon 0) (installed installedSettings)).2
       = eventQueue (installed installedSettings) ++ [e]
    /\ eventType e = activation
    /\ TelemetryService.optIn (noon 3) (TelemetryService.optIn (noon 0) (installed installedSettings)).2
       = (Ok tt, (TelemetryService.optIn (noon 0) (installed installedSettings)).2).
Proof.
  apply (optIn_sends_one_activation (noon 0) (noon 3) (installed installedSettings)
           installedSettings); [reflexivity..|discriminate].
Defined.

(** X16. The anonymous id survives an opt-out. On a working store,
    [optOut] empties the event queue and resets the opt-in flag, the
    activation flag and the day counter, but the anonymous id it passes as
    [undefined] stays in the settings row; when the user opts in again, the
    row carries the same id, and the queue holds one new [activation] event
    under that id. *)
Theorem anonId_survives_opt_out env w s id :
  faults w = [] -> settings (db w) !! "main" = Some s -> s_id s = "main" ->
  telemetryAnonId s = Some id -> id <> EmptyString ->
  (TelemetryService.optOut w).1 = Ok tt
  /\ eventQueue (TelemetryService.optOut w).2 = []
  /\ (exists s1,
        settings (db (TelemetryService.optOut w).2) !! "main" = Some s1
        /\ telemetryOptIn s1 = false
        /\ telemetryActivationSent s1 = Some false
        /\ telemetryConsecutiveDays s1 = Some 0
        /\ telemetryD7EventSent s1 = Some false
        /\ telemetryLastCompletionDate s1 = telemetryLastCompletionDate s
        /\ telemetryAnonId s1 = Some id)
  /\ exists s2 e,
       settings (db (TelemetryService.optIn env (TelemetryService.optOut w).2).2) !! "main"
       = Some s2
       /\ telemetryOptIn s2 = true
       /\ telemetryAnonId s2 = Some id
       /\ eventQueue (TelemetryService.optIn env (TelemetryService.optOut w).2).2 = [e]
       /\ eventType e = activation
       /\ ev_anonId e = id.
Proof.
  intros Hf Hs Hid Hanon Hne. assert (Hrow : rowIs s w) by done.
  rewrite (optOut_works s w Hrow). cbn [fst snd eventQueue].
  set (s' := applyUpdates _ s). set (w1 := mkWorld _ _ _).
  assert (Hrow' : rowIs s' w1) by (split_and!; [done|apply lookup_insert_eq|done]).
  split; [done|]. split; [done|]. split.
  { exists s'. split; [apply Hrow'|]. cbn. rewrite Hanon.
    split_and!; done. }
  assert (Htruthy : JS.truthy (Some id) = true) by (by destruct id).
  assert (Hanon' : anonIdFor env s' = id).
  { apply anonIdFor_stored; [|done]. cbn. by rewrite Hanon. }
  assert (Hact' : default false (telemetryActivationSent s') = false) by reflexivity.
  rewrite (optIn_works env s' w1 Hrow'), Hanon', Hact'. cbn [negb].
  set (s0 := applyUpdates _ _).
  assert (Hrow0 : rowIs s0 (withRow s0 w1)) by (by apply (rowIs_withRow s')).
  assert (Hanon0 : anonIdFor env s0 = id) by (by apply anonIdFor_stored).
  rewrite (sendActivationEvent_works env s0 _ Hrow0); [|done|done].
  rewrite Hanon0. cbn [snd]. eexists _, _. split; [apply lookup_insert_eq|]. done.
Qed.

Lemma anonId_survives_opt_out_witness :
  (TelemetryService.optOut (installed optedInSettings)).1 = Ok tt
  /\ eventQueue (TelemetryService.optOut (installed optedInSettings)).2 = []
  /\ (exists s1,
        settings (db (TelemetryService.optOut (installed optedInSettings)).2) !! "main" = Some s1
        /\ telemetryOptIn s1 = false
        /\ telemetryActivationSent s1 = Some false
        /\ telemetryConsecutiveDays s1 = Some 0
        /\ telemetryD7EventSent s1 = Some false
        /\ telemetryLastCompletionDate s1 = telemetryLastCompletionDate optedInSettings
        /\ telemetryAnonId s1 = Some "anon_1704096000000_q1w2e3r4t")
  /\ exists s2 e,
       settings (db (TelemetryService.optIn (noon 9)
                       (TelemetryService.optOut (installed optedInSettings)).2).2) !! "main"
       = Some s2
       /\ telemetryOptIn s2 = true
       /\ telemetryAnonId s2 = Some "anon_1704096000000_q1w2e3r4t"
       /\ eventQueue (TelemetryService.optIn (noon 9)
                        (TelemetryService.optOut (installed optedInSettings)).2).2 = [e]
       /\ eventType e = activation
       /\ ev_anonId e = "anon_1704096000000_q1w2e3r4t".
Proof.
  apply (anonId_survives_opt_out (noon 9) (installed optedInSettings) optedInSettings);
    [reflexivity..|discriminate].
Defined.

(** ** The daily completion *)

Lemma getDaysSinceInstall_works env s w :
  rowIs s w -> exists dayNumber, TelemetryService.getDaysSinceInstall env w = (Ok dayNumber, w).
Proof.
  intros (Hf & Hs & _). destruct w as [d q fs]. cbn in *. subst fs.
  cbv [TelemetryService.getDaysSinceInstall try_catch settings_get mbind M_bind bind ret access
       db eventQueue faults].
  rewrite Hs. destruct (JS.truthy _); eauto.
Qed.

Lemma sendD7CompletionEvent_frame env r w :
  rowIs r w ->
  exists r', rowIs r' (TelemetryService.sendD7CompletionEvent env w).2
             /\ telemetryLastCompletionDate r' = telemetryLastCompletionDate r.
Proof.
  intros Hrow. unfold TelemetryService.sendD7CompletionEvent.
  rewrite (bind_run _ _ _ _ _ (getTelemetrySettings_works r w Hrow)).
  destruct (_ || _); [by exists r|].
  rewrite (bind_run _ _ _ _ _ (createEvent_works env d7_completion None r w Hrow)).
  set (r1 := applyUpdates _ r).
  assert (Hrow1 : rowIs r1 (withRow r1 w)) by (apply (rowIs_withRow r); [done|apply Hrow]).
  rewrite (seq_run _ _ _ _ _ (enqueue_run _ _)).
  rewrite (updateTelemetrySettings_works _ r1 _ (rowIs_pushed r1 _ _ Hrow1)). cbn [snd].
  eexists. split.
  - apply (rowIs_withRow r1); [by apply rowIs_pushed|]. apply Hrow.
  - cbn. done.
Qed.

Lemma sendDailyCompletionEvent_marks_today env s w :
  rowIs s w -> telemetryOptIn s = true ->
  exists s', rowIs s' (TelemetryService.sendDailyCompletionEvent env w).2
             /\ telemetryLastCompletionDate s' = Some (JS.splitT0 (JS.toISOString (now env))).
Proof.
  intros Hrow Hin. unfold TelemetryService.sendDailyCompletionEvent.
  rewrite (bind_run _ _ _ _ _ (getTelemetrySettings_works s w Hrow)).
  cbn [isOptedIn lastCompletionDate telemetryOf]. rewrite Hin. cbn [negb].
  destruct (getDaysSinceInstall_works env s w Hrow) as [dayNumber Hd].
  rewrite (bind_run _ _ _ _ _ Hd).
  destruct (JS.str_eq _ _) eqn:E.
  - exists s. split; [done|]. by apply str_eq_true.
  - rewrite (bind_run _ _ _ _ _ (createEvent_works env daily_completion dayNumber s w Hrow)).
    set (s1 := applyUpdates _ s).
    assert (Hrow1 : rowIs s1 (withRow s1 w)) by (apply (rowIs_withRow s); [done|apply Hrow]).
    rewrite (seq_run _ _ _ _ _ (enqueue_run _ _)).
    rewrite (seq_run _ _ _ _ _ (updateTelemetrySettings_works _ s1 _ (rowIs_pushed s1 _ _ Hrow1))).
    set (s2 := applyUpdates _ s1). set (w2 := withRow s2 _).
    assert (Hrow2 : rowIs s2 w2).
    { apply (rowIs_withRow s1); [by apply rowIs_pushed|]. apply Hrow. }
    destruct (_ && _).
    + destruct (sendD7CompletionEvent_frame env s2 w2 Hrow2) as (r' & Hr' & Hlast).
      exists r'. split; [done|]. by rewrite Hlast.
    + by exists s2.
Qed.

Lemma sendDailyCompletionEvent_noop env s w :
  rowIs s w ->
  telemetryLastCompletionDate s = Some (JS.splitT0 (JS.toISOString (now env))) ->
  TelemetryService.sendDailyCompletionEvent env w = (Ok tt, w).
Proof.
  intros Hrow Hlast. unfold TelemetryService.sendDailyCompletionEvent.
  rewrite (bind_run _ _ _ _ _ (getTelemetrySettings_works s w Hrow)).
  cbn [isOptedIn lastCompletionDate telemetryOf].
  destruct (negb _); [done|].
  destruct (getDaysSinceInstall_works env s w Hrow) as [dayNumber Hd].
  rewrite (bind_run _ _ _ _ _ Hd), Hlast.
  replace (JS.str_eq _ _) with true; [done|]. symmetry. by apply str_eq_true.
Qed.

(** X17. The daily completion is recorded once per UTC date: after
    [sendDailyCompletionEvent] ran for an opted-in user on a working store,
    a second call at any time of the same UTC date enqueues nothing and
    writes nothing. *)
Theorem daily_completion_once_per_day env env' w s :
  faults w = [] -> settings (db w) !! "main" = Some s -> s_id s = "main" ->
  telemetryOptIn s = true ->
  JS.splitT0 (JS.toISOString (now env')) = JS.splitT0 (JS.toISOString (now env)) ->
  TelemetryService.sendDailyCompletionEvent env'
    (TelemetryService.sendDailyCompletionEvent env w).2
  = (Ok tt, (TelemetryService.sendDailyCompletionEvent env w).2).
Proof.
  intros Hf Hs Hid Hin Hday.
  destruct (sendDailyCompletionEvent_marks_today env s w) as (s' & Hrow' & Hlast); [done..|].
  apply (sendDailyCompletionEvent_noop env' s'); [done|]. by rewrite Hday.
Qed.

Lemma daily_completion_once_per_day_witness :
  TelemetryService.sendDailyCompletionEvent (mkEnv 1704135600000 0 0 "k3j9x0a1b")
    (TelemetryService.sendDailyCompletionEvent (noon 0) (installed optedInSettings)).2
  = (Ok tt, (TelemetryService.sendDailyCompletionEvent (noon 0) (installed optedInSettings)).2).
Proof.
  apply (daily_completion_once_per_day (noon 0) (mkEnv 1704135600000 0 0 "k3j9x0a1b")
           (installed optedInSettings) optedInSettings); reflexivity.
Defined.

(* ===================================================================== *)
(** * Delivery of the event queue                                         *)
(* ===================================================================== *)

Lemma sendable_spec e :
  (default 0 (retryCount e) >=? TelemetryService.MAX_RETRY_ATTEMPTS) = negb (sendable e).
Proof.
  unfold sendable. rewrite Z.geb_leb.
  destruct (Z.leb_spec TelemetryService.MAX_RETRY_ATTEMPTS (default 0 (retryCount e)));
    destruct (Z.ltb_spec (default 0 (retryCount e)) TelemetryService.MAX_RETRY_ATTEMPTS);
    try done; lia.
Qed.

Lemma deliver_sent eventsToProcess : forall responses queue,
  Forall (fun e => e ∈ eventsToProcess /\ sendable e = true)
         (TelemetryService.sent (TelemetryService.deliver eventsToProcess responses queue)).
Proof.
  induction eventsToProcess as [|x es IH]; intros responses queue; cbn [TelemetryService.deliver].
  - constructor.
  - rewrite sendable_spec.
    assert (Hmono : forall l, Forall (fun e => e ∈ es /\ sendable e = true) l ->
                              Forall (fun e => e ∈ x :: es /\ sendable e = true) l).
    { intros l Hl. induction Hl as [|e l [H1 H2] _ IHl]; constructor; [|done].
      split; [by right|done]. }
    destruct (sendable x) eqn:S; cbn [negb].
    + destruct (hd false responses).
      * cbn [TelemetryService.sent]. constructor; [|by apply Hmono].
        split; [by left|done].
      * destruct (TelemetryService.bumpRetry _ _) as [[q' d]|]; cbn [TelemetryService.sent];
          (constructor; [split; [by left|done] | constructor]).
    + by apply Hmono.
Qed.

(** X18. [processQueue] never throws and never writes to the database,
    whatever the store does. Every event it hands to the server was in the
    queue and had failed fewer than five times; and when the settings row
    says the user has not opted in, it sends nothing and empties the
    queue. *)
Theorem processQueue_sends_only_with_consent responses w :
  exists d,
    (TelemetryService.processQueue responses w).1 = Ok d
    /\ eventQueue (TelemetryService.processQueue responses w).2 = TelemetryService.remaining d
    /\ db (TelemetryService.processQueue responses w).2 = db w
    /\ Forall (fun e => e ∈ eventQueue w /\ sendable e = true) (TelemetryService.sent d)
    /\ ((forall s, settings (db w) !! "main" = Some s -> telemetryOptIn s = false) ->
        TelemetryService.sent d = [] /\ TelemetryService.remaining d = []).
Proof.
  set (Q := fun (r : Result TelemetryService.Delivery) (w' : World) =>
    exists d, r = Ok d
      /\ eventQueue w' = TelemetryService.remaining d
      /\ db w' = db w
      /\ Forall (fun e => e ∈ eventQueue w /\ sendable e = true) (TelemetryService.sent d)
      /\ ((forall s, settings (db w) !! "main" = Some s -> telemetryOptIn s = false) ->
          TelemetryService.sent d = [] /\ TelemetryService.remaining d = [])).
  assert (H : wp (TelemetryService.processQueue responses) Q w); [|exact H].
  unfold TelemetryService.processQueue, TelemetryService.getQueue. wp_step.
  unfold wp at 1. cbn [fst snd].
  destruct (eventQueue w) as [|e0 q0] eqn:Hq; cbn [length Nat.eqb].
  - wp_step. exists (TelemetryService.mkDelivery [] [] None). rewrite Hq. by split_and!.
  - assert (Hclear : forall w', db w' = db w ->
              wp (TelemetryService.setQueue [];; ret (TelemetryService.mkDelivery [] [] None)) Q w').
    { intros w' Hdb. wp_step. unfold wp at 1, TelemetryService.setQueue. cbn [fst snd].
      wp_step. exists (TelemetryService.mkDelivery [] [] None). by split_and!. }
    unfold TelemetryService.getTelemetrySettings, settings_get.
    wp_step. wp_step. wp_step. wp_step.
    + wp_step. cbn [fmap option_fmap option_map default negb]. by apply Hclear.
    + destruct (settings (db w) !! "main") as [s|] eqn:Hs.
      * wp_step. cbn [fmap option_fmap option_map default isOptedIn].
        destruct (telemetryOptIn s) eqn:Hin; cbn [negb id]; [|by apply Hclear].
        cbv zeta. wp_step. unfold wp at 1, TelemetryService.setQueue. cbn [fst snd].
        wp_step. eexists. split; [reflexivity|]. cbn [eventQueue db].
        split_and!; [done|done|apply deliver_sent|].
        intros Hout. specialize (Hout s eq_refl). congruence.
      * wp_step. cbn [fmap option_fmap option_map default negb]. by apply Hclear.
Qed.

Lemma removeById_head x (l : list TelemetryEvent) :
  NoDup (ev_id <$> x :: l) -> TelemetryService.removeById (ev_id x) (x :: l) = l.
Proof.
  csimpl. intros [Hx Hnd]%NoDup_cons. unfold TelemetryService.removeById. cbn [List.filter].
  rewrite String.eqb_refl. cbn [negb].
  clear Hnd. induction l as [|y l IH]; [done|]. cbn [List.filter].
  csimpl in Hx. apply not_elem_of_cons in Hx as [Hxy Hx].
  destruct (String.eqb_spec (ev_id y) (ev_id x)) as [E|_]; [congruence|].
  cbn [negb]. by rewrite IH.
Qed.

Lemma deliver_all_accepted eventsToProcess : forall n rest queue,
  (length eventsToProcess <= n)%nat ->
  (forall e, e ∈ queue -> ev_id e ∈ ev_id <$> eventsToProcess) ->
  TelemetryService.deliver eventsToProcess (replicate n true ++ rest) queue
  = TelemetryService.mkDelivery [] (List.filter sendable eventsToProcess) None.
Proof.
  induction eventsToProcess as [|x es IH]; intros n rest queue Hn Hq;
    cbn [TelemetryService.deliver List.filter].
  - destruct queue as [|e q]; [done|]. exfalso. specialize (Hq e). csimpl in Hq.
    eapply not_elem_of_nil, Hq. by left.
  - assert (Hq' : forall e, e ∈ TelemetryService.removeById (ev_id x) queue ->
                            ev_id e ∈ ev_id <$> es).
    { intros e He. apply list_elem_of_In, filter_In in He as [He Hne].
      apply list_elem_of_In, Hq in He. csimpl in He. apply elem_of_cons in He as [E|He]; [|done].
      rewrite E, String.eqb_refl in Hne. done. }
    rewrite sendable_spec. destruct (sendable x); cbn [negb].
    + destruct n as [|n]; [cbn in Hn; lia|]. cbn [replicate app hd tl].
      rewrite (IH n rest); [done|cbn in Hn; lia|done].
    + apply IH; [cbn in Hn; lia|done].
Qed.

(** X19. When the user has opted in, the store works and the server
    accepts every request, one run of [processQueue] empties the queue: it
    sends the events that failed fewer than five times, in queue order,
    drops the others unsent, and schedules no retry. *)
Theorem processQueue_delivers_all n rest w s :
  faults w = [] -> settings (db w) !! "main" = Some s -> telemetryOptIn s = true ->
  (length (eventQueue w) <= n)%nat ->
  TelemetryService.processQueue (replicate n true ++ rest) w
  = (Ok (TelemetryService.mkDelivery [] (List.filter sendable (eventQueue w)) None),
     mkWorld (db w) [] []).
Proof.
  intros Hf Hs Hin Hn. destruct w as [d q fs]. cbn [faults db eventQueue] in *. subst fs.
  cbv [TelemetryService.processQueue TelemetryService.getQueue TelemetryService.setQueue
       TelemetryService.getTelemetrySettings try_catch settings_get mbind M_bind bind ret access
       db eventQueue faults].
  destruct q as [|e0 q0]; [done|]. cbn [length Nat.eqb]. rewrite Hs.
  cbn [fmap option_fmap option_map default isOptedIn]. rewrite Hin. cbn [negb].
  rewrite deliver_all_accepted; [done|done|]. intros e. apply list_elem_of_fmap_2.
Qed.

Lemma processQueue_delivers_all_witness :
  TelemetryService.processQueue (replicate 3 true ++ [])
    (outbox [queuedEvent 1 0; queuedEvent 2 5; queuedEvent 3 2])
  = (Ok (TelemetryService.mkDelivery []
           (List.filter sendable
              (eventQueue (outbox [queuedEvent 1 0; queuedEvent 2 5; queuedEvent 3 2]))) None),
     mkWorld (db (outbox [queuedEvent 1 0; queuedEvent 2 5; queuedEvent 3 2])) [] []).
Proof.
  apply (processQueue_delivers_all 3 []
           (outbox [queuedEvent 1 0; queuedEvent 2 5; queuedEvent 3 2]) optedInSettings).
  - reflexivity.
  - reflexivity.
  - reflexivity.
  - vm_compute. lia.
Defined.

Lemma deliver_first_failure e post rest r : forall pre,
  NoDup (ev_id <$> pre ++ e :: post) ->
  default 0 (retryCount e) = r -> 0 <= r < 5 ->
  TelemetryService.deliver (pre ++ e :: post)
    (replicate (length (List.filter sendable pre)) true ++ false :: rest) (pre ++ e :: post)
  = TelemetryService.mkDelivery (TelemetryService.withRetryCount (r + 1) e :: post)
      (List.filter sendable pre ++ [e]) (Some (TelemetryService.RETRY_DELAYS !! Z.to_nat r)).
Proof.
  intros pre Hnd Hr Hrange. induction pre as [|x pre IH].
  - cbn [app List.filter length replicate TelemetryService.deliver hd].
    rewrite sendable_spec. unfold sendable. rewrite Hr.
    replace (r <? TelemetryService.MAX_RETRY_ATTEMPTS) with true
      by (symmetry; apply Z.ltb_lt; unfold TelemetryService.MAX_RETRY_ATTEMPTS; lia).
    cbn [negb TelemetryService.bumpRetry]. rewrite String.eqb_refl, Hr.
    f_equal. f_equal. unfold promptUtils.at_index, JS.num_or.
    replace (r + 1 =? 0) with false by (symmetry; apply Z.eqb_neq; lia).
    cbn [length TelemetryService.RETRY_DELAYS].
    replace (Z.min (r + 1 - 1) (Z.of_nat 5 - 1)) with r by lia.
    by replace (r <? 0) with false by (symmetry; apply Z.ltb_ge; lia).
  - cbn [app] in *. cbn [TelemetryService.deliver List.filter].
    rewrite (removeById_head x _ Hnd), sendable_spec.
    csimpl in Hnd. apply NoDup_cons in Hnd as [_ Hnd].
    destruct (sendable x); cbn [negb].
    + cbn [length replicate app hd tl]. by rewrite (IH Hnd).
    + by apply IH.
Qed.

(** X20. Delivery stops at the first request that fails. With distinct
    event ids, an opted-in user and a working store: the events before the
    failed one are sent (or dropped unsent after five failures), the failed
    event stays at the head of the queue with its retry count raised by
    one, the events behind it are neither sent nor changed, and a retry is
    scheduled after 1, 2, 5, 10 or 30 seconds for the first to the fifth
    failure of the event. *)
Theorem processQueue_stops_at_first_failure w s pre e post rest r :
  faults w = [] -> settings (db w) !! "main" = Some s -> telemetryOptIn s = true ->
  eventQueue w = pre ++ e :: post ->
  NoDup (ev_id <$> pre ++ e :: post) ->
  default 0 (retryCount e) = r -> 0 <= r < 5 ->
  TelemetryService.processQueue
    (replicate (length (List.filter sendable pre)) true ++ false :: rest) w
  = (Ok (TelemetryService.mkDelivery (TelemetryService.withRetryCount (r + 1) e :: post)
           (List.filter sendable pre ++ [e])
           (Some (TelemetryService.RETRY_DELAYS !! Z.to_nat r))),
     mkWorld (db w) (TelemetryService.withRetryCount (r + 1) e :: post) []).
Proof.
  intros Hf Hs Hin Hq Hnd Hr Hrange. destruct w as [d q fs].
  cbn [faults db eventQueue] in *. subst fs q.
  cbv [TelemetryService.processQueue TelemetryService.getQueue TelemetryService.setQueue
       TelemetryService.getTelemetrySettings try_catch settings_get mbind M_bind bind ret access
       db eventQueue faults].
  replace (Nat.eqb (length (pre ++ e :: post)) 0) with false
    by (symmetry; apply Nat.eqb_neq; rewrite length_app; cbn; lia).
  rewrite Hs. cbn [fmap option_fmap option_map default isOptedIn id]. rewrite Hin. cbn [negb].
  by rewrite (deliver_first_failure e post rest r pre Hnd Hr Hrange).
Qed.

Lemma processQueue_stops_at_first_failure_witness :
  TelemetryService.processQueue
    (replicate (length (List.filter sendable [queuedEvent 1 0; queuedEvent 2 5])) true
     ++ false :: [true])
    (outbox [queuedEvent 1 0; queuedEvent 2 5; queuedEvent 3 2; queuedEvent 4 0])
  = (Ok (TelemetryService.mkDelivery
           (TelemetryService.withRetryCount (2 + 1) (queuedEvent 3 2) :: [queuedEvent 4 0])
           (List.filter sendable [queuedEvent 1 0; queuedEvent 2 5] ++ [queuedEvent 3 2])
           (Some (TelemetryService.RETRY_DELAYS !! Z.to_nat 2))),
     mkWorld (db (outbox [queuedEvent 1 0; queuedEvent 2 5; queuedEvent 3 2; queuedEvent 4 0]))
             (TelemetryService.withRetryCount (2 + 1) (queuedEvent 3 2) :: [queuedEvent 4 0]) []).
Proof.
  apply (processQueue_stops_at_first_failure
           (outbox [queuedEvent 1 0; queuedEvent 2 5; queuedEvent 3 2; queuedEvent 4 0])
           optedInSettings [queuedEvent 1 0; queuedEvent 2 5] (queuedEvent 3 2) [queuedEvent 4 0]
           [true] 2).
  - reflexivity.
  - reflexivity.
  - reflexivity.
  - reflexivity.
  - refine (bool_decide_unpack _ _). vm_compute. exact I.
  - reflexivity.
  - lia.
Defined.

(* ===================================================================== *)
(** * Numbers in [localStorage]                                           *)
(* ===================================================================== *)

Lemma pretty_N_char_digit d :
  (d < 10)%N ->
  JS.digit (pretty_N_char d) = Some (Z.of_N d)
  /\ isWhiteSpace (pretty_N_char d) = false
  /\ Ascii.eqb (pretty_N_char d) "-"%char = false
  /\ Ascii.eqb (pretty_N_char d) "+"%char = false.
Proof.
  intros Hd.
  assert (H : (d = 0 \/ d = 1 \/ d = 2 \/ d = 3 \/ d = 4 \/ d = 5 \/ d = 6 \/ d = 7 \/ d = 8
               \/ d = 9)%N) by lia.
  repeat (destruct H as [->|H]); [done..|]. by subst.
Qed.

Lemma pretty_N_go_head x : forall s,
  (0 < x)%N -> exists d r, (d < 10)%N /\ pretty_N_go x s = String (pretty_N_char d) r.
Proof.
  induction (N.lt_wf_0 x) as [x _ IH]; intros s Hx.
  rewrite pretty_N_go_step by done.
  destruct (N.eq_dec (x `div` 10)%N 0%N) as [E|E].
  - rewrite E, pretty_N_go_0. exists (x `mod` 10)%N, s. split; [|done]. by apply N.mod_lt.
  - apply IH; [by apply N.div_lt|by apply N.neq_0_lt_0].
Qed.

Lemma leadingDigits_pretty_N_go x :
  (0 < x)%N ->
  exists k, 0 <= k /\ forall acc s,
    leadingDigits acc (pretty_N_go x s)
    = leadingDigits (Some (default 0 acc * 10 ^ k + Z.of_N x)) s.
Proof.
  induction (N.lt_wf_0 x) as [x _ IH]; intros Hx.
  assert (Hd : (x `mod` 10 < 10)%N) by (by apply N.mod_lt).
  destruct (pretty_N_char_digit _ Hd) as (Hdigit & _).
  assert (Hx10 : Z.of_N x = 10 * Z.of_N (x `div` 10)%N + Z.of_N (x `mod` 10)%N).
  { rewrite (N.div_mod x 10) at 1 by done. lia. }
  destruct (N.eq_dec (x `div` 10)%N 0%N) as [E|E].
  - exists 1. split; [lia|]. intros acc s.
    rewrite pretty_N_go_step, E, pretty_N_go_0 by done. cbn [leadingDigits].
    rewrite Hdigit. f_equal. f_equal. rewrite E in Hx10. lia.
  - destruct (IH (x `div` 10)%N) as (k & Hk & Hgo); [by apply N.div_lt|by apply N.neq_0_lt_0|].
    exists (k + 1). split; [lia|]. intros acc s.
    rewrite pretty_N_go_step, Hgo by done. cbn [leadingDigits].
    rewrite Hdigit. cbn [default]. f_equal. f_equal.
    unfold id. rewrite Z.pow_add_r, Z.pow_1_r, Hx10 by lia. ring.
Qed.

Lemma parseInt_pretty_pos p : parseInt (pretty (Zpos p)) = Some (Zpos p).
Proof.
  change (pretty (Zpos p)) with (pretty_N_go (Npos p) EmptyString).
  destruct (pretty_N_go_head (Npos p) EmptyString) as (d & r & Hd & Hhead); [lia|].
  destruct (pretty_N_char_digit d Hd) as (_ & Hws & Hminus & Hplus).
  destruct (leadingDigits_pretty_N_go (Npos p)) as (k & _ & Hgo); [lia|].
  unfold parseInt. rewrite Hhead. cbn [skipWhiteSpace]. rewrite Hws, Hminus, Hplus.
  rewrite <- Hhead, Hgo. cbn [leadingDigits default]. f_equal.
Qed.

(** A number written to [localStorage] with [toString] reads back with
    [parseInt]. *)
Lemma parseInt_pretty (n : Z) : parseInt (pretty n) = Some n.
Proof.
  destruct n as [|p|p].
  - reflexivity.
  - apply parseInt_pretty_pos.
  - change (pretty (Zneg p)) with (String "-"%char (pretty_N_go (Npos p) EmptyString)).
    unfold parseInt. cbn [skipWhiteSpace].
    change (isWhiteSpace "-"%char) with false. cbv iota.
    change (Ascii.eqb "-"%char "-"%char) with true. cbv iota.
    destruct (leadingDigits_pretty_N_go (Npos p)) as (k & _ & Hgo); [lia|].
    rewrite Hgo. reflexivity.
Qed.

Lemma truthy_pretty (n : Z) : JS.truthy (Some (pretty n)) = true.
Proof.
  pose proof (parseInt_pretty n) as H. destruct (pretty n); [discriminate|done].
Qed.

(* ===================================================================== *)
(** * The session lock                                                    *)
(* ===================================================================== *)

Lemma shouldLock_after_activity env env' timeoutMinutes (ls : Storage) :
  sessionUtils.shouldLock env' timeoutMinutes (sessionUtils.updateLastActivity env ls)
  = (now env' - now env >? timeoutMinutes * 60 * 1000).
Proof.
  unfold sessionUtils.shouldLock, sessionUtils.updateLastActivity, Storage in *. cbv zeta.
  rewrite lookup_insert_eq, truthy_pretty. cbn [negb default from_option id].
  by rewrite parseInt_pretty.
Qed.

Lemma unlockSession_spec env env' timeoutMinutes (ls : Storage) :
  sessionUtils.isLocked (sessionUtils.unlockSession env ls) = false
  /\ sessionUtils.shouldLock env' timeoutMinutes (sessionUtils.unlockSession env ls)
     = (now env' - now env >? timeoutMinutes * 60 * 1000).
Proof.
  split; [|apply shouldLock_after_activity].
  unfold sessionUtils.isLocked, sessionUtils.unlockSession, sessionUtils.updateLastActivity,
    Storage in *.
  rewrite lookup_insert_ne by done. by rewrite lookup_delete_eq.
Qed.

(** X21. The session lock follows the recorded activity. After
    [updateLastActivity] at one time, [shouldLock] at another answers
    whether more than the timeout, in minutes, lies between the two: the
    time written with [toString] reads back with [parseInt]. After
    [lockSession] the session is locked and [shouldLock] is [true] at any
    time and for any timeout; after [unlockSession] the session is not
    locked, and the inactivity clock starts again at the time of the
    unlock. *)
Theorem session_lock_follows_activity env env' timeoutMinutes ls :
  sessionUtils.shouldLock env' timeoutMinutes (sessionUtils.updateLastActivity env ls)
  = (now env' - now env >? timeoutMinutes * 60 * 1000)
  /\ sessionUtils.isLocked (sessionUtils.lockSession ls) = true
  /\ sessionUtils.shouldLock env' timeoutMinutes (sessionUtils.lockSession ls) = true
  /\ sessionUtils.isLocked (sessionUtils.unlockSession env ls) = false
  /\ sessionUtils.shouldLock env' timeoutMinutes (sessionUtils.unlockSession env ls)
     = (now env' - now env >? timeoutMinutes * 60 * 1000).
Proof.
  split; [apply shouldLock_after_activity|].
  split; [|split; [|apply unlockSession_spec]].
  - unfold sessionUtils.isLocked, sessionUtils.lockSession, Storage in *.
    by rewrite lookup_insert_eq.
  - unfold sessionUtils.shouldLock, sessionUtils.lockSession, Storage in *. cbv zeta.
    rewrite lookup_insert_ne by done. by rewrite lookup_delete_eq.
Qed.

(** X22. The inactivity test of the auto-lock effect cannot fire: the
    effect starts the activity tracking first, which records the present
    time, so as long as the clock has not moved by more than the timeout
    between the two readings, the effect locks the provider exactly when
    the session is marked as locked in [localStorage], however long ago the
    last activity before the start was. *)
Theorem autoLockEffect_ignores_inactivity env env' st b :
  0 <= now env' - now env
       <= JS.num_or (default 0 (lockTimeoutMinutes <$> PinProvider.appSettings st)) 5 * 60 * 1000 ->
  PinProvider.isLocked (PinProvider.autoLockEffect env env' st b).1
  = PinProvider.isLocked st
    || (JS.truthy (PinProvider.appSettings st ≫= pinHash) && PinProvider.isInitialized st
        && sessionUtils.isLocked (localStorage b)).
Proof.
  intros Hclock. unfold PinProvider.autoLockEffect.
  destruct (JS.truthy _), (PinProvider.isInitialized st); cbn [negb orb andb fst];
    rewrite ?orb_false_r; try done.
  rewrite shouldLock_after_activity.
  replace (_ >? _) with false by (symmetry; rewrite Z.gtb_ltb; apply Z.ltb_ge; lia).
  cbn [orb].
  assert (Hflag : sessionUtils.isLocked (sessionUtils.updateLastActivity env (localStorage b))
                  = sessionUtils.isLocked (localStorage b)).
  { unfold sessionUtils.isLocked, sessionUtils.updateLastActivity, Storage in *.
    by rewrite lookup_insert_ne by done. }
  rewrite Hflag. destruct (sessionUtils.isLocked (localStorage b)); cbn [fst PinProvider.isLocked].
  - by rewrite orb_true_r.
  - by rewrite orb_false_r.
Qed.

Lemma autoLockEffect_ignores_inactivity_witness :
  PinProvider.isLocked
    (PinProvider.autoLockEffect (noon 30) (noon 30) pinState
       (mkBrowser {[ "nvj_lastActivity" := "1704110400000" ]} ∅ [])).1
  = PinProvider.isLocked pinState
    || (JS.truthy (PinProvider.appSettings pinState ≫= pinHash)
        && PinProvider.isInitialized pinState
        && sessionUtils.isLocked
             (localStorage (mkBrowser {[ "nvj_lastActivity" := "1704110400000" ]} ∅ []))).
Proof.
  apply (autoLockEffect_ignores_inactivity (noon 30) (noon 30) pinState
           (mkBrowser {[ "nvj_lastActivity" := "1704110400000" ]} ∅ [])).
  vm_compute. split; discriminate.
Defined.

(* ===================================================================== *)
(** * PIN attempts and the lockout                                        *)
(* ===================================================================== *)

Lemma isPinEnabled_configured st :
  PinProvider.isPinEnabled st = true ->
  negb (JS.truthy (PinProvider.appSettings st ≫= pinHash))
  || negb (JS.truthy (PinProvider.appSettings st ≫= pinSalt))
  || negb (truthyNum (PinProvider.appSettings st ≫= pinIterations)) = false.
Proof.
  unfold PinProvider.isPinEnabled. rewrite !andb_true_iff. intros [[-> ->] ->]. done.
Qed.

(** A wrong PIN below the limit is counted. *)
Lemma verifyPin_wrong_counts pbkdf2 env pin st b k :
  PinProvider.isTemporaryLocked st = false -> PinProvider.isPinEnabled st = true ->
  wrongPin pbkdf2 st pin -> PinProvider.attemptCount st = Some k -> k + 1 < 5 ->
  exists message,
    PinProvider.verifyPin pbkdf2 env pin st b
    = (PinProvider.mkResult false (Some message),
       PinProvider.mkState (PinProvider.appSettings st) (PinProvider.isInitialized st)
         (PinProvider.isLocked st) (Some (k + 1)) false (PinProvider.lockoutEndTime st),
       PinProvider.with_localStorage (<["nvj_pinAttempts" := pretty (k + 1)]> (localStorage b)) b).
Proof.
  intros Hlock Hen [Hvalid Hwrong] Hk Hlt. unfold PinProvider.verifyPin.
  rewrite Hlock, Hvalid, (isPinEnabled_configured st Hen). cbn [negb].
  fold (storedPin st). rewrite Hwrong, Hk. cbn [fmap option_fmap option_map].
  replace (k + 1 >=? PinProvider.MAX_ATTEMPTS) with false
    by (symmetry; rewrite Z.geb_leb; apply Z.leb_gt; unfold PinProvider.MAX_ATTEMPTS; lia).
  eauto.
Qed.

(** The wrong PIN that reaches the limit starts the lockout. *)
Lemma verifyPin_wrong_locks pbkdf2 env pin st b k :
  PinProvider.isTemporaryLocked st = false -> PinProvider.isPinEnabled st = true ->
  wrongPin pbkdf2 st pin -> PinProvider.attemptCount st = Some k -> 5 <= k + 1 ->
  PinProvider.verifyPin pbkdf2 env pin st b
  = (PinProvider.mkResult false (Some "Too many failed attempts. Access locked for 5 minutes."),
     PinProvider.mkState (PinProvider.appSettings st) (PinProvider.isInitialized st)
       (PinProvider.isLocked st) (Some (k + 1)) true (Some (now env + PinProvider.LOCKOUT_DURATION)),
     PinProvider.with_localStorage
       (<["nvj_pinLockoutEnd" := pretty (now env + PinProvider.LOCKOUT_DURATION)]>
          (<["nvj_pinAttempts" := pretty (k + 1)]> (localStorage b))) b).
Proof.
  intros Hlock Hen [Hvalid Hwrong] Hk Hge. unfold PinProvider.verifyPin.
  rewrite Hlock, Hvalid, (isPinEnabled_configured st Hen). cbn [negb].
  fold (storedPin st). rewrite Hwrong, Hk. cbn [fmap option_fmap option_map].
  replace (k + 1 >=? PinProvider.MAX_ATTEMPTS) with true
    by (symmetry; rewrite Z.geb_leb; apply Z.leb_le; unfold PinProvider.MAX_ATTEMPTS; lia).
  reflexivity.
Qed.

(** The right PIN, while no lockout is in force. *)
Lemma verifyPin_right pbkdf2 env pin st b :
  PinProvider.isTemporaryLocked st = false -> PinProvider.isPinEnabled st = true ->
  cryptoUtils.isValidPin pin = true -> cryptoUtils.verifyPin pbkdf2 pin (storedPin st) = true ->
  PinProvider.verifyPin pbkdf2 env pin st b
  = (PinProvider.mkResult true None,
     PinProvider.mkState (PinProvider.appSettings st) (PinProvider.isInitialized st) false
       (Some 0) false None,
     PinProvider.with_localStorage
       (sessionUtils.unlockSession env
          (delete "nvj_pinLockoutEnd" (delete "nvj_pinAttempts" (localStorage b)))) b).
Proof.
  intros Hlock Hen Hvalid Hright. unfold PinProvider.verifyPin.
  rewrite Hlock, Hvalid, (isPinEnabled_configured st Hen). cbn [negb].
  fold (storedPin st). by rewrite Hright.
Qed.

(** Wrong PINs below the limit: the provider counts them and changes
    nothing else. *)
Lemma tryPins_counts pbkdf2 tries : forall st b k,
  PinProvider.isTemporaryLocked st = false -> PinProvider.isPinEnabled st = true ->
  Forall (fun t => wrongPin pbkdf2 st t.2) tries ->
  PinProvider.attemptCount st = Some k -> k + Z.of_nat (length tries) < 5 ->
  (tryPins pbkdf2 tries st b).1
  = PinProvider.mkState (PinProvider.appSettings st) (PinProvider.isInitialized st)
      (PinProvider.isLocked st) (Some (k + Z.of_nat (length tries))) false
      (PinProvider.lockoutEndTime st).
Proof.
  induction tries as [|[env pin] tries IH]; intros st b k Hlock Hen Hwrong Hk Hlt.
  - cbn. destruct st. cbn in *. rewrite Hlock, Hk. do 2 f_equal. lia.
  - apply Forall_cons in Hwrong as [Hpin Hwrong]. cbn [length] in Hlt. cbn [tryPins].
    destruct (verifyPin_wrong_counts pbkdf2 env pin st b k) as [message ->]; [done..|lia|].
    rewrite (IH _ _ (k + 1)); [|done|done|done|done|cbn; lia].
    cbn. do 2 f_equal. lia.
Qed.

(** X23. Five wrong PINs in a row lock the provider. From a provider with
    a PIN configured, no lockout and no failed attempt, four well-formed
    wrong PINs leave it open with four attempts counted; the fifth starts a
    lockout that ends five minutes after it; and while the lockout lasts
    [verifyPin] refuses every PIN, the right one included, and changes
    nothing. *)
Theorem five_wrong_pins_lock_out pbkdf2 tries env pin st b :
  PinProvider.isTemporaryLocked st = false -> PinProvider.isPinEnabled st = true ->
  PinProvider.attemptCount st = Some 0 ->
  length tries = 4%nat -> Forall (fun t => wrongPin pbkdf2 st t.2) tries ->
  wrongPin pbkdf2 st pin ->
  let fifth := PinProvider.verifyPin pbkdf2 env pin (tryPins pbkdf2 tries st b).1
                 (tryPins pbkdf2 tries st b).2 in
  PinProvider.isTemporaryLocked (tryPins pbkdf2 tries st b).1 = false
  /\ PinProvider.attemptCount (tryPins pbkdf2 tries st b).1 = Some 4
  /\ fifth.1.1
     = PinProvider.mkResult false (Some "Too many failed attempts. Access locked for 5 minutes.")
  /\ PinProvider.isTemporaryLocked fifth.1.2 = true
  /\ PinProvider.lockoutEndTime fifth.1.2 = Some (now env + 5 * 60 * 1000)
  /\ PinProvider.attemptCount fifth.1.2 = Some 5
  /\ forall env' pin',
       PinProvider.verifyPin pbkdf2 env' pin' fifth.1.2 fifth.2
       = (PinProvider.mkResult false
            (Some "Access temporarily locked due to too many failed attempts"),
          fifth.1.2, fifth.2).
Proof.
  intros Hlock Hen Hzero Hlen Hwrong Hpin fifth.
  pose proof (tryPins_counts pbkdf2 tries st b 0 Hlock Hen Hwrong Hzero) as Hfour.
  rewrite Hlen in Hfour. specialize (Hfour ltac:(lia)).
  subst fifth. rewrite Hfour.
  rewrite (verifyPin_wrong_locks pbkdf2 env pin _ _ 4); [|done|done|done|done|lia].
  cbn [fst snd PinProvider.isTemporaryLocked PinProvider.attemptCount PinProvider.lockoutEndTime].
  split_and!; try done.
Qed.

Lemma five_wrong_pins_lock_out_witness :
  let tries := [(noon 0, "0000"); (noon 0, "1234"); (noon 0, "4812"); (noon 0, "9999")] in
  let fifth := PinProvider.verifyPin identityKdf (noon 1) "4822"
                 (tryPins identityKdf tries pinState emptyBrowser).1
                 (tryPins identityKdf tries pinState emptyBrowser).2 in
  PinProvider.isTemporaryLocked (tryPins identityKdf tries pinState emptyBrowser).1 = false
  /\ PinProvider.attemptCount (tryPins identityKdf tries pinState emptyBrowser).1 = Some 4
  /\ fifth.1.1
     = PinProvider.mkResult false (Some "Too many failed attempts. Access locked for 5 minutes.")
  /\ PinProvider.isTemporaryLocked fifth.1.2 = true
  /\ PinProvider.lockoutEndTime fifth.1.2 = Some (now (noon 1) + 5 * 60 * 1000)
  /\ PinProvider.attemptCount fifth.1.2 = Some 5
  /\ forall env' pin',
       PinProvider.verifyPin identityKdf env' pin' fifth.1.2 fifth.2
       = (PinProvider.mkResult false
            (Some "Access temporarily locked due to too many failed attempts"),
          fifth.1.2, fifth.2).
Proof.
  intros tries.
  apply (five_wrong_pins_lock_out identityKdf tries (noon 1) "4822" pinState emptyBrowser).
  - reflexivity.
  - reflexivity.
  - reflexivity.
  - reflexivity.
  - repeat constructor.
  - split; reflexivity.
Defined.

(** X24. The right PIN, entered after fewer than five wrong ones, opens
    the provider and clears the count: [verifyPin] succeeds, the attempt
    count is back at 0, the provider and the session are unlocked, the
    attempt and lockout keys are gone from [localStorage], and the
    inactivity clock starts at the time of the unlock. *)
Theorem right_pin_clears_attempts pbkdf2 tries env env' timeoutMinutes pin st b :
  PinProvider.isTemporaryLocked st = false -> PinProvider.isPinEnabled st = true ->
  PinProvider.attemptCount st = Some 0 ->
  (length tries <= 4)%nat -> Forall (fun t => wrongPin pbkdf2 st t.2) tries ->
  cryptoUtils.isValidPin pin = true -> cryptoUtils.verifyPin pbkdf2 pin (storedPin st) = true ->
  let opened := PinProvider.verifyPin pbkdf2 env pin (tryPins pbkdf2 tries st b).1
                  (tryPins pbkdf2 tries st b).2 in
  PinProvider.attemptCount (tryPins pbkdf2 tries st b).1 = Some (Z.of_nat (length tries))
  /\ opened.1.1 = PinProvider.mkResult true None
  /\ PinProvider.attemptCount opened.1.2 = Some 0
  /\ PinProvider.isLocked opened.1.2 = false
  /\ PinProvider.isTemporaryLocked opened.1.2 = false
  /\ localStorage opened.2 !! "nvj_pinAttempts" = None
  /\ localStorage opened.2 !! "nvj_pinLockoutEnd" = None
  /\ sessionUtils.isLocked (localStorage opened.2) = false
  /\ sessionUtils.shouldLock env' timeoutMinutes (localStorage opened.2)
     = (now env' - now env >? timeoutMinutes * 60 * 1000).
Proof.
  intros Hlock Hen Hzero Hlen Hwrong Hvalid Hright opened.
  pose proof (tryPins_counts pbkdf2 tries st b 0 Hlock Hen Hwrong Hzero ltac:(lia)) as Hst.
  subst opened. rewrite Hst.
  rewrite verifyPin_right; [|done..].
  cbn [fst snd PinProvider.isTemporaryLocked PinProvider.attemptCount PinProvider.isLocked
       PinProvider.with_localStorage localStorage].
  destruct (unlockSession_spec env env' timeoutMinutes
              (delete "nvj_pinLockoutEnd"
                 (delete "nvj_pinAttempts" (localStorage (tryPins pbkdf2 tries st b).2))))
    as (Hl & Hs).
  split_and!; try done.
  - unfold sessionUtils.unlockSession, sessionUtils.updateLastActivity, Storage in *.
    rewrite lookup_insert_ne, lookup_delete_ne, lookup_delete_ne, lookup_delete_eq by done. done.
  - unfold sessionUtils.unlockSession, sessionUtils.updateLastActivity, Storage in *.
    rewrite lookup_insert_ne, lookup_delete_ne, lookup_delete_eq by done. done.
Qed.

Lemma right_pin_clears_attempts_witness :
  let tries := [(noon 0, "0000"); (noon 0, "1234")] in
  let opened := PinProvider.verifyPin identityKdf (noon 1) "4821"
                  (tryPins identityKdf tries pinState emptyBrowser).1
                  (tryPins identityKdf tries pinState emptyBrowser).2 in
  PinProvider.attemptCount (tryPins identityKdf tries pinState emptyBrowser).1
  = Some (Z.of_nat (length tries))
  /\ opened.1.1 = PinProvider.mkResult true None
  /\ PinProvider.attemptCount opened.1.2 = Some 0
  /\ PinProvider.isLocked opened.1.2 = false
  /\ PinProvider.isTemporaryLocked opened.1.2 = false
  /\ localStorage opened.2 !! "nvj_pinAttempts" = None
  /\ localStorage opened.2 !! "nvj_pinLockoutEnd" = None
  /\ sessionUtils.isLocked (localStorage opened.2) = false
  /\ sessionUtils.shouldLock (noon 2) 5 (localStorage opened.2)
     = (now (noon 2) - now (noon 1) >? 5 * 60 * 1000).
Proof.
  intros tries.
  apply (right_pin_clears_attempts identityKdf tries (noon 1) (noon 2) 5 "4821" pinState
           emptyBrowser).
  - reflexivity.
  - reflexivity.
  - reflexivity.
  - vm_compute. lia.
  - repeat constructor.
  - reflexivity.
  - reflexivity.
Defined.

(** X25. The lockout survives a reload. When the fifth wrong PIN started a
    lockout, a provider that is mounted afterwards with fresh state reads
    it back from [localStorage]: before the end time it is locked out again
    with the same end time and five attempts counted; from the end time on
    it starts without a lockout, keeps its attempt count and removes the
    two keys. *)
Theorem lockout_survives_reload pbkdf2 env pin st b env2 st0 :
  PinProvider.isTemporaryLocked st = false -> PinProvider.isPinEnabled st = true ->
  wrongPin pbkdf2 st pin -> PinProvider.attemptCount st = Some 4 ->
  let stored := (PinProvider.verifyPin pbkdf2 env pin st b).2 in
  let mounted := PinProvider.initializePinState env2 st0 stored in
  PinProvider.isInitialized mounted.1 = true
  /\ if now env2 <? now env + 5 * 60 * 1000
     then PinProvider.isTemporaryLocked mounted.1 = true
          /\ PinProvider.lockoutEndTime mounted.1 = Some (now env + 5 * 60 * 1000)
          /\ PinProvider.attemptCount mounted.1 = Some 5
          /\ mounted.2 = stored
     else PinProvider.isTemporaryLocked mounted.1 = PinProvider.isTemporaryLocked st0
          /\ PinProvider.lockoutEndTime mounted.1 = PinProvider.lockoutEndTime st0
          /\ PinProvider.attemptCount mounted.1 = PinProvider.attemptCount st0
          /\ localStorage mounted.2 !! "nvj_pinLockoutEnd" = None
          /\ localStorage mounted.2 !! "nvj_pinAttempts" = None.
Proof.
  intros Hlock Hen Hwrong Hk stored mounted. subst mounted stored.
  rewrite (verifyPin_wrong_locks pbkdf2 env pin st b 4); [|done..|lia].
  cbn [snd]. unfold PinProvider.initializePinState, PinProvider.with_localStorage.
  cbn [localStorage]. unfold Storage in *.
  rewrite lookup_insert_eq, truthy_pretty. cbn [default from_option id].
  rewrite parseInt_pretty.
  change (now env + PinProvider.LOCKOUT_DURATION) with (now env + 5 * 60 * 1000).
  destruct (now env2 <? now env + 5 * 60 * 1000).
  - rewrite lookup_insert_ne, lookup_insert_eq by done. rewrite truthy_pretty.
    cbn [default from_option id]. rewrite parseInt_pretty.
    cbn [fst snd PinProvider.isInitialized PinProvider.isTemporaryLocked
         PinProvider.lockoutEndTime PinProvider.attemptCount sessionStorage cacheNames].
    split_and!; done.
  - unfold PinProvider.removeLockoutKeys, Storage in *. cbv beta iota zeta.
    rewrite lookup_delete_eq. cbn [JS.truthy].
    cbn [fst snd PinProvider.isInitialized PinProvider.isTemporaryLocked
         PinProvider.lockoutEndTime PinProvider.attemptCount localStorage].
    split_and!; try done.
    + rewrite lookup_delete_ne by done. apply lookup_delete_eq.
    + apply lookup_delete_eq.
Qed.

Lemma lockout_survives_reload_witness :
  let stored := (PinProvider.verifyPin identityKdf (noon 0) "0000"
                   (PinProvider.mkState (Some pinSettings) true true (Some 4) false None)
                   emptyBrowser).2 in
  let mounted := PinProvider.initializePinState (mkEnv 1704110460000 0 0 "k3j9x0a1b")
                   (PinProvider.mkState (Some pinSettings) false false (Some 0) false None)
                   stored in
  PinProvider.isInitialized mounted.1 = true
  /\ if now (mkEnv 1704110460000 0 0 "k3j9x0a1b") <? now (noon 0) + 5 * 60 * 1000
     then PinProvider.isTemporaryLocked mounted.1 = true
          /\ PinProvider.lockoutEndTime mounted.1 = Some (now (noon 0) + 5 * 60 * 1000)
          /\ PinProvider.attemptCount mounted.1 = Some 5
          /\ mounted.2 = stored
     else PinProvider.isTemporaryLocked mounted.1
          = PinProvider.isTemporaryLocked
              (PinProvider.mkState (Some pinSettings) false false (Some 0) false None)
          /\ PinProvider.lockoutEndTime mounted.1
             = PinProvider.lockoutEndTime
                 (PinProvider.mkState (Some pinSettings) false false (Some 0) false None)
          /\ PinProvider.attemptCount mounted.1
             = PinProvider.attemptCount
                 (PinProvider.mkState (Some pinSettings) false false (Some 0) false None)
          /\ localStorage mounted.2 !! "nvj_pinLockoutEnd" = None
          /\ localStorage mounted.2 !! "nvj_pinAttempts" = None.
Proof.
  apply (lockout_survives_reload identityKdf (noon 0) "0000"
           (PinProvider.mkState (Some pinSettings) true true (Some 4) false None) emptyBrowser
           (mkEnv 1704110460000 0 0 "k3j9x0a1b")
           (PinProvider.mkState (Some pinSettings) false false (Some 0) false None)).
  - reflexivity.
  - reflexivity.
  - split; reflexivity.
  - reflexivity.
Defined.

(** X26. The lockout ends by the timer. After the fifth wrong PIN started a
    lockout (on a clock past the epoch), [updateTimer] leaves everything as
    it is before the end time; from the end time on it lifts the lockout,
    sets the attempt count to 0 and removes the two keys, and the right PIN
    is accepted again. *)
Theorem lockout_expires pbkdf2 env pin right st b env3 env4 :
  PinProvider.isTemporaryLocked st = false -> PinProvider.isPinEnabled st = true ->
  wrongPin pbkdf2 st pin -> PinProvider.attemptCount st = Some 4 -> 0 <= now env ->
  cryptoUtils.isValidPin right = true -> cryptoUtils.verifyPin pbkdf2 right (storedPin st) = true ->
  let locked := PinProvider.verifyPin pbkdf2 env pin st b in
  let ticked := PinProvider.updateTimer env3 locked.1.2 locked.2 in
  if now env3 <? now env + 5 * 60 * 1000
  then ticked = (locked.1.2, locked.2)
  else PinProvider.isTemporaryLocked ticked.1 = false
       /\ PinProvider.lockoutEndTime ticked.1 = None
       /\ PinProvider.attemptCount ticked.1 = Some 0
       /\ localStorage ticked.2 !! "nvj_pinLockoutEnd" = None
       /\ localStorage ticked.2 !! "nvj_pinAttempts" = None
       /\ (PinProvider.verifyPin pbkdf2 env4 right ticked.1 ticked.2).1.1
          = PinProvider.mkResult true None.
Proof.
  intros Hlock Hen Hwrong Hk Hclock Hvalid Hright locked ticked. subst ticked locked.
  rewrite (verifyPin_wrong_locks pbkdf2 env pin st b 4); [|done..|lia].
  cbn [fst snd]. unfold PinProvider.updateTimer.
  cbn [PinProvider.isTemporaryLocked PinProvider.lockoutEndTime negb orb truthyNum].
  change PinProvider.LOCKOUT_DURATION with (5 * 60 * 1000).
  replace (now env + 5 * 60 * 1000 =? 0) with false by (symmetry; apply Z.eqb_neq; lia).
  cbn [negb default from_option id].
  destruct (Z.ltb_spec (now env3) (now env + 5 * 60 * 1000)) as [Hbefore|Hafter].
  - replace (_ <=? 0) with false by (symmetry; apply Z.leb_gt; lia). done.
  - replace (_ <=? 0) with true by (symmetry; apply Z.leb_le; lia).
    cbn [fst snd PinProvider.isTemporaryLocked PinProvider.lockoutEndTime
         PinProvider.attemptCount PinProvider.with_localStorage localStorage].
    unfold PinProvider.removeLockoutKeys, Storage in *.
    split_and!; try done.
    + rewrite lookup_delete_ne by done. apply lookup_delete_eq.
    + apply lookup_delete_eq.
    + by rewrite verifyPin_right.
Qed.

Lemma lockout_expires_witness :
  let locked := PinProvider.verifyPin identityKdf (noon 0) "0000"
                  (PinProvider.mkState (Some pinSettings) true true (Some 4) false None)
                  emptyBrowser in
  let ticked := PinProvider.updateTimer (noon 1) locked.1.2 locked.2 in
  if now (noon 1) <? now (noon 0) + 5 * 60 * 1000
  then ticked = (locked.1.2, locked.2)
  else PinProvider.isTemporaryLocked ticked.1 = false
       /\ PinProvider.lockoutEndTime ticked.1 = None
       /\ PinProvider.attemptCount ticked.1 = Some 0
       /\ localStorage ticked.2 !! "nvj_pinLockoutEnd" = None
       /\ localStorage ticked.2 !! "nvj_pinAttempts" = None
       /\ (PinProvider.verifyPin identityKdf (noon 1) "4821" ticked.1 ticked.2).1.1
          = PinProvider.mkResult true None.
Proof.
  apply (lockout_expires identityKdf (noon 0) "0000" "4821"
           (PinProvider.mkState (Some pinSettings) true true (Some 4) false None) emptyBrowser
           (noon 1) (noon 1)).
  - reflexivity.
  - reflexivity.
  - split; reflexivity.
  - reflexivity.
  - vm_compute. discriminate.
  - reflexivity.
  - reflexivity.
Defined.

(* ===================================================================== *)
(** * Setting up and disabling the PIN                                    *)
(* ===================================================================== *)

Lemma encode_truthy l : l <> [] -> JS.truthy (Some (Base64.encode l)) = true.
Proof. destruct l as [|a [|b0 [|c r]]]; done. Qed.

(** X27. A PIN that was set up is the PIN that opens the provider. On a
    working store, with settings loaded, a salt that is not empty and a
    key derivation that does not return an empty result for this PIN,
    [setupPin] succeeds and stores the row it puts in the application
    store; the PIN is then enabled, [verifyPin] accepts the same PIN, and
    it rejects every well-formed PIN whose derived key differs. *)
Theorem setupPin_then_verifyPin pbkdf2 env env' saltBytes pin st b w s :
  saltBytes <> [] ->
  pbkdf2 (cryptoUtils.textEncode pin) saltBytes 100000 <> [] ->
  faults w = [] -> PinProvider.appSettings st = Some s ->
  cryptoUtils.isValidPin pin = true -> PinProvider.isTemporaryLocked st = false ->
  exists st1 b1,
    (PinProvider.setupPin pbkdf2 env saltBytes pin st b w).1
    = Ok (PinProvider.mkResult true None, st1, b1)
    /\ settings (db (PinProvider.setupPin pbkdf2 env saltBytes pin st b w).2) !! s_id s
       = PinProvider.appSettings st1
    /\ PinProvider.isPinEnabled st1 = true
    /\ (PinProvider.verifyPin pbkdf2 env' pin st1 b1).1.1 = PinProvider.mkResult true None
    /\ forall q, cryptoUtils.isValidPin q = true ->
         pbkdf2 (cryptoUtils.textEncode q) saltBytes 100000
         <> pbkdf2 (cryptoUtils.textEncode pin) saltBytes 100000 ->
         PinProvider.success (PinProvider.verifyPin pbkdf2 env' q st1 b1).1.1 = false.
Proof.
  intros Hsalt Hkey Hf Hs Hvalid Hlock. destruct w as [d q0 fs]. cbn [faults] in Hf. subst fs.
  unfold PinProvider.setupPin. rewrite Hvalid, Hs. cbn [negb].
  cbv [try_catch settings_put mbind M_bind bind ret access db eventQueue faults].
  cbn [fst snd db settings PinProvider.with_pin s_id].
  eexists _, _. split; [reflexivity|]. split; [apply lookup_insert_eq|].
  set (st1 := PinProvider.mkState _ _ _ _ _ _).
  assert (Hstored : storedPin st1 = cryptoUtils.hashPin pbkdf2 saltBytes pin) by reflexivity.
  assert (Hen : PinProvider.isPinEnabled st1 = true).
  { unfold PinProvider.isPinEnabled, st1.
    cbn [PinProvider.appSettings mbind option_bind PinProvider.with_pin pinHash pinSalt
         pinIterations cryptoUtils.hashPin hash salt iterations].
    unfold cryptoUtils.arrayBufferToBase64. by rewrite !encode_truthy. }
  assert (Hlock1 : PinProvider.isTemporaryLocked st1 = false) by exact Hlock.
  split; [exact Hen|]. split.
  - rewrite verifyPin_right; [done|done|done|done|].
    rewrite Hstored. by apply verifyPin_hashPin.
  - intros q Hq Hne.
    assert (Hwrong : cryptoUtils.verifyPin pbkdf2 q (storedPin st1) = false).
    { rewrite Hstored. apply not_true_is_false. by rewrite verifyPin_hashPin. }
    unfold PinProvider.verifyPin. rewrite Hlock1, Hq, (isPinEnabled_configured st1 Hen).
    cbn [negb]. fold (storedPin st1). rewrite Hwrong.
    by destruct (match _ <$> PinProvider.attemptCount st1 with Some _ => _ | None => _ end).
Qed.

Lemma setupPin_then_verifyPin_witness :
  exists st1 b1,
    (PinProvider.setupPin identityKdf (noon 0) (list_byte_of_string "0123456789abcdef") "4821"
       (PinProvider.mkState (Some installedSettings) true false (Some 0) false None)
       emptyBrowser (installed installedSettings)).1
    = Ok (PinProvider.mkResult true None, st1, b1)
    /\ settings (db (PinProvider.setupPin identityKdf (noon 0)
                       (list_byte_of_string "0123456789abcdef") "4821"
                       (PinProvider.mkState (Some installedSettings) true false (Some 0) false None)
                       emptyBrowser (installed installedSettings)).2) !! s_id installedSettings
       = PinProvider.appSettings st1
    /\ PinProvider.isPinEnabled st1 = true
    /\ (PinProvider.verifyPin identityKdf (noon 1) "4821" st1 b1).1.1
       = PinProvider.mkResult true None
    /\ forall q, cryptoUtils.isValidPin q = true ->
         identityKdf (cryptoUtils.textEncode q) (list_byte_of_string "0123456789abcdef") 100000
         <> identityKdf (cryptoUtils.textEncode "4821") (list_byte_of_string "0123456789abcdef")
              100000 ->
         PinProvider.success (PinProvider.verifyPin identityKdf (noon 1) q st1 b1).1.1 = false.
Proof.
  apply (setupPin_then_verifyPin identityKdf (noon 0) (noon 1)
           (list_byte_of_string "0123456789abcdef") "4821"
           (PinProvider.mkState (Some installedSettings) true false (Some 0) false None)
           emptyBrowser (installed installedSettings) installedSettings).
  - vm_compute. discriminate.
  - vm_compute. discriminate.
  - reflexivity.
  - reflexivity.
  - reflexivity.
  - reflexivity.
Defined.

(** X28. The PIN cannot be disabled without it. Whatever the store does,
    [disablePin] never throws; when it reports success, no lockout was in
    force, the PIN given passed verification against the stored hash, and
    the provider has no PIN any more; and when it reports a failure, the
    database and the settings of the application store are as they were. *)
Theorem disablePin_requires_pin pbkdf2 env currentPin st b w :
  exists result st1 b1,
    (PinProvider.disablePin pbkdf2 env currentPin st b w).1 = Ok (result, st1, b1)
    /\ (PinProvider.success result = true ->
        PinProvider.isTemporaryLocked st = false
        /\ cryptoUtils.verifyPin pbkdf2 currentPin (storedPin st) = true
        /\ PinProvider.isPinEnabled st1 = false
        /\ exists s, PinProvider.appSettings st1 = Some s
                     /\ settings (db (PinProvider.disablePin pbkdf2 env currentPin st b w).2)
                          !! s_id s = Some s
                     /\ pinHash s = None /\ pinSalt s = None /\ pinIterations s = None)
    /\ (PinProvider.success result = false ->
        db (PinProvider.disablePin pbkdf2 env currentPin st b w).2 = db w
        /\ PinProvider.appSettings st1 = PinProvider.appSettings st).
Proof.
  unfold PinProvider.disablePin, PinProvider.verifyPin. fold (storedPin st).
  destruct (PinProvider.isTemporaryLocked st) eqn:Hlock.
  { cbn. eexists _, _, _. split; [reflexivity|]. split; [discriminate|done]. }
  destruct (cryptoUtils.isValidPin currentPin); cbn [negb].
  2:{ cbn. eexists _, _, _. split; [reflexivity|]. split; [discriminate|done]. }
  destruct (negb _ || negb _ || negb _) eqn:Hconf.
  { cbn. eexists _, _, _. split; [reflexivity|]. split; [discriminate|done]. }
  destruct (cryptoUtils.verifyPin pbkdf2 currentPin (storedPin st)) eqn:Hver.
  2:{ destruct (match _ <$> PinProvider.attemptCount st with Some _ => _ | None => _ end);
        cbn; eexists _, _, _; (split; [reflexivity|]); (split; [discriminate|done]). }
  cbn [PinProvider.success negb].
  destruct (PinProvider.appSettings st) as [s|] eqn:Hs.
  2:{ cbn in Hconf. discriminate. }
  cbv [try_catch settings_put mbind M_bind bind ret access throw].
  destruct (faults w) as [|[] fs]; cbn [fst snd db settings PinProvider.success
    PinProvider.appSettings PinProvider.with_pin s_id];
    eexists _, _, _; (split; [reflexivity|]); split; try discriminate; try done;
    intros _; (split; [done|]); (split; [done|]); (split; [done|]);
    eexists; (split; [reflexivity|]); cbn [s_id pinHash pinSalt pinIterations];
    (split; [apply lookup_insert_eq|done]).
Qed.

(* ===================================================================== *)
(** * Deleting all data                                                   *)
(* ===================================================================== *)

Lemma removeAppKeys_lookup (s : Storage) k :
  dbUtils.removeAppKeys s !! k = if dbUtils.isAppKey k then None else s !! k.
Proof.
  unfold dbUtils.removeAppKeys, Storage in *. apply option_eq. intros x.
  rewrite map_lookup_filter_Some. cbn [fst].
  destruct (dbUtils.isAppKey k); intuition congruence.
Qed.

Lemma removeAppKeys_Some (s : Storage) k v : dbUtils.removeAppKeys s !! k = Some v -> s !! k = Some v.
Proof. rewrite removeAppKeys_lookup. by destruct (dbUtils.isAppKey k). Qed.

Lemma removeAppKeys_other (s : Storage) k :
  dbUtils.isAppKey k = false -> dbUtils.removeAppKeys s !! k = s !! k.
Proof. intros H. by rewrite removeAppKeys_lookup, H. Qed.

Lemma elem_of_filter_list {A} (f : A -> bool) (l : list A) x :
  x ∈ List.filter f l <-> x ∈ l /\ f x = true.
Proof. by rewrite list_elem_of_In, filter_In, <- list_elem_of_In. Qed.

(** The cleaning removes only data of the application, however far it
    gets; when it ends without an exception all of that data is gone; and
    it ends so when the browser refuses nothing. *)
Lemma clearBrowser_spec refusals b :
  lostOnlyAppData b (dbUtils.clearBrowser refusals b).2
  /\ ((dbUtils.clearBrowser refusals b).1 = Ok tt
      -> withoutAppData b (dbUtils.clearBrowser refusals b).2)
  /\ (refusesNothing refusals b <-> (dbUtils.clearBrowser refusals b).1 = Ok tt).
Proof.
  unfold dbUtils.clearBrowser, lostOnlyAppData, withoutAppData, refusesNothing.
  destruct (dbUtils.localStorageThrows refusals).
  { cbn. split_and!; try done. split; [intros [? _]; done|done]. }
  destruct (dbUtils.sessionStorageThrows refusals).
  { cbn [fst snd localStorage sessionStorage cacheNames]. split_and!; try done.
    - apply removeAppKeys_Some.
    - apply removeAppKeys_other.
    - split; [intros (_ & ? & _); done|done]. }
  destruct (dbUtils.cachesKeysRejects refusals).
  { cbn [fst snd localStorage sessionStorage cacheNames]. split_and!; try done.
    - apply removeAppKeys_Some.
    - apply removeAppKeys_other.
    - apply removeAppKeys_Some.
    - apply removeAppKeys_other.
    - split; [intros (_ & _ & ? & _); done|done]. }
  cbv zeta. cbn [localStorage sessionStorage cacheNames].
  assert (Hrej : existsb (dbUtils.cacheDeleteRejects refusals)
                   (List.filter dbUtils.isAppCache (cacheNames b)) = false
                 <-> forall name, name ∈ cacheNames b -> dbUtils.isAppCache name = true
                       -> dbUtils.cacheDeleteRejects refusals name = false).
  { rewrite <- not_true_iff_false, existsb_exists. split.
    - intros H name Hin Happ. apply not_true_iff_false. intros Hr. apply H.
      exists name. split; [|done]. apply filter_In. split; [by apply list_elem_of_In|done].
    - intros H (name & Hin & Hr). apply filter_In in Hin as [Hin Happ].
      rewrite (H name) in Hr; [done|by apply list_elem_of_In|done]. }
  destruct (existsb _ _) eqn:E; cbn [fst snd localStorage sessionStorage cacheNames].
  - split_and!; try done.
    + apply removeAppKeys_Some.
    + apply removeAppKeys_other.
    + apply removeAppKeys_Some.
    + apply removeAppKeys_other.
    + intros name. rewrite elem_of_filter_list. tauto.
    + intros name Happ Hin. apply elem_of_filter_list. by rewrite Happ.
    + split; [|done]. intros (_ & _ & _ & H). apply Hrej in H. done.
  - pose proof (proj1 Hrej eq_refl) as Hnone. split_and!; try done.
    + apply removeAppKeys_Some.
    + apply removeAppKeys_other.
    + apply removeAppKeys_Some.
    + apply removeAppKeys_other.
    + intros name. rewrite elem_of_filter_list. tauto.
    + intros name Happ Hin. apply elem_of_filter_list. by rewrite Happ.
    + intros _. split_and!.
      * apply removeAppKeys_lookup.
      * apply removeAppKeys_lookup.
      * intros name. rewrite elem_of_filter_list. split.
        -- intros [Hin Hkeep]. split; [done|].
           destruct (dbUtils.isAppCache name) eqn:Happ; [|done].
           rewrite (Hnone name Hin Happ) in Hkeep. done.
        -- intros [Hin Happ]. by rewrite Happ.
Qed.

Lemma lostOnlyAppData_refl b : lostOnlyAppData b b.
Proof. unfold lostOnlyAppData. split_and!; done. Qed.

(** X29. [deleteAllData] never throws, whatever the store and the browser
    do, and the browser never loses anything but data of the application.
    When it reports success no other tab was open, the four tables are
    empty, every key of [localStorage] and [sessionStorage] that starts
    with ["nvj_"] or contains ["negviz"] is gone, every other key keeps its
    value, and the caches whose name contains ["negviz"] or ["journal"] are
    deleted. When it reports a failure, either nothing was changed, or the
    transaction had committed, so the four tables are empty, and the
    browser refused a step of the cleaning that follows it in the same
    [try]. With no other tab, a working store and a browser that refuses
    nothing it reports success. *)
Theorem deleteAllData_effect hasOtherTabs refusals b w :
  exists result b',
    (dbUtils.deleteAllData hasOtherTabs refusals b w).1 = Ok (result, b')
    /\ lostOnlyAppData b b'
    /\ (dbUtils.d_success result = true ->
        hasOtherTabs = false
        /\ db (dbUtils.deleteAllData hasOtherTabs refusals b w).2 = mkStore ∅ [] ∅ ∅
        /\ withoutAppData b b')
    /\ (dbUtils.d_success result = false ->
        (db (dbUtils.deleteAllData hasOtherTabs refusals b w).2 = db w /\ b' = b)
        \/ (db (dbUtils.deleteAllData hasOtherTabs refusals b w).2 = mkStore ∅ [] ∅ ∅
            /\ ~ refusesNothing refusals b))
    /\ (hasOtherTabs = false -> faults w = [] -> refusesNothing refusals b ->
        dbUtils.d_success result = true).
Proof.
  destruct (clearBrowser_spec refusals b) as (Hlost & Hclean & Hrefuse).
  unfold dbUtils.deleteAllData, dbUtils.wipeAllData, try_catch_with.
  destruct hasOtherTabs.
  { cbn. eexists _, _. split; [reflexivity|]. split; [apply lostOnlyAppData_refl|].
    split; [discriminate|]. split; [by left|done]. }
  cbv [mbind M_bind bind ret access].
  destruct (dbUtils.clearBrowser refusals b) as [[[]|message] b1] eqn:E;
    cbn [fst snd] in Hlost, Hclean, Hrefuse.
  - destruct (faults w) as [|[] fs]; cbn [fst snd db dbUtils.d_success];
      eexists _, _; (split; [reflexivity|]).
    + split; [done|]. split; [intros _; by auto|]. split; [discriminate|done].
    + split; [apply lostOnlyAppData_refl|]. split; [discriminate|]. split; [by left|done].
    + split; [done|]. split; [intros _; by auto|]. split; [discriminate|done].
  - assert (Hnot : ~ refusesNothing refusals b) by (rewrite Hrefuse; discriminate).
    destruct (faults w) as [|[] fs]; cbn [fst snd db dbUtils.d_success];
      eexists _, _; (split; [reflexivity|]).
    + split; [done|]. split; [discriminate|]. split; [by right|]. intros _ _ H. by destruct Hnot.
    + split; [apply lostOnlyAppData_refl|]. split; [discriminate|]. split; [by left|done].
    + split; [done|]. split; [discriminate|]. split; [by right|done].
Qed.

(** The failure after the wipe at work: when [caches.keys()] rejects, the
    call reports a failure, with the journal gone, the storage keys of the
    application removed and the caches still there. *)
Lemma deleteAllData_fails_after_the_wipe :
  forall result b',
    (dbUtils.deleteAllData false cachesRefused usedBrowser (savedOn 0 freshInstall)).1
    = Ok (result, b') ->
    result = dbUtils.mkDeleted false (Some "The operation is insecure.")
    /\ db (dbUtils.deleteAllData false cachesRefused usedBrowser (savedOn 0 freshInstall)).2
       = mkStore ∅ [] ∅ ∅
    /\ localStorage b' !! "nvj_lastActivity" = None
    /\ localStorage b' !! "theme" = Some "dark"
    /\ cacheNames b' = ["negviz-static-v1"; "fonts"].
Proof.
  intros result b'. unfold dbUtils.deleteAllData, cachesRefused, dbUtils.clearBrowser.
  cbn [dbUtils.localStorageThrows dbUtils.sessionStorageThrows dbUtils.cachesKeysRejects
       dbUtils.refusalMessage localStorage sessionStorage cacheNames].
  unfold try_catch_with, dbUtils.wipeAllData. cbv [mbind M_bind bind ret access].
  replace (faults (savedOn 0 freshInstall)) with (@nil bool) by (vm_compute; reflexivity).
  cbn [fst snd db]. intros [= <- <-]. cbn [localStorage cacheNames].
  split_and!; done.
Qed.

(** X30. The reset for a forgotten PIN. [resetWithWipe] never throws and
    the browser never loses anything but data of the application. When it
    reports success the four tables are empty, the data of the application
    is gone from the browser, the session is not marked as locked, and a
    provider that is mounted afterwards finds no lockout and no counted
    attempt: it keeps its fresh state and leaves the storage as it is.
    When it reports a failure, either nothing was changed, or the
    transaction had committed, so the four tables are empty, and the
    browser refused a step of the cleaning that follows it in the same
    [try]. On a working store and a browser that refuses nothing it
    reports success. *)
Theorem resetWithWipe_clears_lockout refusals b w env st0 :
  exists result b',
    (PinProvider.resetWithWipe refusals b w).1 = Ok (result, b')
    /\ lostOnlyAppData b b'
    /\ (PinProvider.success result = true ->
        db (PinProvider.resetWithWipe refusals b w).2 = mkStore ∅ [] ∅ ∅
        /\ withoutAppData b b'
        /\ sessionUtils.isLocked (localStorage b') = false
        /\ localStorage b' !! "nvj_telemetry_queue" = None
        /\ PinProvider.initializePinState env st0 b'
           = (PinProvider.mkState (PinProvider.appSettings st0) true (PinProvider.isLocked st0)
                (PinProvider.attemptCount st0) (PinProvider.isTemporaryLocked st0)
                (PinProvider.lockoutEndTime st0), b'))
    /\ (PinProvider.success result = false ->
        (db (PinProvider.resetWithWipe refusals b w).2 = db w /\ b' = b)
        \/ (db (PinProvider.resetWithWipe refusals b w).2 = mkStore ∅ [] ∅ ∅
            /\ ~ refusesNothing refusals b))
    /\ (faults w = [] -> refusesNothing refusals b -> PinProvider.success result = true).
Proof.
  destruct (clearBrowser_spec refusals b) as (Hlost & Hclean & Hrefuse).
  assert (Hmount : forall b1, withoutAppData b b1 ->
            withoutAppData b b1
            /\ sessionUtils.isLocked (localStorage b1) = false
            /\ localStorage b1 !! "nvj_telemetry_queue" = None
            /\ PinProvider.initializePinState env st0 b1
               = (PinProvider.mkState (PinProvider.appSettings st0) true (PinProvider.isLocked st0)
                    (PinProvider.attemptCount st0) (PinProvider.isTemporaryLocked st0)
                    (PinProvider.lockoutEndTime st0), b1)).
  { intros b1 Hwithout. split; [done|]. destruct Hwithout as (Hls & _ & _).
    unfold sessionUtils.isLocked, PinProvider.initializePinState, PinProvider.with_localStorage.
    rewrite !Hls.
    change (dbUtils.isAppKey "nvj_sessionLocked") with true.
    change (dbUtils.isAppKey "nvj_telemetry_queue") with true.
    change (dbUtils.isAppKey "nvj_pinLockoutEnd") with true.
    change (dbUtils.isAppKey "nvj_pinAttempts") with true.
    cbv beta iota zeta. cbn [JS.truthy]. cbv beta iota zeta.
    rewrite ?Hls.
    change (dbUtils.isAppKey "nvj_pinAttempts") with true.
    cbv beta iota zeta. cbn [JS.truthy]. by destruct b1. }
  unfold PinProvider.resetWithWipe, dbUtils.wipeAllData, try_catch.
  cbv [mbind M_bind bind ret access].
  destruct (dbUtils.clearBrowser refusals b) as [[[]|message] b1] eqn:E;
    cbn [fst snd] in Hlost, Hclean, Hrefuse.
  - destruct (faults w) as [|[] fs]; cbn [fst snd db PinProvider.success];
      eexists _, _; (split; [reflexivity|]).
    + split; [done|]. split; [intros _; split; [done|]; by apply Hmount, Hclean|].
      split; [discriminate|done].
    + split; [apply lostOnlyAppData_refl|]. split; [discriminate|]. split; [by left|done].
    + split; [done|]. split; [intros _; split; [done|]; by apply Hmount, Hclean|].
      split; [discriminate|done].
  - assert (Hnot : ~ refusesNothing refusals b) by (rewrite Hrefuse; discriminate).
    destruct (faults w) as [|[] fs]; cbn [fst snd db PinProvider.success];
      eexists _, _; (split; [reflexivity|]).
    + split; [done|]. split; [discriminate|]. split; [by right|]. intros _ H. by destruct Hnot.
    + split; [apply lostOnlyAppData_refl|]. split; [discriminate|]. split; [by left|done].
    + split; [done|]. split; [discriminate|]. split; [by right|done].
Qed.
